(** * Attendance management system: a shallow embedding of [models.py]

    The development follows the layout of the Python sources:
    - [config.py]  becomes the record [config] and its shipped value [config_py];
    - the three SQLite tables of [db_init.py] become lists of row records
      inside [database], with their constraints (PRIMARY KEY AUTOINCREMENT,
      UNIQUE, FOREIGN KEY with [PRAGMA foreign_keys = ON]) checked by the
      statements that write to them;
    - [models.py] becomes the modules [Student], [Attendance] and [Session],
      written in a small state-and-exception monad whose state is an open
      [sqlite3] connection (the committed database and the uncommitted view).

    Calendar dates are Python [datetime.date] values, represented by their
    proleptic Gregorian ordinal ([date.toordinal()]); timestamps are Python
    [datetime.datetime] values, represented by the number of microseconds
    since 0001-01-01T00:00:00.  Both are bounded as in Python and arithmetic
    that leaves the range raises [OverflowError]. *)

From Stdlib Require Import String.
From Stdlib Require Import ZArith List Bool Lia Floats Uint63.
From Stdlib Require Import Permutation Sorted.
From Equations Require Import Equations.
From Equations.Prop Require Import Logic.
Import ListNotations.
Open Scope Z_scope.

(** ** Exceptions and the state-and-exception monad *)

Inductive exn : Type :=
| IntegrityError   (* sqlite3.IntegrityError: a table constraint failed *)
| OverflowError.   (* date or timedelta arithmetic out of range *)

Inductive result (A : Type) : Type :=
| Ok (a : A)
| Raise (e : exn).
Arguments Ok {A} a.
Arguments Raise {A} e.

(** A computation that reads and writes a state [S] and either returns a
    value or raises.  The state that is current when the exception is raised
    is kept: what happens to it is decided by the enclosing handler. *)
Definition M (S A : Type) : Type := S -> result A * S.

Definition ret {S A} (a : A) : M S A := fun s => (Ok a, s).

Definition raise {S A} (e : exn) : M S A := fun s => (Raise e, s).

Definition bind {S A B} (m : M S A) (k : A -> M S B) : M S B :=
  fun s => match m s with
           | (Ok a, s') => k a s'
           | (Raise e, s') => (Raise e, s')
           end.

(** [try: m except e: h e] *)
Definition try_except {S A} (m : M S A) (h : exn -> M S A) : M S A :=
  fun s => match m s with
           | (Ok a, s') => (Ok a, s')
           | (Raise e, s') => h e s'
           end.

Definition lift_result {S A} (r : result A) : M S A := fun s => (r, s).

Declare Scope monad_scope.
Delimit Scope monad_scope with monad.
Notation "x <- m ;; k" := (bind m (fun x => k))
  (at level 61, m at next level, right associativity) : monad_scope.
Notation "m ;;; k" := (bind m (fun _ => k))
  (at level 61, right associativity) : monad_scope.
Open Scope monad_scope.

(** [for x in l: f x] *)
Fixpoint for_each {S A} (f : A -> M S unit) (l : list A) : M S unit :=
  match l with
  | [] => ret tt
  | x :: l' => f x ;;; for_each f l'
  end.

(** ** Python's [datetime] module *)

Module datetime.

(** [date.toordinal()]: 1 is 0001-01-01, [MAXORDINAL] is 9999-12-31. *)
Definition date : Type := Z.
Definition MINORDINAL : Z := 1.
Definition MAXORDINAL : Z := 3652059.

Definition date_in_range (o : Z) : bool :=
  (MINORDINAL <=? o) && (o <=? MAXORDINAL).

(** [timedelta(days=n)]: the constructor refuses more than 999999999 days
    in either direction. *)
Definition MAX_DELTA_DAYS : Z := 999999999.

Definition timedelta_days (n : Z) : result Z :=
  if (- MAX_DELTA_DAYS <=? n) && (n <=? MAX_DELTA_DAYS)
  then Ok n else Raise OverflowError.

(** [d + timedelta(days=n)] *)
Definition date_add (d : date) (n : Z) : result date :=
  match timedelta_days n with
  | Raise e => Raise e
  | Ok n => if date_in_range (d + n) then Ok (d + n) else Raise OverflowError
  end.

(** [d - timedelta(days=n)] *)
Definition date_sub (d : date) (n : Z) : result date :=
  match timedelta_days n with
  | Raise e => Raise e
  | Ok n => if date_in_range (d - n) then Ok (d - n) else Raise OverflowError
  end.

(** [date.weekday()]: Monday is 0 and Sunday is 6.  CPython computes it as
    [(self.toordinal() + 6) % 7]. *)
Definition weekday (d : date) : Z := (d + 6) mod 7.

(** A [datetime.datetime]: microseconds since 0001-01-01T00:00:00. *)
Definition datetime : Type := Z.
Definition USEC_PER_HOUR : Z := 3600 * 1000000.
Definition USEC_PER_DAY : Z := 24 * USEC_PER_HOUR.

Definition datetime_in_range (t : Z) : bool :=
  (0 <=? t) && (t <? MAXORDINAL * USEC_PER_DAY).

(** [t.date()] *)
Definition date_of (t : datetime) : date := t / USEC_PER_DAY + 1.

(** [t + timedelta(hours=h)] *)
Definition datetime_add_hours (t : datetime) (h : Z) : result datetime :=
  if datetime_in_range (t + h * USEC_PER_HOUR)
  then Ok (t + h * USEC_PER_HOUR) else Raise OverflowError.

End datetime.
Import datetime.

(** The clock as one request sees it.  [now] is what [datetime.datetime.now()]
    returns, [today] is [datetime.date.today()], the date of the same local
    clock; [CURRENT_TIMESTAMP] is what SQLite fills into the [created_at]
    columns.  A request is served at one instant, so every reading of the
    clock inside one operation returns the same value. *)
Record clock : Type := {
  now : datetime;
  CURRENT_TIMESTAMP : datetime
}.

Definition today (clk : clock) : date := date_of (now clk).

(** ** [config.py] *)

Record config : Type := {
  ATTENDANCE_THRESHOLD : Z;
  ATTENDANCE_PERIOD_DAYS : Z;
  SESSION_LIFETIME : Z
}.

(** The values shipped in [config.py]. *)
Definition config_py : config := {|
  ATTENDANCE_THRESHOLD := 75;
  ATTENDANCE_PERIOD_DAYS := 30;
  SESSION_LIFETIME := 24
|}.

(** ** The database of [db_init.py] *)

Record student_row : Type := {
  st_id : Z;
  st_username : string;
  st_password : string;
  st_name : string;
  st_email : string;
  st_created_at : datetime
}.

Record attendance_row : Type := {
  at_id : Z;
  at_student_id : Z;
  at_date : date;
  at_logged_in : Z;
  at_login_time : option datetime
}.

Record session_row : Type := {
  se_id : Z;
  se_student_id : Z;
  se_session_token : string;
  se_created_at : datetime;
  se_expires_at : datetime
}.

(** Rows are kept in insertion order, which is rowid order.  The [seq_]
    fields are the [sqlite_sequence] counters of the AUTOINCREMENT keys. *)
Record database : Type := {
  students : list student_row;
  attendance : list attendance_row;
  sessions : list session_row;
  seq_students : Z;
  seq_attendance : Z;
  seq_sessions : Z
}.

(** An open connection: [committed] is what is on disk, [pending] is what the
    connection sees, including the statements of its open transaction. *)
Record connection : Type := {
  committed : database;
  pending : database
}.

Definition sql (A : Type) : Type := M connection A.

(** A SELECT: evaluated on the connection's view. *)
Definition select {A} (q : database -> A) : sql A :=
  fun c => (Ok (q (pending c)), c).

(** An INSERT, UPDATE or DELETE: it either changes the connection's view or
    raises and leaves it as it was. *)
Definition execute {A} (stmt : database -> result (A * database)) : sql A :=
  fun c => match stmt (pending c) with
           | Ok (a, db') => (Ok a, {| committed := committed c; pending := db' |})
           | Raise e => (Raise e, c)
           end.

(** [conn.commit()] *)
Definition commit : sql unit :=
  fun c => (Ok tt, {| committed := pending c; pending := pending c |}).

(** [with get_db_connection() as conn: body].  The connection is closed on
    every exit; closing discards a transaction that was not committed. *)
Definition get_db_connection {A} (body : sql A) : M database A :=
  fun db => let (r, c) := body {| committed := db; pending := db |} in
            (r, committed c).

(** AUTOINCREMENT: one more than the largest rowid the table ever held. *)
Definition max_rowid (ids : list Z) : Z := fold_right Z.max 0 ids.

Definition next_rowid (seq : Z) (ids : list Z) : Z :=
  Z.max seq (max_rowid ids) + 1.

Definition student_exists (db : database) (student_id : Z) : bool :=
  existsb (fun s => st_id s =? student_id) (students db).

(** *** Statements on [attendance] *)

Definition attendance_key (student_id : Z) (d : date) (r : attendance_row) : bool :=
  (at_student_id r =? student_id) && (at_date r =? d).

(** [date BETWEEN ? AND ?].  Dates are stored as ISO text with a four-digit
    year, so the text order SQLite uses is the calendar order. *)
Definition between (lo hi : date) (d : date) : bool :=
  (lo <=? d) && (d <=? hi).

Definition in_window (student_id : Z) (lo hi : date) (r : attendance_row) : bool :=
  (at_student_id r =? student_id) && between lo hi (at_date r).

(** The table [attendance] replaced by [rows], its counter by [seq]. *)
Definition with_attendance (db : database) (rows : list attendance_row)
    (seq : Z) : database :=
  {| students := students db;
     attendance := rows;
     sessions := sessions db;
     seq_students := seq_students db;
     seq_attendance := seq;
     seq_sessions := seq_sessions db |}.

(** The row an INSERT of the four values creates under the key [id]. *)
Definition attendance_values (id : Z) (v : Z * date * Z * option datetime)
  : attendance_row :=
  let '(student_id, d, logged_in, login_time) := v in
  {| at_id := id; at_student_id := student_id; at_date := d;
     at_logged_in := logged_in; at_login_time := login_time |}.

Definition append_attendance (db : database)
    (v : Z * date * Z * option datetime) : database :=
  let id := next_rowid (seq_attendance db) (map at_id (attendance db)) in
  with_attendance db (attendance db ++ [attendance_values id v]) id.

(** INSERT INTO attendance (student_id, date, logged_in, login_time) VALUES (?, ?, ?, ?).
    It fails on a student that does not exist (FOREIGN KEY) and on a second
    row for the same student and date (UNIQUE). *)
Definition insert_attendance
    (v : Z * date * Z * option datetime) : sql unit :=
  let '(student_id, d, _, _) := v in
  execute (fun db =>
    if negb (student_exists db student_id) then Raise IntegrityError
    else if existsb (attendance_key student_id d) (attendance db)
    then Raise IntegrityError
    else Ok (tt, append_attendance db v)).

(** The effect of the UPDATE below on one row. *)
Definition set_login (login_time : datetime) (id : Z) (r : attendance_row)
  : attendance_row :=
  if at_id r =? id
  then {| at_id := at_id r; at_student_id := at_student_id r;
          at_date := at_date r;
          at_logged_in := 1; at_login_time := Some login_time |}
  else r.

(** UPDATE attendance SET logged_in = 1, login_time = ? WHERE id = ? *)
Definition update_attendance_login (login_time : datetime) (id : Z) : sql unit :=
  execute (fun db =>
    Ok (tt, with_attendance db (map (set_login login_time id) (attendance db))
                            (seq_attendance db))).

(** SELECT id FROM attendance WHERE student_id = ? AND date = ?, [fetchone()] *)
Definition select_attendance_id (student_id : Z) (d : date) : sql (option Z) :=
  select (fun db =>
    option_map at_id (find (attendance_key student_id d) (attendance db))).

(** SELECT COUNT( * ) FROM attendance WHERE student_id = ? AND date BETWEEN ? AND ? *)
Definition count_attendance (student_id : Z) (lo hi : date) : sql Z :=
  select (fun db =>
    Z.of_nat (length (filter (in_window student_id lo hi) (attendance db)))).

(** ... AND logged_in = 1 *)
Definition count_present (student_id : Z) (lo hi : date) : sql Z :=
  select (fun db =>
    Z.of_nat (length (filter
      (fun r => in_window student_id lo hi r && (at_logged_in r =? 1))
      (attendance db)))).

(** SELECT date, logged_in, login_time ... ORDER BY date DESC.  The rows are
    sorted by insertion into a list that is kept in descending date order. *)
Fixpoint insert_by_date_desc (r : attendance_row) (l : list attendance_row)
  : list attendance_row :=
  match l with
  | [] => [r]
  | x :: l' => if at_date x <=? at_date r then r :: x :: l'
               else x :: insert_by_date_desc r l'
  end.

Definition order_by_date_desc (l : list attendance_row) : list attendance_row :=
  fold_right insert_by_date_desc [] l.

(** *** Statements on [students] *)

(** INSERT INTO students (username, password, name, email) VALUES (?, ?, ?, ?) *)
Definition insert_student (created_at : datetime)
    (v : string * string * string * string) : sql unit :=
  let '(username, password, name, email) := v in
  execute (fun db =>
    if existsb (fun s => String.eqb (st_username s) username) (students db)
    then Raise IntegrityError
    else if existsb (fun s => String.eqb (st_email s) email) (students db)
    then Raise IntegrityError
    else
      let id := next_rowid (seq_students db) (map st_id (students db)) in
      Ok (tt, {| students := students db ++
                   [{| st_id := id; st_username := username;
                       st_password := password; st_name := name;
                       st_email := email; st_created_at := created_at |}];
                 attendance := attendance db;
                 sessions := sessions db;
                 seq_students := id;
                 seq_attendance := seq_attendance db;
                 seq_sessions := seq_sessions db |})).

(** *** Statements on [sessions] *)

(** INSERT INTO sessions (student_id, session_token, expires_at) VALUES (?, ?, ?) *)
Definition insert_session (created_at : datetime)
    (v : Z * string * datetime) : sql unit :=
  let '(student_id, token, expires_at) := v in
  execute (fun db =>
    if negb (student_exists db student_id) then Raise IntegrityError
    else
      let id := next_rowid (seq_sessions db) (map se_id (sessions db)) in
      Ok (tt, {| students := students db;
                 attendance := attendance db;
                 sessions := sessions db ++
                   [{| se_id := id; se_student_id := student_id;
                       se_session_token := token;
                       se_created_at := created_at;
                       se_expires_at := expires_at |}];
                 seq_students := seq_students db;
                 seq_attendance := seq_attendance db;
                 seq_sessions := id |})).

(** The WHERE clause of [Session.validate]:
    session_token = ? AND expires_at > ?.  Timestamps are stored as ISO text
    (zero-padded fields, the microseconds left out when they are 0), whose
    text order is the order of the instants. *)
Definition session_live (token : string) (t : datetime) (r : session_row) : bool :=
  String.eqb (se_session_token r) token && (t <? se_expires_at r).

(** DELETE FROM sessions WHERE session_token = ?; the value is [cursor.rowcount]. *)
Definition delete_session (token : string) : sql Z :=
  execute (fun db =>
    let hit r := String.eqb (se_session_token r) token in
    Ok (Z.of_nat (length (filter hit (sessions db))),
        {| students := students db;
           attendance := attendance db;
           sessions := filter (fun r => negb (hit r)) (sessions db);
           seq_students := seq_students db;
           seq_attendance := seq_attendance db;
           seq_sessions := seq_sessions db |})).

(** ** Python numbers *)

(** The [percentage] entry is an [int] on one path and a [float] on the other. *)
Inductive number : Type :=
| PyInt (z : Z)
| PyFloat (f : float).

(** [float(z)] for a count; exact below 2^53, far above any row count. *)
Definition float_of_int (z : Z) : float := PrimFloat.of_uint63 (Uint63.of_Z z).

(** [a / b] on two ints below 2^53: CPython divides the two doubles. *)
Definition int_truediv (a b : Z) : float :=
  PrimFloat.div (float_of_int a) (float_of_int b).

(** The integer nearest to [m * 2^e], ties going to the even one. *)
Definition nearest_even (m e : Z) : Z :=
  if 0 <=? e then m * 2 ^ e
  else
    let d := 2 ^ (- e) in
    let q := m / d in
    let r := m mod d in
    match 2 * r ?= d with
    | Lt => q
    | Gt => q + 1
    | Eq => if Z.even q then q else q + 1
    end.

(** [round(x, 2)] on a float: CPython rounds the exact binary value of [x] to
    two decimals, ties to even, and returns the double nearest to that
    decimal.  The quotient of an integer below 2^53 by 100 is that double. *)
Definition round2_float (x : float) : float :=
  match Prim2SF x with
  | S754_finite s m e =>
      let n := nearest_even (Zpos m * 100) e in
      let r := PrimFloat.div (float_of_int n) (float_of_int 100) in
      if s then PrimFloat.opp r else r
  | _ => x
  end.

(** [round(x, 2)]: an int is returned as it is. *)
Definition round2 (x : number) : number :=
  match x with
  | PyInt z => PyInt z
  | PyFloat f => PyFloat (round2_float f)
  end.

(** ** [models.py] *)

(** *** [class Student] *)

Module Student.

(** [get_by_id(student_id)] *)
Definition get_by_id (student_id : Z) : M database (option student_row) :=
  get_db_connection
    (select (fun db => find (fun s => st_id s =? student_id) (students db))).

(** [get_by_username(username)] *)
Definition get_by_username (username : string)
  : M database (option student_row) :=
  get_db_connection
    (select (fun db =>
       find (fun s => String.eqb (st_username s) username) (students db))).

(** [verify_password(username, password)].  [sha256] stands for
    [hashlib.sha256(s.encode()).hexdigest()]. *)
Definition verify_password (sha256 : string -> string)
    (username password : string) : M database (option Z) :=
  let hashed_password := sha256 password in
  get_db_connection
    (result <- select (fun db =>
       find (fun s => String.eqb (st_username s) username
                      && String.eqb (st_password s) hashed_password)
            (students db)) ;;
     ret (match result with Some r => Some (st_id r) | None => None end)).

(** [create(username, password, name, email)] *)
Definition create (sha256 : string -> string) (clk : clock)
    (username password name email : string) : M database bool :=
  let hashed_password := sha256 password in
  get_db_connection
    (try_except
       (insert_student (CURRENT_TIMESTAMP clk)
          (username, hashed_password, name, email) ;;;
        commit ;;;
        ret true)
       (fun e => match e with
                 | IntegrityError => ret false
                 | _ => raise e
                 end)).

End Student.

(** *** [class Attendance] *)

Record attendance_stats : Type := {
  percentage : number;
  present_days : Z;
  total_days : Z;
  start_date : date;
  end_date : date
}.

(** One dictionary of the list [get_attendance_history] returns. *)
Record history_entry : Type := {
  he_date : date;
  he_logged_in : Z;
  he_login_time : option datetime
}.

(** [dict_factory]: the stored texts of [date] and [login_time] are parsed
    back into the values they were written from. *)
Definition dict_factory (r : attendance_row) : history_entry :=
  {| he_date := at_date r;
     he_logged_in := at_logged_in r;
     he_login_time := at_login_time r |}.

Module Attendance.

(** [mark_attendance(student_id)] *)
Definition mark_attendance (clk : clock) (student_id : Z) : M database bool :=
  let today := today clk in
  let now := now clk in
  get_db_connection
    (existing <- select_attendance_id student_id today ;;
     match existing with
     | Some id => update_attendance_login now id
     | None => insert_attendance (student_id, today, 1, Some now)
     end ;;;
     commit ;;;
     ret true).

(** The loop of [get_attendance_percentage] that collects the days to
    backfill:
    [while current_date <= end_date and current_date <= date.today()]. *)
Equations? missing_days_loop (student_id : Z) (end_date today : date)
    (current_date : date) (missing_days : list (Z * date * Z * option datetime))
  : result (list (Z * date * Z * option datetime))
  by wf (Z.to_nat (end_date + 1 - current_date)) lt :=
  missing_days_loop student_id end_date today current_date missing_days
    with inspect ((current_date <=? end_date) && (current_date <=? today)) := {
    | exist _ false _ => Ok missing_days
    | exist _ true Hc with inspect (date_add current_date 1) := {
        | exist _ (Raise e) _ => Raise e
        | exist _ (Ok next) Hn =>
            missing_days_loop student_id end_date today next
              (if weekday current_date <? 5
               then missing_days ++ [(student_id, current_date, 0, None)]
               else missing_days) } }.
Proof.
  unfold date_add in Hn. simpl in Hn.
  destruct (date_in_range (current_date + 1)); inversion Hn; subst.
  apply andb_prop in Hc. destruct Hc as [Hc _]. apply Z.leb_le in Hc. lia.
Qed.

(** [get_attendance_percentage(student_id, days=30)] *)
Definition get_attendance_percentage (cfg : config) (clk : clock)
    (student_id : Z) (days : Z) : M database attendance_stats :=
  let days := if days =? 30 then ATTENDANCE_PERIOD_DAYS cfg else days in
  let end_date := today clk in
  start_date <- lift_result (date_sub end_date (days - 1)) ;;
  get_db_connection
    (let days_in_period := Z.min days (end_date - start_date + 1) in
     record_count <- count_attendance student_id start_date end_date ;;
     record_count <-
       (if record_count =? 0 then
          missing_days <- lift_result
            (missing_days_loop student_id end_date (today clk) start_date []) ;;
          match missing_days with
          | _ :: _ =>
              for_each insert_attendance missing_days ;;;
              commit ;;;
              ret (Z.of_nat (length missing_days))
          | [] => ret record_count
          end
        else ret record_count) ;;
     present_days <- count_present student_id start_date end_date ;;
     let total_days := record_count in
     let percentage :=
       if total_days >? 0
       then PyFloat (PrimFloat.mul (int_truediv present_days total_days)
                                   (float_of_int 100))
       else PyInt 0 in
     ret {| percentage := round2 percentage;
            present_days := present_days;
            total_days := total_days;
            start_date := start_date;
            end_date := end_date |}).

(** [get_attendance_history(student_id, days=30)] *)
Definition get_attendance_history (clk : clock)
    (student_id : Z) (days : Z) : M database (list history_entry) :=
  let end_date := today clk in
  start_date <- lift_result (date_sub end_date (days - 1)) ;;
  get_db_connection
    (attendance_records <- select (fun db =>
       map dict_factory
         (order_by_date_desc
            (filter (in_window student_id start_date end_date)
                    (attendance db)))) ;;
     match attendance_records with
     | [] => ret [{| he_date := end_date;
                     he_logged_in := 0;
                     he_login_time := None |}]
     | _ :: _ => ret attendance_records
     end).

End Attendance.

(** *** [class Session] *)

Module Session.

(** [create(student_id)].  [token] is the value [secrets.token_hex(16)]
    draws for this call. *)
Definition create (clk : clock) (token : string) (student_id : Z)
  : M database string :=
  expires_at <- lift_result (datetime_add_hours (now clk) 24) ;;
  get_db_connection
    (insert_session (CURRENT_TIMESTAMP clk) (student_id, token, expires_at) ;;;
     commit ;;;
     ret token).

(** [validate(token)] *)
Definition validate (clk : clock) (token : string) : M database (option Z) :=
  let now := now clk in
  get_db_connection
    (result <- select (fun db => find (session_live token now) (sessions db)) ;;
     ret (match result with Some r => Some (se_student_id r) | None => None end)).

(** [delete(token)] *)
Definition delete (token : string) : M database bool :=
  get_db_connection
    (rowcount <- delete_session token ;;
     commit ;;;
     ret (rowcount >? 0)).

End Session.

(** ** Observations on the database *)

Definition at_key (r : attendance_row) : Z * date :=
  (at_student_id r, at_date r).

(** What the schema of [attendance] guarantees: [id] is a primary key and
    (student_id, date) is UNIQUE. *)
Definition attendance_wf (db : database) : Prop :=
  NoDup (map at_id (attendance db)) /\ NoDup (map at_key (attendance db)).

(** The records of one student on one day. *)
Definition records_of (db : database) (student_id : Z) (d : date)
  : list attendance_row :=
  filter (attendance_key student_id d) (attendance db).

(** The records of one student in a window of dates. *)
Definition records_in (db : database) (student_id : Z) (lo hi : date)
  : list attendance_row :=
  filter (in_window student_id lo hi) (attendance db).

(** The state of one day of one student. *)
Inductive day_state : Type := NONE | ABSENT | PRESENT.

Definition day_state_of (db : database) (student_id : Z) (d : date) : day_state :=
  match find (attendance_key student_id d) (attendance db) with
  | None => NONE
  | Some r => if at_logged_in r =? 1 then PRESENT else ABSENT
  end.

(** The operations of the attendance ledger, as requests. *)
Inductive operation : Type :=
| MarkPresent (student_id : Z)
| Percentage (student_id : Z) (days : Z)
| History (student_id : Z) (days : Z).

(** The database after one request, whether it returned or raised. *)
Definition run_operation (cfg : config) (req : clock * operation)
    (db : database) : database :=
  match req with
  | (clk, MarkPresent s) => snd (Attendance.mark_attendance clk s db)
  | (clk, Percentage s n) => snd (Attendance.get_attendance_percentage cfg clk s n db)
  | (clk, History s n) => snd (Attendance.get_attendance_history clk s n db)
  end.

Definition run_trace (cfg : config) (reqs : list (clock * operation))
    (db : database) : database :=
  fold_left (fun d req => run_operation cfg req d) reqs db.

(** The changes one request may make to the state of the day [d] of the
    student [s]. *)
Inductive day_step (s : Z) (d : date)
  : clock * operation -> day_state -> day_state -> Prop :=
| step_same req st : day_step s d req st st
| step_backfill clk n :
    day_step s d (clk, Percentage s n) NONE ABSENT
| step_login clk st :
    d = today clk ->
    day_step s d (clk, MarkPresent s) st PRESENT.

(** Logins of one student, one after the other. *)
Fixpoint mark_each (clks : list clock) (student_id : Z) : M database (list bool) :=
  match clks with
  | [] => ret []
  | clk :: clks' =>
      b <- Attendance.mark_attendance clk student_id ;;
      bs <- mark_each clks' student_id ;;
      ret (b :: bs)
  end.

(** The window is one Python can compute: [today] is a date before
    9999-12-31, and the first day of the window is a date. *)
Definition representable_window (clk : clock) (days : Z) : Prop :=
  MINORDINAL <= today clk < MAXORDINAL /\
  MINORDINAL <= today clk - (days - 1) <= MAXORDINAL.

(** The order of ORDER BY date DESC: [a] may come before [b]. *)
Definition later_first (a b : attendance_row) : Prop := at_date b <= at_date a.

(** The [n] consecutive dates that start at [a], and the dates of a window. *)
Fixpoint days_from (a : date) (n : nat) : list date :=
  match n with
  | O => []
  | S n' => a :: days_from (a + 1) n'
  end.

Definition days_between (lo hi : date) : list date :=
  days_from lo (Z.to_nat (hi + 1 - lo)).

Definition is_weekday (d : date) : bool := weekday d <? 5.

(** The tuple the backfill writes for one day. *)
Definition absent_on (student_id : Z) (d : date)
  : Z * date * Z * option datetime :=
  (student_id, d, 0, None).

(** The table after a run of INSERTs that all passed their checks. *)
Definition insert_all (db : database)
    (vs : list (Z * date * Z * option datetime)) : database :=
  fold_left append_attendance vs db.

(** The four values an INSERT gave a row. *)
Definition row_values (r : attendance_row) : Z * date * Z * option datetime :=
  (at_student_id r, at_date r, at_logged_in r, at_login_time r).

(** The dictionary [get_attendance_percentage] builds from the count
    [total] it holds and the table it reads the present days from. *)
Definition stats_of (db : database) (student_id : Z) (lo hi : date)
    (total : Z) : attendance_stats :=
  let present :=
    Z.of_nat (length (filter
      (fun r => in_window student_id lo hi r && (at_logged_in r =? 1))
      (attendance db))) in
  {| percentage :=
       round2 (if total >? 0
               then PyFloat (PrimFloat.mul (int_truediv present total)
                                           (float_of_int 100))
               else PyInt 0);
     present_days := present;
     total_days := total;
     start_date := lo;
     end_date := hi |}.

(** ** A small ledger to run the operations on *)

Definition alice : student_row :=
  {| st_id := 1; st_username := "alice"; st_password := "pw1-digest";
     st_name := "Alice"; st_email := "alice@example.com";
     st_created_at := 63929300000000000 |}.

Definition fresh_db : database :=
  {| students := [alice]; attendance := []; sessions := [];
     seq_students := 1; seq_attendance := 0; seq_sessions := 0 |}.

(** Wednesday 2026-11-04 at 09:00, and the same day at 17:30. *)
Definition wednesday_9am : clock :=
  {| now := 63929379600000000; CURRENT_TIMESTAMP := 63929379600000000 |}.

Definition wednesday_5pm : clock :=
  {| now := 63929410200000000; CURRENT_TIMESTAMP := 63929410200000000 |}.

(** The ledger after Alice's dashboard was opened on that Wednesday morning
    (the week's five weekdays backfilled as absent), and the ledger after
    she logged in instead. *)
Definition backfilled_db : database :=
  Eval vm_compute in
    snd (Attendance.get_attendance_percentage config_py wednesday_9am 1 7 fresh_db).

Definition marked_db : database :=
  Eval vm_compute in snd (Attendance.mark_attendance wednesday_9am 1 fresh_db).

(** A configuration that asks for sessions of two days and for a
    dashboard period of one week. *)
Definition config_custom : config :=
  {| ATTENDANCE_THRESHOLD := 75;
     ATTENDANCE_PERIOD_DAYS := 7;
     SESSION_LIFETIME := 48 |}.

(** ** Further observations *)

(** The token Alice's browser holds in the examples. *)
Definition alice_token : string := "3f9a1c0e5b7d2a4486c1e0f9d3b5a7c2".

(** The rows of [sessions] that carry a token. *)
Definition has_token (token : string) (r : session_row) : bool :=
  String.eqb (se_session_token r) token.

(** The ledger after Alice's session was created on the Wednesday morning. *)
Definition session_db : database :=
  Eval vm_compute in snd (Session.create wednesday_9am alice_token 1 fresh_db).

(** Thursday 2026-11-05 at 09:00, the instant Alice's session expires. *)
Definition thursday_9am : clock :=
  {| now := 63929466000000000; CURRENT_TIMESTAMP := 63929466000000000 |}.

(** A stand-in for the digest in the examples; the theorems hold for every
    function in its place. *)
Definition example_digest (password : string) : string :=
  ("sha256:" ++ password)%string.

(** What the schema guarantees of the other tables: the primary keys, the
    UNIQUE columns of [students], and the two FOREIGN KEY references. *)
Definition students_wf (db : database) : Prop :=
  NoDup (map st_id (students db)) /\
  NoDup (map st_username (students db)) /\
  NoDup (map st_email (students db)).

Definition sessions_wf (db : database) : Prop :=
  NoDup (map se_id (sessions db)).

Definition references_wf (db : database) : Prop :=
  (forall r, In r (attendance db) -> student_exists db (at_student_id r) = true) /\
  (forall r, In r (sessions db) -> student_exists db (se_student_id r) = true).

Definition database_wf (db : database) : Prop :=
  students_wf db /\ attendance_wf db /\ sessions_wf db /\ references_wf db.

(** The calls [models.py] offers to the request handlers. *)
Inductive model_call : Type :=
| StudentGetById (student_id : Z)
| StudentGetByUsername (username : string)
| StudentVerifyPassword (username password : string)
| StudentCreate (username password name email : string)
| AttendanceMark (student_id : Z)
| AttendancePercentage (student_id : Z) (days : Z)
| AttendanceHistory (student_id : Z) (days : Z)
| SessionCreate (token : string) (student_id : Z)
| SessionValidate (token : string)
| SessionDelete (token : string).

(** The database after one call, whether it returned or raised. *)
Definition run_call (sha256 : string -> string) (cfg : config)
    (req : clock * model_call) (db : database) : database :=
  match req with
  | (clk, StudentGetById s) => snd (Student.get_by_id s db)
  | (clk, StudentGetByUsername u) => snd (Student.get_by_username u db)
  | (clk, StudentVerifyPassword u p) => snd (Student.verify_password sha256 u p db)
  | (clk, StudentCreate u p n e) => snd (Student.create sha256 clk u p n e db)
  | (clk, AttendanceMark s) => snd (Attendance.mark_attendance clk s db)
  | (clk, AttendancePercentage s n) =>
      snd (Attendance.get_attendance_percentage cfg clk s n db)
  | (clk, AttendanceHistory s n) =>
      snd (Attendance.get_attendance_history clk s n db)
  | (clk, SessionCreate token s) => snd (Session.create clk token s db)
  | (clk, SessionValidate token) => snd (Session.validate clk token db)
  | (clk, SessionDelete token) => snd (Session.delete token db)
  end.

Definition run_calls (sha256 : string -> string) (cfg : config)
    (reqs : list (clock * model_call)) (db : database) : database :=
  fold_left (fun d req => run_call sha256 cfg req d) reqs db.

(** ** [app.py] *)

(** What a view function returns. *)
Record dashboard_context : Type := {
  ctx_student : student_row;
  ctx_attendance_stats : attendance_stats;
  ctx_attendance_history : list history_entry
}.

Inductive json_body : Type :=
| JsonAttendance (stats : attendance_stats) (history : list history_entry)
| JsonError (details : exn).

Inductive response : Type :=
| redirect (endpoint : string)             (* redirect(url_for(endpoint)) *)
| render_template (template : string) (context : option dashboard_context)
| jsonify (body : json_body) (status : Z).

Inductive http_method : Type := GET | POST.

(** What a request runs on: the database, the entry [session_token] of the
    browser's Flask session (absent or a token), and the messages flashed
    so far. *)
Record app_state : Type := {
  app_db : database;
  session_token : option string;
  flashes : list (string * string)
}.

(** A call into [models.py]. *)
Definition model {A} (m : M database A) : M app_state A :=
  fun st => let (r, d) := m (app_db st) in
            (r, {| app_db := d; session_token := session_token st;
                   flashes := flashes st |}).

(** [flash(message, category)] *)
Definition flash (message category : string) : M app_state unit :=
  fun st => (Ok tt, {| app_db := app_db st; session_token := session_token st;
                       flashes := flashes st ++ [(message, category)] |}).

(** [session.get('session_token')], [session['session_token'] = token] and
    [session.pop('session_token', None)] *)
Definition session_get : M app_state (option string) :=
  fun st => (Ok (session_token st), st).

Definition session_set (token : string) : M app_state unit :=
  fun st => (Ok tt, {| app_db := app_db st; session_token := Some token;
                       flashes := flashes st |}).

Definition session_pop : M app_state unit :=
  fun st => (Ok tt, {| app_db := app_db st; session_token := None;
                       flashes := flashes st |}).

(** [if student_id:] on the value of [verify_password] or [validate]:
    [None] and 0 are false. *)
Definition truthy_id (student_id : option Z) : option Z :=
  match student_id with
  | Some id => if id =? 0 then None else Some id
  | None => None
  end.

(** A form field counts in [all([...])] when it is present and not empty. *)
Definition truthy_field (v : option string) : bool :=
  match v with
  | Some s => negb (String.eqb s "")
  | None => false
  end.

Definition field_value (v : option string) : string :=
  match v with Some s => s | None => EmptyString end.

Module App.

(** [@login_required] around the view [f] *)
Definition login_required (clk : clock) (f : Z -> M app_state response)
  : M app_state response :=
  token <- session_get ;;
  match token with
  | None =>
      flash "Please log in to access this page" "error" ;;;
      ret (redirect "login")
  | Some token =>
      student_id <- model (Session.validate clk token) ;;
      match truthy_id student_id with
      | None =>
          session_pop ;;;
          flash "Your session has expired. Please log in again" "error" ;;;
          ret (redirect "login")
      | Some student_id => f student_id
      end
  end.

(** [index()] *)
Definition index (clk : clock) : M app_state response :=
  token <- session_get ;;
  match token with
  | Some token =>
      student_id <- model (Session.validate clk token) ;;
      match truthy_id student_id with
      | Some _ => ret (redirect "dashboard")
      | None => ret (redirect "login")
      end
  | None => ret (redirect "login")
  end.

(** The [except Exception] clause of [login()]. *)
Definition login_error : M app_state (option response) :=
  flash "An error occurred during login. Please try again." "error" ;;;
  ret None.

(** [login()].  [form] is [request.form.get]; [token] is the token
    [Session.create] draws.  A missing username reaches the query as NULL,
    which matches no row; a missing password makes [password.encode()]
    raise inside the [try], which the [except] clause handles. *)
Definition login (sha256 : string -> string) (clk : clock) (token : string)
    (method : http_method) (form : string -> option string)
  : M app_state response :=
  returned <-
    match method with
    | POST =>
        let username := form "username"%string in
        let password := form "password"%string in
        match password with
        | None => login_error
        | Some password =>
            try_except
              (student_id <-
                 match username with
                 | Some username =>
                     model (Student.verify_password sha256 username password)
                 | None => ret None
                 end ;;
               match truthy_id student_id with
               | Some student_id =>
                   session_token <- model (Session.create clk token student_id) ;;
                   session_set session_token ;;;
                   model (Attendance.mark_attendance clk student_id) ;;;
                   flash "Login successful! Your attendance has been marked for today."
                         "success" ;;;
                   ret (Some (redirect "dashboard"))
               | None =>
                   flash "Invalid username or password" "error" ;;;
                   ret None
               end)
              (fun _ => login_error)
        end
    | GET => ret None
    end ;;
  match returned with
  | Some r => ret r
  | None => ret (render_template "login.html" None)
  end.

(** [register()] *)
Definition register (sha256 : string -> string) (clk : clock)
    (method : http_method) (form : string -> option string)
  : M app_state response :=
  returned <-
    match method with
    | POST =>
        let username := form "username"%string in
        let password := form "password"%string in
        let name := form "name"%string in
        let email := form "email"%string in
        if negb (truthy_field username && truthy_field password
                 && truthy_field name && truthy_field email)
        then
          flash "All fields are required" "error" ;;;
          ret (Some (render_template "register.html" None))
        else
          try_except
            (created <- model (Student.create sha256 clk
                                 (field_value username) (field_value password)
                                 (field_value name) (field_value email)) ;;
             if (created : bool) then
               flash "Registration successful! You can now log in." "success" ;;;
               ret (Some (redirect "login"))
             else
               flash "Username or email already exists" "error" ;;;
               ret None)
            (fun _ =>
               flash "An error occurred during registration. Please try again."
                     "error" ;;;
               ret None)
    | GET => ret None
    end ;;
  match returned with
  | Some r => ret r
  | None => ret (render_template "register.html" None)
  end.

(** [dashboard(student_id)], under [@login_required] *)
Definition dashboard (cfg : config) (clk : clock) : M app_state response :=
  login_required clk (fun student_id =>
    try_except
      (student <- model (Student.get_by_id student_id) ;;
       match student with
       | None =>
           session_pop ;;;
           flash "Your account could not be found. Please log in again." "error" ;;;
           ret (redirect "login")
       | Some student =>
           attendance_stats <-
             model (Attendance.get_attendance_percentage cfg clk student_id 30) ;;
           attendance_history <-
             model (Attendance.get_attendance_history clk student_id 30) ;;
           ret (render_template "dashboard.html"
                  (Some {| ctx_student := student;
                           ctx_attendance_stats := attendance_stats;
                           ctx_attendance_history := attendance_history |}))
       end)
      (fun _ =>
         flash "An error occurred while loading your dashboard. Please try again."
               "error" ;;;
         ret (redirect "login"))).

(** [logout()] *)
Definition logout : M app_state response :=
  token <- session_get ;;
  match token with
  | Some token => model (Session.delete token) ;;; session_pop
  | None => ret tt
  end ;;;
  flash "You have been logged out" "info" ;;;
  ret (redirect "login").

(** [api_attendance(student_id)], under [@login_required].  [args_days] is
    the query argument [days] when it is present and an integer. *)
Definition api_attendance (cfg : config) (clk : clock) (args_days : option Z)
  : M app_state response :=
  login_required clk (fun student_id =>
    try_except
      (let days := match args_days with Some d => d | None => 30 end in
       attendance_stats <-
         model (Attendance.get_attendance_percentage cfg clk student_id days) ;;
       attendance_history <-
         model (Attendance.get_attendance_history clk student_id days) ;;
       ret (jsonify (JsonAttendance attendance_stats attendance_history) 200))
      (fun e => ret (jsonify (JsonError e) 500))).

End App.

(** The ledger after Bob registered on the Wednesday morning (he is student
    2), the login form he sends, and a browser that holds no session. *)
Definition registered_db : database :=
  Eval vm_compute in
    snd (Student.create example_digest wednesday_9am "bob" "pw2" "Bob"
           "bob@example.com" fresh_db).

Definition bob_login_form (field : string) : option string :=
  if String.eqb field "username" then Some "bob"%string
  else if String.eqb field "password" then Some "pw2"%string
  else None.

Definition anonymous (db : database) : app_state :=
  {| app_db := db; session_token := None; flashes := [] |}.

(** The browser and the ledger after Bob's login on the Wednesday morning. *)
Definition bob_logged_in : app_state :=
  Eval vm_compute in
    snd (App.login example_digest wednesday_9am alice_token POST bob_login_form
           (anonymous registered_db)).

(** ** Percentages against exact arithmetic *)

(** Whether the float [get_attendance_percentage] computes for [p] present
    days of [t] is the double nearest to [n] / 100, for an integer [n] that
    is within one half of 10000 * p / t: that is, whether the percentage is
    a decimal of two places nearest to 100 * p / t. *)
Definition percentage_is (p t n : Z) : bool :=
  PrimFloat.Leibniz.eqb
    (round2_float (PrimFloat.mul (int_truediv p t) (float_of_int 100)))
    (PrimFloat.div (PrimFloat.of_uint63 (Uint63.of_Z n)) 100%float)
  && (2 * Z.abs (n * t - 10000 * p) <=? t).

Definition percentage_nearest (p t : Z) : bool :=
  let q := 10000 * p / t in
  percentage_is p t q || percentage_is p t (q + 1).

(** The same for every count [t] from 1 to [T] and every [p] from 0 to [t]. *)
Definition percentage_nearest_upto (T : nat) : bool :=
  forallb
    (fun t =>
       forallb (fun p => percentage_nearest (Z.of_nat p) (Z.of_nat t))
               (seq 0 (S t)))
    (seq 1 T).

(** The ledger after Alice opened a view of nine days on the Wednesday
    morning (seven weekdays backfilled as absent) and logged in at 17:30. *)
Definition nine_days_db : database :=
  Eval vm_compute in
    snd (Attendance.mark_attendance wednesday_5pm 1
           (snd (Attendance.get_attendance_percentage
                   config_py wednesday_9am 1 9 fresh_db))).

(** * Properties *)

(** Tactics for closed instances: the constraints of a concrete table, and
    the bounds of a concrete window. *)
Ltac concrete_wf :=
  unfold attendance_wf; simpl; split; repeat constructor; simpl;
  intuition (try discriminate; try lia).

Ltac window_facts :=
  unfold representable_window, MINORDINAL, MAXORDINAL in *.

(** ** Lists *)

Lemma existsb_find {A} (f : A -> bool) (l : list A) :
  existsb f l = match find f l with Some _ => true | None => false end.
Proof.
  induction l as [|x l IH]; simpl; [reflexivity|].
  destruct (f x); simpl; auto.
Qed.

Lemma filter_nil_find {A} (f : A -> bool) (l : list A) :
  filter f l = [] <-> find f l = None.
Proof.
  induction l as [|x l IH]; simpl; [tauto|].
  destruct (f x); [split; discriminate | exact IH].
Qed.

Lemma filter_none {A} (f : A -> bool) (l : list A) :
  (forall x, In x l -> f x = false) -> filter f l = [].
Proof.
  induction l as [|x l IH]; simpl; intros H; [reflexivity|].
  rewrite (H x) by auto. apply IH. intros y Hy. apply H. auto.
Qed.

Lemma filter_nil_iff {A} (f : A -> bool) (l : list A) :
  filter f l = [] <-> forall x, In x l -> f x = false.
Proof.
  split; [|apply filter_none].
  intros H x Hx. destruct (f x) eqn:E; [|reflexivity].
  assert (In x (filter f l)) as Hin by (apply filter_In; auto).
  rewrite H in Hin. destruct Hin.
Qed.

Lemma NoDup_snoc {A} (l : list A) (x : A) :
  NoDup l -> ~ In x l -> NoDup (l ++ [x]).
Proof.
  induction l as [|y l IH]; simpl; intros Hnd Hx.
  - constructor; [tauto | constructor].
  - inversion Hnd as [|? ? Hy Hl]; subst. constructor.
    + rewrite in_app_iff; simpl. intros [H|[H|[]]]; [tauto | subst; tauto].
    + apply IH; tauto.
Qed.

(** ** The primary key is fresh *)

Lemma max_rowid_ge (ids : list Z) (id : Z) : In id ids -> id <= max_rowid ids.
Proof.
  induction ids as [|x ids IH]; simpl; [tauto|].
  intros [->|H]; [lia|]. specialize (IH H). lia.
Qed.

Lemma next_rowid_fresh (seq : Z) (ids : list Z) : ~ In (next_rowid seq ids) ids.
Proof.
  intros H. apply max_rowid_ge in H. unfold next_rowid in H. lia.
Qed.

(** ** [mark_attendance], statement by statement *)

Lemma mark_attendance_eq (clk : clock) (s : Z) (db : database) :
  Attendance.mark_attendance clk s db =
  match find (attendance_key s (today clk)) (attendance db) with
  | Some r =>
      (Ok true,
       with_attendance db (map (set_login (now clk) (at_id r)) (attendance db))
                       (seq_attendance db))
  | None =>
      if student_exists db s
      then (Ok true, append_attendance db (s, today clk, 1, Some (now clk)))
      else (Raise IntegrityError, db)
  end.
Proof.
  unfold Attendance.mark_attendance, get_db_connection, bind,
    select_attendance_id, select, update_attendance_login, insert_attendance,
    execute, commit, ret; simpl.
  destruct (find (attendance_key s (today clk)) (attendance db)) as [r|] eqn:E;
    simpl; [reflexivity|].
  destruct (student_exists db s); simpl; [|reflexivity].
  rewrite existsb_find, E. reflexivity.
Qed.

(** ** One record for each student and day *)

Lemma attendance_key_spec (s : Z) (d : date) (r : attendance_row) :
  attendance_key s d r = true <-> at_key r = (s, d).
Proof.
  unfold attendance_key, at_key. rewrite andb_true_iff, !Z.eqb_eq.
  split; [intros [-> ->]; reflexivity | intros H; inversion H; auto].
Qed.

Lemma attendance_key_false (s : Z) (d : date) (r : attendance_row) :
  attendance_key s d r = false <-> at_key r <> (s, d).
Proof.
  rewrite <- attendance_key_spec. destruct (attendance_key s d r); split;
    congruence.
Qed.

Lemma unique_key_filter (s : Z) (d : date) (l : list attendance_row) :
  NoDup (map at_key l) ->
  forall r, find (attendance_key s d) l = Some r ->
            filter (attendance_key s d) l = [r].
Proof.
  induction l as [|x l IH]; simpl; intros Hnd r Hf; [discriminate|].
  inversion Hnd as [|? ? Hx Hl]; subst.
  destruct (attendance_key s d x) eqn:E.
  - inversion Hf; subst. f_equal. apply filter_none. intros y Hy.
    apply attendance_key_false. apply attendance_key_spec in E.
    intros Hk. apply Hx. rewrite E, <- Hk. apply in_map. exact Hy.
  - apply IH; assumption.
Qed.

Lemma set_login_id (t : datetime) (id : Z) (r : attendance_row) :
  at_id (set_login t id r) = at_id r.
Proof. unfold set_login. destruct (at_id r =? id); reflexivity. Qed.

Lemma set_login_key (t : datetime) (id : Z) (r : attendance_row) :
  at_key (set_login t id r) = at_key r.
Proof. unfold set_login. destruct (at_id r =? id); reflexivity. Qed.

Lemma set_login_attendance_key (t : datetime) (id : Z) (s : Z) (d : date)
    (r : attendance_row) :
  attendance_key s d (set_login t id r) = attendance_key s d r.
Proof. unfold set_login. destruct (at_id r =? id); reflexivity. Qed.

Lemma map_set_login_ids (t : datetime) (id : Z) (l : list attendance_row) :
  map at_id (map (set_login t id) l) = map at_id l.
Proof.
  rewrite map_map. apply map_ext. intros r. apply set_login_id.
Qed.

Lemma map_set_login_keys (t : datetime) (id : Z) (l : list attendance_row) :
  map at_key (map (set_login t id) l) = map at_key l.
Proof.
  rewrite map_map. apply map_ext. intros r. apply set_login_key.
Qed.

Lemma filter_map_set_login (t : datetime) (id : Z) (s : Z) (d : date)
    (l : list attendance_row) :
  filter (attendance_key s d) (map (set_login t id) l) =
  map (set_login t id) (filter (attendance_key s d) l).
Proof.
  induction l as [|x l IH]; simpl; [reflexivity|].
  rewrite set_login_attendance_key.
  destruct (attendance_key s d x); simpl; rewrite IH; reflexivity.
Qed.

Lemma find_map_set_login (t : datetime) (id : Z) (s : Z) (d : date)
    (l : list attendance_row) :
  find (attendance_key s d) (map (set_login t id) l) =
  option_map (set_login t id) (find (attendance_key s d) l).
Proof.
  induction l as [|x l IH]; simpl; [reflexivity|].
  rewrite set_login_attendance_key.
  destruct (attendance_key s d x); simpl; [reflexivity | exact IH].
Qed.

(** The UPDATE keeps the invariants of the table. *)
Lemma update_wf (db : database) (t : datetime) (id : Z) :
  attendance_wf db ->
  attendance_wf
    (with_attendance db (map (set_login t id) (attendance db))
                     (seq_attendance db)).
Proof.
  unfold attendance_wf; simpl.
  rewrite map_set_login_ids, map_set_login_keys. tauto.
Qed.

(** An INSERT that passed the UNIQUE check keeps them too. *)
Lemma append_wf (db : database) (v : Z * date * Z * option datetime) :
  attendance_wf db ->
  (let '(s, d, _, _) := v in
   existsb (attendance_key s d) (attendance db) = false) ->
  attendance_wf (append_attendance db v).
Proof.
  destruct v as [[[s d] li] lt]. unfold attendance_wf, append_attendance; simpl.
  intros [Hid Hkey] Hnew. rewrite !map_app; simpl. split.
  - apply NoDup_snoc; [exact Hid | apply next_rowid_fresh].
  - apply NoDup_snoc; [exact Hkey|].
    intros Hx. apply in_map_iff in Hx. destruct Hx as (r & Hr & Hin).
    apply attendance_key_spec in Hr.
    assert (attendance_key s d r = false) as Hf.
    { rewrite existsb_find in Hnew.
      destruct (find (attendance_key s d) (attendance db)) eqn:E;
        [discriminate|].
      apply (find_none _ _ E). exact Hin. }
    simpl in Hr. congruence.
Qed.

(** One login: the day's record is created or updated in place. *)
Lemma mark_attendance_spec (clk : clock) (s : Z) (db : database) :
  attendance_wf db ->
  student_exists db s = true ->
  exists db' r,
    Attendance.mark_attendance clk s db = (Ok true, db') /\
    attendance_wf db' /\
    student_exists db' s = true /\
    records_of db' s (today clk) = [r] /\
    at_logged_in r = 1 /\
    at_login_time r = Some (now clk).
Proof.
  intros Hwf Hs. rewrite mark_attendance_eq. unfold records_of.
  destruct (find (attendance_key s (today clk)) (attendance db)) as [r0|] eqn:E.
  - eexists. exists (set_login (now clk) (at_id r0) r0).
    split; [reflexivity|]. split; [apply update_wf; exact Hwf|].
    split; [exact Hs|]. simpl. rewrite filter_map_set_login.
    rewrite (unique_key_filter _ _ _ (proj2 Hwf) _ E). simpl.
    unfold set_login. rewrite Z.eqb_refl. simpl. auto.
  - rewrite Hs. eexists. eexists. split; [reflexivity|].
    assert (existsb (attendance_key s (today clk)) (attendance db) = false) as Hn
      by (rewrite existsb_find, E; reflexivity).
    split; [apply append_wf; [exact Hwf | exact Hn]|].
    split; [exact Hs|]. simpl. rewrite filter_app.
    apply filter_nil_find in E. rewrite E. simpl.
    unfold attendance_key; simpl. rewrite !Z.eqb_refl. simpl. auto.
Qed.

(** C3: after any sequence of logins of one student on one day (at least
    one), each of which returns [True], exactly one attendance record exists
    for that student and day; it is marked present and carries the timestamp
    of the latest login.  The ledger the sequence starts from is any one that
    satisfies the constraints of the table, so it may already hold an absent
    record of that day written by the backfill. *)
Theorem mark_attendance_same_day
    (day : date) (clks : list clock) (clk : clock) (s : Z) (db : database) :
  attendance_wf db ->
  student_exists db s = true ->
  (forall c, In c (clks ++ [clk]) -> today c = day) ->
  exists db' r,
    mark_each (clks ++ [clk]) s db
      = (Ok (map (fun _ => true) (clks ++ [clk])), db') /\
    records_of db' s day = [r] /\
    at_logged_in r = 1 /\
    at_login_time r = Some (now clk).
Proof.
  revert db. induction clks as [|c clks IH]; intros db Hwf Hs Hday.
  - destruct (mark_attendance_spec clk s db Hwf Hs)
      as (db' & r & Hrun & _ & _ & Hrec & Hp & Ht).
    exists db', r. simpl. unfold bind. rewrite Hrun. simpl.
    rewrite <- (Hday clk) by (simpl; auto). auto.
  - destruct (mark_attendance_spec c s db Hwf Hs)
      as (db1 & r1 & Hrun & Hwf1 & Hs1 & _).
    destruct (IH db1 Hwf1 Hs1) as (db' & r & Hrest & Hrec & Hp & Ht).
    { intros c' Hc'. apply Hday. simpl. auto. }
    exists db', r. simpl. unfold bind at 1. rewrite Hrun.
    unfold bind at 1. rewrite Hrest. simpl. auto.
Qed.

Lemma mark_attendance_same_day_witness :
  attendance_wf backfilled_db /\
  student_exists backfilled_db 1 = true /\
  (forall c, In c ([wednesday_9am] ++ [wednesday_5pm]) -> today c = 739924) /\
  exists db' r,
    mark_each ([wednesday_9am] ++ [wednesday_5pm]) 1 backfilled_db
      = (Ok (map (fun _ => true) ([wednesday_9am] ++ [wednesday_5pm])), db') /\
    records_of db' 1 739924 = [r] /\
    at_logged_in r = 1 /\
    at_login_time r = Some (now wednesday_5pm).
Proof.
  assert (attendance_wf backfilled_db) as Hwf by concrete_wf.
  assert (forall c, In c ([wednesday_9am] ++ [wednesday_5pm]) ->
                    today c = 739924) as Hday
    by (intros c [<-|[<-|[]]]; reflexivity).
  split; [exact Hwf|]. split; [reflexivity|]. split; [exact Hday|].
  apply (mark_attendance_same_day 739924 [wednesday_9am] wednesday_5pm 1
           backfilled_db Hwf eq_refl Hday).
Defined.

(** ** The backfill loop *)

Lemma missing_days_loop_unfold (s : Z) (e t c : date)
    (acc : list (Z * date * Z * option datetime)) :
  Attendance.missing_days_loop s e t c acc =
  if (c <=? e) && (c <=? t) then
    match date_add c 1 with
    | Raise x => Raise x
    | Ok next =>
        Attendance.missing_days_loop s e t next
          (if weekday c <? 5 then acc ++ [(s, c, 0, None)] else acc)
    end
  else Ok acc.
Proof.
  funelim (Attendance.missing_days_loop s e t c acc); try clear Heqcall;
    repeat match goal with
           | H : (_ && _) = _ |- _ => rewrite H
           | H : date_add _ _ = _ |- _ => rewrite H
           end; reflexivity.
Qed.

Lemma date_add_one (c : date) :
  0 <= c < MAXORDINAL -> date_add c 1 = Ok (c + 1).
Proof.
  intros H. unfold date_add, timedelta_days, date_in_range,
    MAX_DELTA_DAYS, MINORDINAL, MAXORDINAL in *. simpl.
  destruct (1 <=? c + 1) eqn:E1; [|apply Z.leb_gt in E1; lia].
  destruct (c + 1 <=? 3652059) eqn:E2; [|apply Z.leb_gt in E2; lia].
  reflexivity.
Qed.

Lemma date_add_inv (c n x : Z) : date_add c n = Ok x -> x = c + n.
Proof.
  unfold date_add, timedelta_days.
  destruct ((- MAX_DELTA_DAYS <=? n) && (n <=? MAX_DELTA_DAYS));
    [|discriminate].
  destruct (date_in_range (c + n)); [|discriminate].
  intros H. inversion H. reflexivity.
Qed.

(** The loop terminates with one tuple for each weekday from [c] to the
    earlier of [e] and [t], in calendar order. *)
Lemma missing_days_loop_spec (s : Z) (e t : date) (n : nat) :
  forall (c : date) (acc : list (Z * date * Z * option datetime)),
    0 <= c ->
    Z.min e t < MAXORDINAL ->
    Z.to_nat (Z.min e t + 1 - c) = n ->
    Attendance.missing_days_loop s e t c acc =
    Ok (acc ++ map (absent_on s) (filter is_weekday (days_from c n))).
Proof.
  induction n as [|n IH]; intros c acc Hc Hmax Hn;
    rewrite missing_days_loop_unfold.
  - assert ((c <=? e) && (c <=? t) = false) as ->.
    { apply andb_false_iff.
      destruct (Z.leb_spec c e); [|auto]. right. apply Z.leb_gt. lia. }
    simpl. rewrite app_nil_r. reflexivity.
  - assert ((c <=? e) && (c <=? t) = true) as ->.
    { apply andb_true_iff. rewrite !Z.leb_le. lia. }
    rewrite date_add_one by lia.
    rewrite IH by lia. simpl. unfold is_weekday at 2.
    destruct (weekday c <? 5); simpl; [|reflexivity].
    rewrite <- app_assoc. reflexivity.
Qed.

Lemma in_days_from (a : date) (n : nat) (d : date) :
  In d (days_from a n) <-> a <= d < a + Z.of_nat n.
Proof.
  revert a. induction n as [|n IH]; intros a; simpl; [lia|].
  rewrite IH. lia.
Qed.

Lemma NoDup_days_from (a : date) (n : nat) : NoDup (days_from a n).
Proof.
  revert a. induction n as [|n IH]; intros a; simpl; constructor.
  - rewrite in_days_from. lia.
  - apply IH.
Qed.

Lemma in_days_between (lo hi d : date) :
  In d (days_between lo hi) <-> lo <= d <= hi.
Proof. unfold days_between. rewrite in_days_from. lia. Qed.

(** Each date occurs once among the days of a window, and nowhere else. *)
Lemma count_days_from (a : date) (n : nat) (f : date -> bool) (d : date) :
  length (filter (fun x => x =? d) (filter f (days_from a n))) =
  if (a <=? d) && (d <? a + Z.of_nat n) && f d then 1%nat else 0%nat.
Proof.
  revert a. induction n as [|n IH]; intros a.
  - simpl. destruct (Z.leb_spec a d), (Z.ltb_spec d (a + 0)); simpl;
      try reflexivity; lia.
  - simpl days_from. simpl filter. destruct (f a) eqn:Efa.
    + simpl filter. destruct (Z.eqb_spec a d) as [->|Hne].
      * simpl length. rewrite IH, Efa.
        destruct (Z.leb_spec (d + 1) d), (Z.leb_spec d d),
                 (Z.ltb_spec d (d + Z.of_nat (S n))); simpl;
          try reflexivity; lia.
      * rewrite IH.
        destruct (Z.leb_spec (a + 1) d), (Z.leb_spec a d),
                 (Z.ltb_spec d (a + 1 + Z.of_nat n)),
                 (Z.ltb_spec d (a + Z.of_nat (S n))); simpl;
          try reflexivity; lia.
    + rewrite IH.
      destruct (Z.leb_spec (a + 1) d), (Z.leb_spec a d),
               (Z.ltb_spec d (a + 1 + Z.of_nat n)),
               (Z.ltb_spec d (a + Z.of_nat (S n))); simpl;
        try reflexivity; try lia.
      assert (a = d) by lia. subst. rewrite Efa. reflexivity.
Qed.

(** ** [executemany] on the backfill tuples *)

Lemma insert_attendance_eq (v : Z * date * Z * option datetime) (c : connection) :
  insert_attendance v c =
  let '(s, d, _, _) := v in
  if student_exists (pending c) s
     && negb (existsb (attendance_key s d) (attendance (pending c)))
  then (Ok tt, {| committed := committed c;
                  pending := append_attendance (pending c) v |})
  else (Raise IntegrityError, c).
Proof.
  destruct v as [[[s d] li] lt]. unfold insert_attendance, execute.
  destruct (student_exists (pending c) s); simpl; [|reflexivity].
  destruct (existsb (attendance_key s d) (attendance (pending c)));
    reflexivity.
Qed.

(** Nothing is committed by the INSERTs themselves. *)
Lemma for_each_insert_committed (vs : list (Z * date * Z * option datetime)) :
  forall c, committed (snd (for_each insert_attendance vs c)) = committed c.
Proof.
  induction vs as [|v vs IH]; intros c; simpl; [reflexivity|].
  unfold bind. rewrite insert_attendance_eq. destruct v as [[[s d] li] lt].
  destruct (student_exists (pending c) s
            && negb (existsb (attendance_key s d) (attendance (pending c))));
    [|reflexivity].
  rewrite IH. reflexivity.
Qed.

(** When all of them pass, the view holds the new rows and still satisfies
    the constraints of the table. *)
Lemma for_each_insert_ok (vs : list (Z * date * Z * option datetime)) :
  forall c c' u,
    for_each insert_attendance vs c = (Ok u, c') ->
    pending c' = insert_all (pending c) vs /\
    (attendance_wf (pending c) -> attendance_wf (pending c')).
Proof.
  induction vs as [|v vs IH]; intros c c' u; simpl.
  - unfold ret. intros H. inversion H; subst. tauto.
  - unfold bind. rewrite insert_attendance_eq. destruct v as [[[s d] li] lt].
    destruct (student_exists (pending c) s
              && negb (existsb (attendance_key s d) (attendance (pending c))))
      eqn:E; [|discriminate].
    intros H. apply IH in H. simpl in H. destruct H as [Hp Hwf].
    split; [exact Hp|]. intros Hc. apply Hwf.
    apply andb_true_iff in E. destruct E as [_ E].
    apply negb_true_iff in E.
    apply (append_wf (pending c) (s, d, li, lt) Hc). exact E.
Qed.

Lemma existsb_false_iff {A} (f : A -> bool) (l : list A) :
  existsb f l = false <-> forall x, In x l -> f x = false.
Proof.
  induction l as [|y l IH]; simpl; [tauto|].
  rewrite orb_false_iff, IH. split.
  - intros [Hy Hl] x [<-|Hx]; auto.
  - intros H. split; [apply H; auto | intros x Hx; apply H; auto].
Qed.

(** They all pass when the student exists and the days are distinct and not
    yet in the table. *)
Lemma for_each_insert_fresh (s : Z) (ds : list date) :
  forall c,
    student_exists (pending c) s = true ->
    NoDup ds ->
    (forall d r, In d ds -> In r (attendance (pending c)) ->
                 attendance_key s d r = false) ->
    for_each insert_attendance (map (absent_on s) ds) c =
    (Ok tt, {| committed := committed c;
               pending := insert_all (pending c) (map (absent_on s) ds) |}).
Proof.
  induction ds as [|d ds IH]; intros c Hs Hnd Hfresh; cbn [map for_each].
  - destruct c; reflexivity.
  - unfold bind. rewrite insert_attendance_eq. unfold absent_on at 1.
    cbv iota beta. rewrite Hs.
    assert (existsb (attendance_key s d) (attendance (pending c)) = false)
      as -> by (apply existsb_false_iff; intros r Hr; apply Hfresh; simpl; auto).
    simpl. inversion Hnd as [|? ? Hd Hds]; subst. rewrite IH; simpl.
    + reflexivity.
    + exact Hs.
    + exact Hds.
    + intros d' r Hd' Hr. apply in_app_iff in Hr. destruct Hr as [Hr|[<-|[]]].
      * apply Hfresh; simpl; auto.
      * apply attendance_key_false. unfold at_key; simpl.
        intros Heq. inversion Heq; subst. contradiction.
Qed.

(** The rows a run of INSERTs adds, after the ones that were there. *)
Lemma insert_all_attendance (vs : list (Z * date * Z * option datetime)) :
  forall db, exists news,
    attendance (insert_all db vs) = attendance db ++ news /\
    map row_values news = vs /\
    students (insert_all db vs) = students db /\
    sessions (insert_all db vs) = sessions db.
Proof.
  induction vs as [|v vs IH]; intros db; simpl.
  - exists []. rewrite app_nil_r. auto.
  - destruct (IH (append_attendance db v)) as (news & Ha & Hv & Hst & Hse).
    exists (attendance_values
              (next_rowid (seq_attendance db) (map at_id (attendance db))) v
            :: news).
    unfold insert_all in *. simpl. rewrite Ha, Hst, Hse. simpl.
    rewrite <- app_assoc. simpl. repeat split.
    rewrite Hv. destruct v as [[[s d] li] lt]. reflexivity.
Qed.

(** ** [get_attendance_percentage], statement by statement *)

Lemma get_attendance_percentage_eq (cfg : config) (clk : clock) (s days : Z)
    (db : database) :
  Attendance.get_attendance_percentage cfg clk s days db =
  let w := if days =? 30 then ATTENDANCE_PERIOD_DAYS cfg else days in
  let hi := today clk in
  match date_sub hi (w - 1) with
  | Raise e => (Raise e, db)
  | Ok lo =>
      let count := Z.of_nat (length (records_in db s lo hi)) in
      if count =? 0 then
        match Attendance.missing_days_loop s hi hi lo [] with
        | Raise e => (Raise e, db)
        | Ok [] => (Ok (stats_of db s lo hi count), db)
        | Ok (v :: vs) =>
            match for_each insert_attendance (v :: vs)
                    {| committed := db; pending := db |} with
            | (Ok _, c) =>
                (Ok (stats_of (pending c) s lo hi
                       (Z.of_nat (length (v :: vs)))),
                 pending c)
            | (Raise e, c) => (Raise e, committed c)
            end
        end
      else (Ok (stats_of db s lo hi count), db)
  end.
Proof.
  unfold Attendance.get_attendance_percentage. cbv zeta.
  unfold bind at 1. unfold lift_result.
  destruct (date_sub (today clk) _) as [lo|e]; [|reflexivity].
  unfold get_db_connection, bind, count_attendance, count_present, select,
    commit, ret, lift_result, records_in, stats_of.
  cbn [pending committed].
  destruct (Z.of_nat _ =? 0) eqn:E; [|reflexivity].
  destruct (Attendance.missing_days_loop s (today clk) (today clk) lo [])
    as [[|v vs]|e]; try reflexivity.
  destruct (for_each insert_attendance (v :: vs) _) as [[u|e] c]; reflexivity.
Qed.

Lemma date_sub_representable (hi n : Z) :
  MINORDINAL <= hi <= MAXORDINAL ->
  MINORDINAL <= hi - n <= MAXORDINAL ->
  date_sub hi n = Ok (hi - n).
Proof.
  unfold date_sub, timedelta_days, date_in_range, MAX_DELTA_DAYS,
    MINORDINAL, MAXORDINAL. intros H1 H2.
  destruct (Z.leb_spec (- (999999999)) n), (Z.leb_spec n 999999999);
    simpl; try lia.
  destruct (Z.leb_spec 1 (hi - n)), (Z.leb_spec (hi - n) 3652059);
    simpl; try lia.
  reflexivity.
Qed.

Lemma key_in_window (s : Z) (lo hi d : date) (r : attendance_row) :
  attendance_key s d r = true -> lo <= d <= hi -> in_window s lo hi r = true.
Proof.
  unfold attendance_key, in_window, between.
  rewrite !andb_true_iff, !Z.eqb_eq, !Z.leb_le. intros [-> ->]. lia.
Qed.

Lemma in_window_row_values (s : Z) (lo hi d : date) (r : attendance_row) :
  row_values r = absent_on s d -> lo <= d <= hi ->
  in_window s lo hi r = true.
Proof.
  unfold row_values, absent_on. intros H Hd. inversion H; subst.
  unfold in_window, between. rewrite Z.eqb_refl. simpl.
  apply andb_true_iff. rewrite !Z.leb_le. lia.
Qed.

(** The rows a backfill adds all lie in the window. *)
Lemma backfilled_in_window (s : Z) (lo hi : date) (ds : list date) :
  (forall d, In d ds -> lo <= d <= hi) ->
  forall news,
    map row_values news = map (absent_on s) ds ->
    filter (in_window s lo hi) news = news.
Proof.
  induction ds as [|d ds IH]; intros Hds [|r news] Hv;
    cbn [map filter] in *; try discriminate; [reflexivity|].
  assert (row_values r = absent_on s d) as Hr by congruence.
  assert (map row_values news = map (absent_on s) ds) as Hrest by congruence.
  rewrite (in_window_row_values s lo hi d r Hr) by (apply Hds; simpl; auto).
  f_equal. apply IH; [|exact Hrest]. intros d' Hd'. apply Hds. simpl. auto.
Qed.

(** The window and the days [get_attendance_percentage] backfills: every
    weekday of the window when the student has no record in it, none
    otherwise. *)
Lemma get_attendance_percentage_run (cfg : config) (clk : clock) (s days : Z)
    (db : database) :
  let w := if days =? 30 then ATTENDANCE_PERIOD_DAYS cfg else days in
  let hi := today clk in
  let lo := hi - (w - 1) in
  MINORDINAL <= hi < MAXORDINAL ->
  MINORDINAL <= lo <= MAXORDINAL ->
  student_exists db s = true ->
  let ds := match records_in db s lo hi with
            | [] => filter is_weekday (days_between lo hi)
            | _ :: _ => []
            end in
  let db' := insert_all db (map (absent_on s) ds) in
  Attendance.get_attendance_percentage cfg clk s days db =
  (Ok (stats_of db' s lo hi (Z.of_nat (length (records_in db' s lo hi)))), db').
Proof.
  intros w hi lo Hhi Hlo Hs ds db'.
  rewrite get_attendance_percentage_eq. fold w. fold hi. cbv zeta.
  rewrite date_sub_representable by (unfold lo in Hlo; lia). fold lo.
  destruct (records_in db s lo hi) as [|r0 rs] eqn:Hrec.
  - (* no record in the window: the backfill runs *)
    simpl length. simpl (Z.of_nat 0 =? 0).
    rewrite (missing_days_loop_spec s hi hi (Z.to_nat (hi + 1 - lo)))
      by (rewrite ?Z.min_id; unfold MINORDINAL in *; lia).
    simpl app. fold (days_between lo hi). fold ds.
    assert (forall d, In d ds -> lo <= d <= hi) as Hds.
    { intros d Hd. unfold ds in Hd. apply filter_In in Hd.
      apply in_days_between. tauto. }
    destruct (insert_all_attendance (map (absent_on s) ds) db)
      as (news & Ha & Hv & _). fold db' in Ha.
    assert (records_in db' s lo hi = news) as Hnew.
    { unfold records_in in *. rewrite Ha, filter_app, Hrec. simpl.
      apply (backfilled_in_window s lo hi ds Hds). exact Hv. }
    assert (length news = length ds) as Hlen.
    { rewrite <- (length_map row_values), Hv, length_map. reflexivity. }
    destruct (map (absent_on s) ds) as [|v vs] eqn:Hmap.
    + destruct ds; [|discriminate]. unfold db'. simpl. rewrite Hrec.
      reflexivity.
    + rewrite <- Hmap.
      rewrite (for_each_insert_fresh s ds {| committed := db; pending := db |}).
      * cbn [pending]. rewrite Hmap. fold db'. rewrite Hnew, Hlen.
        rewrite <- (length_map (absent_on s) ds), Hmap. reflexivity.
      * exact Hs.
      * unfold ds. apply NoDup_filter. apply NoDup_days_from.
      * cbn [pending]. intros d r Hd Hr.
        destruct (attendance_key s d r) eqn:Ek; [|reflexivity].
        apply (key_in_window s lo hi) in Ek; [|apply Hds; exact Hd].
        unfold records_in in Hrec.
        rewrite (proj1 (filter_nil_iff _ _) Hrec r Hr) in Ek. discriminate.
  - (* some record in the window: nothing is written *)
    assert ((Z.of_nat (length (r0 :: rs)) =? 0) = false) as ->
      by (apply Z.eqb_neq; simpl length; lia).
    unfold db', ds. simpl. rewrite Hrec. reflexivity.
Qed.

Lemma filter_andb {A} (f g : A -> bool) (l : list A) :
  filter (fun x => f x && g x) l = filter g (filter f l).
Proof.
  induction l as [|x l IH]; simpl; [reflexivity|].
  destruct (f x); simpl; [destruct (g x)|]; rewrite IH; reflexivity.
Qed.

Lemma window_days_used (cfg : config) (days : Z) :
  (days = 30 -> ATTENDANCE_PERIOD_DAYS cfg = 30) ->
  (if days =? 30 then ATTENDANCE_PERIOD_DAYS cfg else days) = days.
Proof.
  intros H. destruct (Z.eqb_spec days 30) as [E|E]; [|reflexivity].
  rewrite H by exact E. symmetry. exact E.
Qed.

Lemma in_map_row_values (s : Z) (ds : list date) (news : list attendance_row) :
  map row_values news = map (absent_on s) ds ->
  map at_date news = ds /\
  forall x, In x news ->
    at_student_id x = s /\ at_logged_in x = 0 /\ at_login_time x = None.
Proof.
  revert ds. induction news as [|r news IH]; intros [|d ds] H;
    cbn [map] in *; try discriminate.
  - split; [reflexivity | intros x []].
  - assert (row_values r = absent_on s d) as Hr by congruence.
    assert (map row_values news = map (absent_on s) ds) as Hrest by congruence.
    destruct (IH ds Hrest) as [Hd Hall].
    unfold row_values, absent_on in Hr.
    injection Hr as Hr1 Hr2 Hr3 Hr4.
    split; [congruence|]. intros x [<-|Hx]; [auto | apply Hall; exact Hx].
Qed.

Lemma filter_date_map (d : date) (l : list attendance_row) :
  length (filter (fun x => at_date x =? d) l) =
  length (filter (fun x => x =? d) (map at_date l)).
Proof.
  induction l as [|r l IH]; simpl; [reflexivity|].
  destruct (at_date r =? d); simpl; rewrite IH; reflexivity.
Qed.

(** C1: when [get_attendance_percentage] finds no attendance record of the
    student with a date in the window [today - (days - 1), today], it returns
    after it has written and committed exactly one record for each weekday
    (Monday to Friday) of the window, marked absent and without login time,
    and no record for any other date, a Saturday or Sunday in particular;
    when the window already holds a record, it writes nothing.  The other
    tables and the existing rows are left as they were. *)
Theorem backfill_weekdays_of_empty_window
    (cfg : config) (clk : clock) (s days : Z) (db : database) :
  (days = 30 -> ATTENDANCE_PERIOD_DAYS cfg = 30) ->
  representable_window clk days ->
  student_exists db s = true ->
  let hi := today clk in
  let lo := today clk - (days - 1) in
  exists r db' news,
    Attendance.get_attendance_percentage cfg clk s days db = (Ok r, db') /\
    students db' = students db /\
    sessions db' = sessions db /\
    attendance db' = attendance db ++ news /\
    match records_in db s lo hi with
    | [] =>
        (forall x, In x news ->
           at_student_id x = s /\ at_logged_in x = 0 /\ at_login_time x = None)
        /\
        (forall d,
           length (filter (fun x => at_date x =? d) news) =
           if between lo hi d && is_weekday d then 1%nat else 0%nat)
    | _ :: _ => news = []
    end.
Proof.
  intros Hcfg [Hhi Hlo] Hs hi lo.
  pose proof (get_attendance_percentage_run cfg clk s days db) as Hrun.
  cbv zeta in Hrun. rewrite (window_days_used cfg days Hcfg) in Hrun.
  specialize (Hrun Hhi Hlo Hs). fold hi lo in Hrun.
  set (ds := match records_in db s lo hi with
             | [] => filter is_weekday (days_between lo hi)
             | _ :: _ => []
             end) in *.
  destruct (insert_all_attendance (map (absent_on s) ds) db)
    as (news & Ha & Hv & Hst & Hse).
  eexists. exists (insert_all db (map (absent_on s) ds)), news.
  split; [exact Hrun|]. repeat (split; [assumption|]).
  destruct (in_map_row_values s ds news Hv) as [Hdates Hall].
  destruct (records_in db s lo hi) as [|r0 rs].
  - split; [exact Hall|]. intros d.
    rewrite filter_date_map, Hdates. unfold ds, days_between.
    rewrite count_days_from. unfold between. f_equal. f_equal.
    destruct (Z.leb_spec lo d), (Z.leb_spec d hi),
             (Z.ltb_spec d (lo + Z.of_nat (Z.to_nat (hi + 1 - lo))));
      simpl; try reflexivity; lia.
  - unfold ds in Hv. destruct news; [reflexivity | discriminate].
Qed.

Lemma backfill_weekdays_of_empty_window_witness :
  (7 = 30 -> ATTENDANCE_PERIOD_DAYS config_py = 30) /\
  representable_window wednesday_9am 7 /\
  student_exists fresh_db 1 = true /\
  exists r db' news,
    Attendance.get_attendance_percentage config_py wednesday_9am 1 7 fresh_db
      = (Ok r, db') /\
    students db' = students fresh_db /\
    sessions db' = sessions fresh_db /\
    attendance db' = attendance fresh_db ++ news /\
    match records_in fresh_db 1 (today wednesday_9am - (7 - 1))
                     (today wednesday_9am) with
    | [] =>
        (forall x, In x news ->
           at_student_id x = 1 /\ at_logged_in x = 0 /\ at_login_time x = None)
        /\
        (forall d,
           length (filter (fun x => at_date x =? d) news) =
           if between (today wednesday_9am - (7 - 1)) (today wednesday_9am) d
              && is_weekday d
           then 1%nat else 0%nat)
    | _ :: _ => news = []
    end.
Proof.
  assert (representable_window wednesday_9am 7) as Hw
    by (window_facts; vm_compute; repeat split; discriminate).
  split; [reflexivity|]. split; [exact Hw|]. split; [reflexivity|].
  apply (backfill_weekdays_of_empty_window config_py wednesday_9am 1 7 fresh_db);
    [reflexivity | exact Hw | reflexivity].
Defined.

(** The float computed for [p] of [t] records is a decimal of two places
    nearest to 100 * p / t, for every count of up to 100 records: checked
    on each pair. *)
Lemma percentage_nearest_100 : percentage_nearest_upto 100 = true.
Proof. vm_compute. reflexivity. Qed.

Lemma percentage_nearest_upto_spec (T : nat) (p t : Z) :
  percentage_nearest_upto T = true ->
  0 <= p <= t -> 0 < t <= Z.of_nat T ->
  percentage_nearest p t = true.
Proof.
  unfold percentage_nearest_upto. intros H Hp Ht.
  rewrite forallb_forall in H. specialize (H (Z.to_nat t)).
  rewrite in_seq in H.
  assert (forallb (fun p0 => percentage_nearest (Z.of_nat p0)
                               (Z.of_nat (Z.to_nat t)))
                  (seq 0 (S (Z.to_nat t))) = true) as Hrow by (apply H; lia).
  rewrite forallb_forall in Hrow. specialize (Hrow (Z.to_nat p)).
  rewrite in_seq in Hrow. rewrite !Z2Nat.id in Hrow by lia.
  apply Hrow. lia.
Qed.

Lemma percentage_rounded (p t : Z) :
  0 <= p <= t -> 0 < t <= 100 ->
  exists n,
    round2_float (PrimFloat.mul (int_truediv p t) (float_of_int 100))
    = PrimFloat.div (PrimFloat.of_uint63 (Uint63.of_Z n)) 100%float /\
    2 * Z.abs (n * t - 10000 * p) <= t.
Proof.
  intros Hp Ht.
  assert (percentage_nearest p t = true) as Hn
    by (apply (percentage_nearest_upto_spec 100 p t percentage_nearest_100);
        lia).
  unfold percentage_nearest in Hn. apply orb_true_iff in Hn.
  destruct Hn as [Hn|Hn]; unfold percentage_is in Hn;
    apply andb_true_iff in Hn; destruct Hn as [Heq Hb];
    apply FloatAxioms.Leibniz.eqb_spec in Heq; apply Z.leb_le in Hb;
    eexists; split; [exact Heq | exact Hb | exact Heq | exact Hb].
Qed.

Lemma filter_andb_length {A} (f g : A -> bool) (l : list A) :
  (length (filter (fun x => f x && g x) l) <= length (filter f l))%nat.
Proof.
  induction l as [|x l IH]; simpl; [lia|].
  destruct (f x), (g x); simpl; lia.
Qed.

(** C2: [get_attendance_percentage] returns a dictionary whose [end_date] is
    today, whose [start_date] is today - (days - 1), whose [total_days] is
    the number of records of the student in that inclusive window once the
    call (and its backfill, if any) is done, whose [present_days] is the
    number of those that are marked present, and whose [percentage] is
    present_days / total_days * 100 rounded to two decimals, or 0 when
    [total_days] is 0.  The percentage is what Python's float operations
    give; for up to 100 records it is the double nearest to n / 100 for an
    integer n within one half of 10000 * present_days / total_days, that
    is, a decimal of two places nearest to the exact percentage (when two
    are equally near, either may be returned). *)
Theorem percentage_of_window
    (cfg : config) (clk : clock) (s days : Z) (db : database) :
  (days = 30 -> ATTENDANCE_PERIOD_DAYS cfg = 30) ->
  representable_window clk days ->
  student_exists db s = true ->
  exists r db',
    Attendance.get_attendance_percentage cfg clk s days db = (Ok r, db') /\
    end_date r = today clk /\
    start_date r = today clk - (days - 1) /\
    total_days r =
      Z.of_nat (length (records_in db' s (start_date r) (end_date r))) /\
    present_days r =
      Z.of_nat (length (filter (fun x => at_logged_in x =? 1)
                          (records_in db' s (start_date r) (end_date r)))) /\
    percentage r =
      (if total_days r =? 0 then PyInt 0
       else PyFloat (round2_float
              (PrimFloat.mul (int_truediv (present_days r) (total_days r))
                             (float_of_int 100)))) /\
    (0 < total_days r <= 100 ->
     exists n,
       percentage r
       = PyFloat (PrimFloat.div (PrimFloat.of_uint63 (Uint63.of_Z n))
                                100%float) /\
       2 * Z.abs (n * total_days r - 10000 * present_days r)
       <= total_days r).
Proof.
  intros Hcfg [Hhi Hlo] Hs.
  pose proof (get_attendance_percentage_run cfg clk s days db) as Hrun.
  cbv zeta in Hrun. rewrite (window_days_used cfg days Hcfg) in Hrun.
  specialize (Hrun Hhi Hlo Hs).
  eexists. eexists. split; [exact Hrun|].
  unfold stats_of; cbn [end_date start_date total_days present_days percentage].
  split; [reflexivity|]. split; [reflexivity|]. split; [reflexivity|].
  split; [unfold records_in; rewrite filter_andb; reflexivity|].
  match goal with
  | |- context [int_truediv ?p ?t] =>
      assert (0 <= p <= t) as Hpt
        by (unfold records_in; split;
            [lia | apply inj_le; apply filter_andb_length]);
      revert Hpt; generalize p; generalize t
  end.
  intros t p Hpt. split.
  - destruct t as [|t|t]; try reflexivity; lia.
  - intros Ht. destruct (percentage_rounded p t Hpt Ht) as [n [Hn Hb]].
    exists n. split; [|exact Hb].
    assert ((t >? 0) = true) as -> by (apply Z.gtb_lt; lia).
    cbn [round2]. rewrite Hn. reflexivity.
Qed.

#[warnings="-inexact-float"]
Lemma percentage_of_window_witness :
  (9 = 30 -> ATTENDANCE_PERIOD_DAYS config_py = 30) /\
  representable_window wednesday_5pm 9 /\
  student_exists nine_days_db 1 = true /\
  (exists r db',
     Attendance.get_attendance_percentage config_py wednesday_5pm 1 9
       nine_days_db = (Ok r, db') /\
     end_date r = today wednesday_5pm /\
     start_date r = today wednesday_5pm - (9 - 1) /\
     total_days r =
       Z.of_nat (length (records_in db' 1 (start_date r) (end_date r))) /\
     present_days r =
       Z.of_nat (length (filter (fun x => at_logged_in x =? 1)
                           (records_in db' 1 (start_date r) (end_date r)))) /\
     percentage r =
       (if total_days r =? 0 then PyInt 0
        else PyFloat (round2_float
               (PrimFloat.mul (int_truediv (present_days r) (total_days r))
                              (float_of_int 100)))) /\
     (0 < total_days r <= 100 ->
      exists n,
        percentage r
        = PyFloat (PrimFloat.div (PrimFloat.of_uint63 (Uint63.of_Z n))
                                 100%float) /\
        2 * Z.abs (n * total_days r - 10000 * present_days r)
        <= total_days r)) /\
  fst (Attendance.get_attendance_percentage config_py wednesday_5pm 1 9
         nine_days_db)
  = Ok {| percentage := PyFloat 14.29%float;
          present_days := 1;
          total_days := 7;
          start_date := today wednesday_5pm - 8;
          end_date := today wednesday_5pm |}.
Proof.
  assert (representable_window wednesday_5pm 9) as Hw
    by (window_facts; vm_compute; repeat split; discriminate).
  split; [discriminate|]. split; [exact Hw|]. split; [reflexivity|].
  split.
  - apply (percentage_of_window config_py wednesday_5pm 1 9 nine_days_db);
      [discriminate | exact Hw | reflexivity].
  - vm_compute. reflexivity.
Defined.

(** ** What a request can do to the table *)

(** Whatever the loop returns beyond what it was given is a tuple of the
    student, marked absent. *)
Lemma missing_days_loop_values (s : Z) (e t : date) (n : nat) :
  forall c acc l,
    (Z.to_nat (e + 1 - c) <= n)%nat ->
    Attendance.missing_days_loop s e t c acc = Ok l ->
    forall v, In v l -> In v acc \/ exists d, v = absent_on s d.
Proof.
  induction n as [|n IH]; intros c acc l Hn; rewrite missing_days_loop_unfold.
  - assert (((c <=? e) && (c <=? t)) = false) as ->.
    { apply andb_false_iff. left. apply Z.leb_gt. lia. }
    intros H v Hv. inversion H; subst. auto.
  - destruct ((c <=? e) && (c <=? t)) eqn:Hc.
    + apply andb_true_iff in Hc. destruct Hc as [Hc _]. apply Z.leb_le in Hc.
      destruct (date_add c 1) as [x|x] eqn:Hd; [|intros H; discriminate H].
      apply date_add_inv in Hd. subst x.
      intros H v Hv. apply (IH (c + 1)) with (v := v) in H; [|lia|exact Hv].
      destruct H as [H|H]; [|auto].
      destruct (weekday c <? 5); [|auto].
      apply in_app_iff in H. destruct H as [H|[<-|[]]]; [auto|].
      right. exists c. reflexivity.
    + intros H v Hv. inversion H; subst. auto.
Qed.

Lemma insert_all_wf (vs : list (Z * date * Z * option datetime)) (db : database) :
  forall c u,
    for_each insert_attendance vs {| committed := db; pending := db |} = (Ok u, c) ->
    pending c = insert_all db vs /\ (attendance_wf db -> attendance_wf (insert_all db vs)).
Proof.
  intros c u H. apply for_each_insert_ok in H. simpl in H.
  destruct H as [Hp Hwf]. rewrite <- Hp. auto.
Qed.

(** [get_attendance_percentage] leaves the database as it was or adds absent
    records of its student; this holds when it raises, too. *)
Lemma get_attendance_percentage_db (cfg : config) (clk : clock) (s days : Z)
    (db : database) :
  let db' := snd (Attendance.get_attendance_percentage cfg clk s days db) in
  db' = db \/
  exists vs,
    db' = insert_all db vs /\
    (forall v, In v vs -> exists d, v = absent_on s d) /\
    (attendance_wf db -> attendance_wf db').
Proof.
  cbv zeta. rewrite get_attendance_percentage_eq. cbv zeta.
  destruct (date_sub (today clk) _) as [lo|e]; [|left; reflexivity].
  destruct (Z.of_nat _ =? 0); [|left; reflexivity].
  destruct (Attendance.missing_days_loop s (today clk) (today clk) lo [])
    as [[|v vs]|e] eqn:Hloop; try (left; reflexivity).
  destruct (for_each insert_attendance (v :: vs) _) as [[u|e] c] eqn:Hrun.
  - right. exists (v :: vs). apply insert_all_wf in Hrun.
    destruct Hrun as [Hp Hwf]. cbn [snd]. rewrite Hp.
    split; [reflexivity|]. split; [|exact Hwf].
    intros x Hx.
    destruct (missing_days_loop_values s (today clk) (today clk)
                (Z.to_nat (today clk + 1 - lo)) lo [] (v :: vs)
                (le_n _) Hloop x Hx) as [[]|H].
    exact H.
  - left. cbn [snd].
    pose proof (for_each_insert_committed (v :: vs)
                  {| committed := db; pending := db |}) as Hc.
    rewrite Hrun in Hc. exact Hc.
Qed.

Lemma get_attendance_history_db (clk : clock) (s days : Z) (db : database) :
  snd (Attendance.get_attendance_history clk s days db) = db.
Proof.
  unfold Attendance.get_attendance_history, bind, lift_result.
  destruct (date_sub (today clk) (days - 1)) as [lo|e]; [|reflexivity].
  unfold get_db_connection, select, bind, ret. cbn [pending committed].
  destruct (map dict_factory _); reflexivity.
Qed.

Lemma mark_attendance_wf (clk : clock) (s : Z) (db : database) :
  attendance_wf db -> attendance_wf (snd (Attendance.mark_attendance clk s db)).
Proof.
  intros Hwf. rewrite mark_attendance_eq.
  destruct (find (attendance_key s (today clk)) (attendance db)) as [r|] eqn:E.
  - apply update_wf. exact Hwf.
  - destruct (student_exists db s); [|exact Hwf].
    apply append_wf; [exact Hwf|]. rewrite existsb_find, E. reflexivity.
Qed.

(** Every request keeps the constraints of the table. *)
Lemma run_operation_wf (cfg : config) (req : clock * operation) (db : database) :
  attendance_wf db -> attendance_wf (run_operation cfg req db).
Proof.
  intros Hwf. destruct req as [clk [s|s n|s n]]; simpl.
  - apply mark_attendance_wf. exact Hwf.
  - destruct (get_attendance_percentage_db cfg clk s n db) as [->|(vs & _ & _ & H)];
      auto.
  - rewrite get_attendance_history_db. exact Hwf.
Qed.

Lemma run_trace_wf (cfg : config) (reqs : list (clock * operation)) :
  forall db, attendance_wf db -> attendance_wf (run_trace cfg reqs db).
Proof.
  induction reqs as [|req reqs IH]; intros db Hwf; simpl; [exact Hwf|].
  apply IH. apply run_operation_wf. exact Hwf.
Qed.

(** ** The state of one day *)

Lemma find_app {A} (f : A -> bool) (l l' : list A) :
  find f (l ++ l') =
  match find f l with Some x => Some x | None => find f l' end.
Proof.
  induction l as [|x l IH]; simpl; [reflexivity|].
  destruct (f x); [reflexivity | exact IH].
Qed.

Lemma find_key_some (s : Z) (d : date) (l : list attendance_row)
    (r : attendance_row) :
  find (attendance_key s d) l = Some r ->
  In r l /\ at_student_id r = s /\ at_date r = d.
Proof.
  intros H. apply find_some in H. destruct H as [Hin Hk].
  apply attendance_key_spec in Hk. unfold at_key in Hk.
  inversion Hk. auto.
Qed.

Lemma unique_id (l : list attendance_row) (r r' : attendance_row) :
  NoDup (map at_id l) -> In r l -> In r' l -> at_id r = at_id r' -> r = r'.
Proof.
  induction l as [|x l IH]; simpl; intros Hnd Hr Hr' Hid; [tauto|].
  inversion Hnd as [|? ? Hx Hl]; subst.
  destruct Hr as [->|Hr], Hr' as [->|Hr']; auto.
  - exfalso. apply Hx. rewrite Hid. apply in_map. exact Hr'.
  - exfalso. apply Hx. rewrite <- Hid. apply in_map. exact Hr.
Qed.

Lemma mark_attendance_day_step (clk : clock) (s0 : Z) (db : database)
    (s : Z) (d : date) :
  attendance_wf db ->
  day_step s d (clk, MarkPresent s0)
    (day_state_of db s d)
    (day_state_of (snd (Attendance.mark_attendance clk s0 db)) s d).
Proof.
  intros [Hid _]. rewrite mark_attendance_eq.
  destruct (find (attendance_key s0 (today clk)) (attendance db))
    as [r0|] eqn:E0.
  - unfold day_state_of. cbn [snd with_attendance attendance].
    rewrite find_map_set_login.
    destruct (find (attendance_key s d) (attendance db)) as [r|] eqn:E;
      cbn [option_map]; [|apply step_same].
    unfold set_login. destruct (Z.eqb_spec (at_id r) (at_id r0)) as [Heq|Hne];
      [|apply step_same].
    apply find_key_some in E0. apply find_key_some in E.
    destruct E0 as (Hin0 & Hs0 & Hd0), E as (Hin & Hs & Hd).
    assert (r = r0) by (apply (unique_id (attendance db)); assumption).
    subst r. cbn [at_logged_in]. rewrite Z.eqb_refl.
    rewrite <- Hs, Hs0, <- Hd, Hd0. apply step_login. reflexivity.
  - destruct (student_exists db s0); [|apply step_same].
    unfold day_state_of. cbn [snd append_attendance with_attendance attendance].
    rewrite find_app.
    destruct (find (attendance_key s d) (attendance db)) as [r|];
      [apply step_same|].
    cbn [find attendance_values].
    destruct (attendance_key s d _) eqn:Ek; [|apply step_same].
    apply attendance_key_spec in Ek. unfold at_key in Ek. cbn in Ek.
    inversion Ek; subst. cbn [at_logged_in]. rewrite Z.eqb_refl.
    apply step_login. reflexivity.
Qed.

Lemma percentage_day_step (cfg : config) (clk : clock) (s0 days : Z)
    (db : database) (s : Z) (d : date) :
  day_step s d (clk, Percentage s0 days)
    (day_state_of db s d)
    (day_state_of
       (snd (Attendance.get_attendance_percentage cfg clk s0 days db)) s d).
Proof.
  destruct (get_attendance_percentage_db cfg clk s0 days db)
    as [->|(vs & -> & Hvs & _)]; [apply step_same|].
  destruct (insert_all_attendance vs db) as (news & Ha & Hv & _).
  unfold day_state_of. rewrite Ha, find_app.
  destruct (find (attendance_key s d) (attendance db)) as [r|];
    [apply step_same|].
  destruct (find (attendance_key s d) news) as [r|] eqn:E; [|apply step_same].
  apply find_key_some in E. destruct E as (Hin & Hs & Hd).
  assert (In (row_values r) vs) as Hr by (rewrite <- Hv; apply in_map; exact Hin).
  destruct (Hvs _ Hr) as (d0 & Hd0).
  unfold row_values, absent_on in Hd0. injection Hd0 as H1 H2 H3 H4.
  rewrite H3. cbn. rewrite <- Hs, H1. apply step_backfill.
Qed.

Lemma run_operation_day_step (cfg : config) (req : clock * operation)
    (db : database) (s : Z) (d : date) :
  attendance_wf db ->
  day_step s d req (day_state_of db s d)
    (day_state_of (run_operation cfg req db) s d).
Proof.
  intros Hwf. destruct req as [clk [s0|s0 n|s0 n]]; simpl.
  - apply mark_attendance_day_step. exact Hwf.
  - apply percentage_day_step.
  - rewrite get_attendance_history_db. apply step_same.
Qed.

Lemma day_step_present (s : Z) (d : date) (req : clock * operation)
    (st : day_state) :
  day_step s d req PRESENT st -> st = PRESENT.
Proof. intros H. inversion H; reflexivity. Qed.

Lemma run_trace_present (cfg : config) (reqs : list (clock * operation))
    (s : Z) (d : date) :
  forall db,
    attendance_wf db ->
    day_state_of db s d = PRESENT ->
    day_state_of (run_trace cfg reqs db) s d = PRESENT.
Proof.
  induction reqs as [|req reqs IH]; intros db Hwf Hp; simpl; [exact Hp|].
  apply IH; [apply run_operation_wf; exact Hwf|].
  pose proof (run_operation_day_step cfg req db s d Hwf) as Hstep.
  rewrite Hp in Hstep. apply day_step_present in Hstep. exact Hstep.
Qed.

(** C9: on a ledger that satisfies the constraints of its table, one request
    ([mark_attendance], [get_attendance_percentage] with its backfill, or
    [get_attendance_history], of any student at any time, returning or
    raising) changes the state of the day [d] of the student [s] only by
    NONE to ABSENT (a backfill for [s]), or by any state to PRESENT (a login
    of [s] on the day [d]), or not at all; and once the record is PRESENT it
    is PRESENT after every sequence of such requests. *)
Theorem present_never_reverts
    (cfg : config) (req : clock * operation) (reqs : list (clock * operation))
    (db : database) (s : Z) (d : date) :
  attendance_wf db ->
  day_step s d req (day_state_of db s d)
    (day_state_of (run_operation cfg req db) s d) /\
  (day_state_of db s d = PRESENT ->
   day_state_of (run_trace cfg reqs db) s d = PRESENT).
Proof.
  intros Hwf. split.
  - apply run_operation_day_step. exact Hwf.
  - apply run_trace_present. exact Hwf.
Qed.

Lemma present_never_reverts_witness :
  attendance_wf marked_db /\
  day_step 1 739924 (wednesday_5pm, Percentage 1 7)
    (day_state_of marked_db 1 739924)
    (day_state_of
       (run_operation config_py (wednesday_5pm, Percentage 1 7) marked_db)
       1 739924) /\
  (day_state_of marked_db 1 739924 = PRESENT ->
   day_state_of
     (run_trace config_py
        [(wednesday_5pm, Percentage 1 30); (wednesday_5pm, History 1 7);
         (wednesday_5pm, MarkPresent 1)] marked_db) 1 739924 = PRESENT).
Proof.
  assert (attendance_wf marked_db) as Hwf by concrete_wf.
  split; [exact Hwf|].
  apply (present_never_reverts config_py (wednesday_5pm, Percentage 1 7)
           [(wednesday_5pm, Percentage 1 30); (wednesday_5pm, History 1 7);
            (wednesday_5pm, MarkPresent 1)] marked_db 1 739924 Hwf).
Defined.

(** ** ORDER BY date DESC *)

Lemma insert_by_date_desc_perm (r : attendance_row) (l : list attendance_row) :
  Permutation (insert_by_date_desc r l) (r :: l).
Proof.
  induction l as [|x l IH]; simpl; [apply Permutation_refl|].
  destruct (at_date x <=? at_date r); [apply Permutation_refl|].
  eapply perm_trans; [apply perm_skip; exact IH | apply perm_swap].
Qed.

Lemma order_by_date_desc_perm (l : list attendance_row) :
  Permutation (order_by_date_desc l) l.
Proof.
  induction l as [|r l IH]; simpl; [constructor|].
  eapply perm_trans; [apply insert_by_date_desc_perm|].
  apply perm_skip. exact IH.
Qed.

Lemma insert_by_date_desc_sorted (r : attendance_row) (l : list attendance_row) :
  StronglySorted later_first l ->
  StronglySorted later_first (insert_by_date_desc r l).
Proof.
  induction l as [|x l IH]; simpl; intros Hs.
  - constructor; constructor.
  - apply StronglySorted_inv in Hs. destruct Hs as [Hl Hx].
    destruct (Z.leb_spec (at_date x) (at_date r)) as [Hle|Hgt].
    + constructor; [constructor; assumption|].
      constructor; [exact Hle|].
      eapply Forall_impl; [|exact Hx]. unfold later_first. intros y Hy. lia.
    + constructor; [apply IH; exact Hl|].
      apply (Permutation_Forall
               (Permutation_sym (insert_by_date_desc_perm r l))).
      constructor; [unfold later_first; lia | exact Hx].
Qed.

Lemma order_by_date_desc_sorted (l : list attendance_row) :
  StronglySorted later_first (order_by_date_desc l).
Proof.
  induction l as [|r l IH]; simpl; [constructor|].
  apply insert_by_date_desc_sorted. exact IH.
Qed.

Lemma StronglySorted_map {A B} (R : A -> A -> Prop) (Q : B -> B -> Prop)
    (f : A -> B) (l : list A) :
  (forall a b, R a b -> Q (f a) (f b)) ->
  StronglySorted R l -> StronglySorted Q (map f l).
Proof.
  intros HRQ. induction l as [|x l IH]; simpl; intros Hs; [constructor|].
  apply StronglySorted_inv in Hs. destruct Hs as [Hl Hx].
  constructor; [apply IH; exact Hl|].
  apply Forall_map. eapply Forall_impl; [|exact Hx]. intros y. apply HRQ.
Qed.

(** Under the UNIQUE constraint the records of one student have distinct
    dates, so the descending order leaves no ties. *)
Lemma unique_dates_in_window (s : Z) (lo hi : date) (l : list attendance_row) :
  NoDup (map at_key l) ->
  NoDup (map at_date (filter (in_window s lo hi) l)).
Proof.
  induction l as [|x l IH]; simpl; intros Hnd; [constructor|].
  inversion Hnd as [|? ? Hx Hl]; subst.
  destruct (in_window s lo hi x) eqn:Ex; [|apply IH; exact Hl].
  simpl. constructor; [|apply IH; exact Hl].
  intros Hin. apply in_map_iff in Hin. destruct Hin as (y & Hd & Hy).
  apply filter_In in Hy. destruct Hy as [Hy Ey]. apply Hx.
  apply in_map_iff. exists y. split; [|exact Hy].
  unfold in_window in Ex, Ey. apply andb_true_iff in Ex, Ey.
  destruct Ex as [Ex _], Ey as [Ey _]. apply Z.eqb_eq in Ex, Ey.
  unfold at_key. congruence.
Qed.

Lemma sorted_no_ties {A} (key : A -> Z) (l : list A) :
  NoDup (map key l) ->
  StronglySorted (fun a b => key b <= key a) l ->
  StronglySorted (fun a b => key b < key a) l.
Proof.
  induction l as [|x l IH]; simpl; intros Hnd Hs; [constructor|].
  inversion Hnd as [|? ? Hx Hl]; subst.
  apply StronglySorted_inv in Hs. destruct Hs as [Hs Hall].
  constructor; [apply IH; assumption|].
  rewrite Forall_forall in *. intros y Hy. specialize (Hall y Hy).
  assert (key y <> key x); [|lia].
  intros E. apply Hx. rewrite <- E. apply in_map. exact Hy.
Qed.

(** ** [get_attendance_history], statement by statement *)

Lemma get_attendance_history_eq (clk : clock) (s days : Z) (db : database) :
  Attendance.get_attendance_history clk s days db =
  match date_sub (today clk) (days - 1) with
  | Raise e => (Raise e, db)
  | Ok lo =>
      match map dict_factory
              (order_by_date_desc (records_in db s lo (today clk))) with
      | [] => (Ok [{| he_date := today clk; he_logged_in := 0;
                      he_login_time := None |}], db)
      | x :: l => (Ok (x :: l), db)
      end
  end.
Proof.
  unfold Attendance.get_attendance_history, bind, lift_result.
  destruct (date_sub (today clk) (days - 1)) as [lo|e]; [|reflexivity].
  unfold get_db_connection, select, bind, ret, records_in.
  cbn [pending committed].
  destruct (map dict_factory _); reflexivity.
Qed.

(** C6: [get_attendance_history] leaves the database as it is and returns,
    when the student has records with a date in the window
    [today - (days - 1), today], exactly those records, most recent date
    first: the (date, present flag, login time) triples of the entries are
    those of the records, each as often as it is stored.  When there is no
    such record it returns the single entry (today, 0, None).  So the list
    it returns is never empty.  On a table that satisfies its UNIQUE
    constraint the dates of the list are strictly decreasing. *)
Theorem history_of_window (clk : clock) (s days : Z) (db : database) :
  MINORDINAL <= today clk <= MAXORDINAL ->
  MINORDINAL <= today clk - (days - 1) <= MAXORDINAL ->
  let hi := today clk in
  let lo := today clk - (days - 1) in
  exists l,
    Attendance.get_attendance_history clk s days db = (Ok l, db) /\
    l <> [] /\
    match records_in db s lo hi with
    | [] => l = [{| he_date := hi; he_logged_in := 0; he_login_time := None |}]
    | _ :: _ =>
        Permutation
          (map (fun e => (he_date e, he_logged_in e, he_login_time e)) l)
          (map (fun r => (at_date r, at_logged_in r, at_login_time r))
               (records_in db s lo hi)) /\
        StronglySorted (fun a b => he_date b <= he_date a) l /\
        (attendance_wf db ->
         StronglySorted (fun a b => he_date b < he_date a) l)
    end.
Proof.
  intros Hhi Hlo hi lo. rewrite get_attendance_history_eq.
  rewrite date_sub_representable by assumption.
  change (today clk - (days - 1)) with lo. change (today clk) with hi.
  pose proof (order_by_date_desc_perm (records_in db s lo hi)) as Hperm.
  pose proof (order_by_date_desc_sorted (records_in db s lo hi)) as Hsort.
  destruct (records_in db s lo hi) as [|r rs] eqn:Hrec.
  - simpl. eexists. split; [reflexivity|]. split; [discriminate | reflexivity].
  - set (sorted := order_by_date_desc (r :: rs)) in *.
    assert (Permutation (map dict_factory sorted)
                        (map dict_factory (r :: rs))) as Hp
      by (apply Permutation_map; exact Hperm).
    assert (StronglySorted (fun a b => he_date b <= he_date a)
                           (map dict_factory sorted)) as Hs.
    { apply (StronglySorted_map later_first); [|exact Hsort].
      intros a b H. exact H. }
    destruct (map dict_factory sorted) as [|x l] eqn:Hl.
    + apply Permutation_nil in Hp. discriminate Hp.
    + exists (x :: l). split; [reflexivity|]. split; [discriminate|].
      split; [|split; [exact Hs|]].
      * apply (Permutation_map
                 (fun e => (he_date e, he_logged_in e, he_login_time e)))
          in Hp.
        rewrite (map_map dict_factory) in Hp. exact Hp.
      * intros [_ Hkey]. apply (sorted_no_ties he_date); [|exact Hs].
        apply (Permutation_NoDup
                 (l := map he_date (map dict_factory (r :: rs)))).
        -- apply Permutation_map. apply Permutation_sym. exact Hp.
        -- rewrite map_map. cbn [dict_factory he_date]. rewrite <- Hrec.
           change (fun x0 : attendance_row => at_date x0) with at_date.
           unfold records_in. apply unique_dates_in_window. exact Hkey.
Qed.

Lemma history_of_window_witness :
  MINORDINAL <= today wednesday_5pm <= MAXORDINAL /\
  MINORDINAL <= today wednesday_5pm - (3 - 1) <= MAXORDINAL /\
  (exists l,
     Attendance.get_attendance_history wednesday_5pm 1 3 nine_days_db
       = (Ok l, nine_days_db) /\
     l <> [] /\
     match records_in nine_days_db 1 (today wednesday_5pm - (3 - 1))
                      (today wednesday_5pm) with
     | [] => l = [{| he_date := today wednesday_5pm; he_logged_in := 0;
                     he_login_time := None |}]
     | _ :: _ =>
         Permutation
           (map (fun e => (he_date e, he_logged_in e, he_login_time e)) l)
           (map (fun r => (at_date r, at_logged_in r, at_login_time r))
                (records_in nine_days_db 1 (today wednesday_5pm - (3 - 1))
                            (today wednesday_5pm))) /\
         StronglySorted (fun a b => he_date b <= he_date a) l /\
         (attendance_wf nine_days_db ->
          StronglySorted (fun a b => he_date b < he_date a) l)
     end) /\
  fst (Attendance.get_attendance_history wednesday_5pm 1 3 nine_days_db)
  = Ok [{| he_date := today wednesday_5pm; he_logged_in := 1;
           he_login_time := Some (now wednesday_5pm) |};
        {| he_date := today wednesday_5pm - 1; he_logged_in := 0;
           he_login_time := None |};
        {| he_date := today wednesday_5pm - 2; he_logged_in := 0;
           he_login_time := None |}].
Proof.
  assert (MINORDINAL <= today wednesday_5pm <= MAXORDINAL) as H1
    by (vm_compute; split; discriminate).
  assert (MINORDINAL <= today wednesday_5pm - (3 - 1) <= MAXORDINAL) as H2
    by (vm_compute; split; discriminate).
  split; [exact H1|]. split; [exact H2|]. split.
  - apply (history_of_window wednesday_5pm 1 3 nine_days_db H1 H2).
  - vm_compute. reflexivity.
Defined.

(** ** Registration *)

Lemma existsb_orb {A} (f g : A -> bool) (l : list A) :
  existsb (fun x => f x || g x) l = existsb f l || existsb g l.
Proof.
  induction l as [|x l IH]; simpl; [reflexivity|]. rewrite IH.
  destruct (f x), (g x), (existsb f l), (existsb g l); reflexivity.
Qed.

(** C8: [Student.create] never raises.  When a student with the same
    username or the same email is already stored it returns [False] and the
    database is what it was; otherwise it returns [True] and the database
    has one more student, with the given username, name and email and the
    digest of the password, after the ones that were there. *)
Theorem student_create_unique
    (sha256 : string -> string) (clk : clock)
    (username password name email : string) (db : database) :
  Student.create sha256 clk username password name email db =
  if existsb (fun s => String.eqb (st_username s) username
                       || String.eqb (st_email s) email) (students db)
  then (Ok false, db)
  else
    let id := next_rowid (seq_students db) (map st_id (students db)) in
    (Ok true,
     {| students := students db ++
          [{| st_id := id; st_username := username;
              st_password := sha256 password; st_name := name;
              st_email := email; st_created_at := CURRENT_TIMESTAMP clk |}];
        attendance := attendance db;
        sessions := sessions db;
        seq_students := id;
        seq_attendance := seq_attendance db;
        seq_sessions := seq_sessions db |}).
Proof.
  rewrite existsb_orb.
  unfold Student.create, get_db_connection, try_except, bind, insert_student,
    execute, commit, ret. cbn [pending committed].
  destruct (existsb (fun s => String.eqb (st_username s) username) (students db));
    [reflexivity|].
  destruct (existsb (fun s => String.eqb (st_email s) email) (students db));
    reflexivity.
Qed.

(** ** Sessions *)

Lemma session_create_eq (clk : clock) (token : string) (s : Z) (db : database) :
  Session.create clk token s db =
  match datetime_add_hours (now clk) 24 with
  | Raise e => (Raise e, db)
  | Ok expires_at =>
      if student_exists db s
      then
        let id := next_rowid (seq_sessions db) (map se_id (sessions db)) in
        (Ok token,
         {| students := students db;
            attendance := attendance db;
            sessions := sessions db ++
              [{| se_id := id; se_student_id := s;
                  se_session_token := token;
                  se_created_at := CURRENT_TIMESTAMP clk;
                  se_expires_at := expires_at |}];
            seq_students := seq_students db;
            seq_attendance := seq_attendance db;
            seq_sessions := id |})
      else (Raise IntegrityError, db)
  end.
Proof.
  unfold Session.create, bind, lift_result.
  destruct (datetime_add_hours (now clk) 24) as [t|e]; [|reflexivity].
  unfold get_db_connection, bind, insert_session, execute, commit, ret.
  cbn [pending committed].
  destruct (student_exists db s); reflexivity.
Qed.

Lemma session_validate_eq (clk : clock) (token : string) (db : database) :
  Session.validate clk token db =
  (Ok (option_map se_student_id
         (find (session_live token (now clk)) (sessions db))), db).
Proof.
  unfold Session.validate, get_db_connection, bind, select, ret.
  cbn [pending committed].
  destruct (find (session_live token (now clk)) (sessions db)); reflexivity.
Qed.

Lemma session_live_spec (token : string) (t : datetime) (r : session_row) :
  session_live token t r = true <->
  se_session_token r = token /\ t < se_expires_at r.
Proof.
  unfold session_live. rewrite andb_true_iff, String.eqb_eq, Z.ltb_lt. tauto.
Qed.

(** C7: [Session.validate] never raises and never changes the database (no
    expiry is extended, no expired row is deleted).  When a row with the
    token and an expiry strictly after the time of validation is stored, it
    returns the student of such a row (the first one; tokens are not
    UNIQUE in the schema); when there is none, because the token is unknown
    or every row with it has expired, it returns [None].  In particular the
    token of a session that [Session.create] has just stored for a new token
    is validated, for its student, at every instant before its expiry. *)
Theorem session_validate_live (clk : clock) (token : string) (db : database) :
  (exists res,
     Session.validate clk token db = (Ok res, db) /\
     ((exists r, In r (sessions db) /\ se_session_token r = token /\
                 now clk < se_expires_at r) ->
      exists r, In r (sessions db) /\ se_session_token r = token /\
                now clk < se_expires_at r /\ res = Some (se_student_id r)) /\
     ((forall r, In r (sessions db) -> se_session_token r = token ->
                 se_expires_at r <= now clk) ->
      res = None)) /\
  (forall (s : Z) (clk' : clock),
     student_exists db s = true ->
     datetime_in_range (now clk + 24 * USEC_PER_HOUR) = true ->
     (forall r, In r (sessions db) -> se_session_token r <> token) ->
     now clk' < now clk + 24 * USEC_PER_HOUR ->
     exists db',
       Session.create clk token s db = (Ok token, db') /\
       Session.validate clk' token db' = (Ok (Some s), db')).
Proof.
  split.
  - rewrite session_validate_eq. eexists. split; [reflexivity|]. split.
    + intros (r & Hin & Htok & Hexp).
      destruct (find (session_live token (now clk)) (sessions db))
        as [r'|] eqn:E.
      * apply find_some in E. destruct E as [Hin' Hlive].
        apply session_live_spec in Hlive. exists r'. simpl. tauto.
      * apply (find_none _ _ E) in Hin.
        assert (session_live token (now clk) r = true) as Hl
          by (apply session_live_spec; auto).
        congruence.
    + intros Hall.
      destruct (find (session_live token (now clk)) (sessions db))
        as [r'|] eqn:E; [|reflexivity].
      apply find_some in E. destruct E as [Hin' Hlive].
      apply session_live_spec in Hlive. destruct Hlive as [Htok Hexp].
      specialize (Hall r' Hin' Htok). lia.
  - intros s clk' Hs Hrange Hfresh Hbefore.
    rewrite session_create_eq. unfold datetime_add_hours. rewrite Hrange, Hs.
    eexists. split; [reflexivity|].
    rewrite session_validate_eq. cbn [sessions]. rewrite find_app.
    assert (find (session_live token (now clk')) (sessions db) = None) as ->.
    { destruct (find (session_live token (now clk')) (sessions db))
        as [r|] eqn:E; [|reflexivity].
      apply find_some in E. destruct E as [Hin Hlive].
      apply session_live_spec in Hlive. destruct Hlive as [Htok _].
      exfalso. exact (Hfresh r Hin Htok). }
    cbn [find]. unfold session_live. cbn [se_session_token se_expires_at].
    rewrite String.eqb_refl.
    assert ((now clk' <? now clk + 24 * USEC_PER_HOUR) = true) as ->
      by (apply Z.ltb_lt; exact Hbefore).
    reflexivity.
Qed.

Lemma session_validate_live_witness :
  student_exists fresh_db 1 = true /\
  datetime_in_range (now wednesday_9am + 24 * USEC_PER_HOUR) = true /\
  now wednesday_5pm < now wednesday_9am + 24 * USEC_PER_HOUR /\
  exists db',
    Session.create wednesday_9am "3f9a1c0e5b7d2a4486c1e0f9d3b5a7c2" 1 fresh_db
      = (Ok "3f9a1c0e5b7d2a4486c1e0f9d3b5a7c2"%string, db') /\
    Session.validate wednesday_5pm "3f9a1c0e5b7d2a4486c1e0f9d3b5a7c2" db'
      = (Ok (Some 1), db').
Proof.
  assert (now wednesday_5pm < now wednesday_9am + 24 * USEC_PER_HOUR) as Hlt
    by (vm_compute; reflexivity).
  split; [reflexivity|]. split; [reflexivity|]. split; [exact Hlt|].
  apply (proj2 (session_validate_live wednesday_9am
                  "3f9a1c0e5b7d2a4486c1e0f9d3b5a7c2" fresh_db)
           1 wednesday_5pm eq_refl eq_refl).
  - intros r [].
  - exact Hlt.
Defined.

(** C5: the expiry [Session.create] stores is the time of creation plus 24
    hours, whatever the configuration says: under a configuration whose
    SESSION_LIFETIME is not 24, the stored expiry is not the time of
    creation plus SESSION_LIFETIME hours. *)
Theorem session_create_ignores_lifetime
    (cfg : config) (clk : clock) (token : string) (s : Z) (db : database) :
  SESSION_LIFETIME cfg <> 24 ->
  student_exists db s = true ->
  datetime_in_range (now clk + 24 * USEC_PER_HOUR) = true ->
  exists db' r,
    Session.create clk token s db = (Ok token, db') /\
    sessions db' = sessions db ++ [r] /\
    se_session_token r = token /\
    se_expires_at r = now clk + 24 * USEC_PER_HOUR /\
    se_expires_at r <> now clk + SESSION_LIFETIME cfg * USEC_PER_HOUR.
Proof.
  intros Hcfg Hs Hrange. rewrite session_create_eq.
  unfold datetime_add_hours. rewrite Hrange, Hs.
  eexists. eexists. split; [reflexivity|]. cbn.
  repeat (split; [reflexivity|]).
  cbn [se_expires_at]. unfold USEC_PER_HOUR. lia.
Qed.

Lemma session_create_ignores_lifetime_witness :
  SESSION_LIFETIME config_custom <> 24 /\
  student_exists fresh_db 1 = true /\
  datetime_in_range (now wednesday_9am + 24 * USEC_PER_HOUR) = true /\
  exists db' r,
    Session.create wednesday_9am "3f9a1c0e5b7d2a4486c1e0f9d3b5a7c2" 1 fresh_db
      = (Ok "3f9a1c0e5b7d2a4486c1e0f9d3b5a7c2"%string, db') /\
    sessions db' = sessions fresh_db ++ [r] /\
    se_session_token r = "3f9a1c0e5b7d2a4486c1e0f9d3b5a7c2"%string /\
    se_expires_at r = now wednesday_9am + 24 * USEC_PER_HOUR /\
    se_expires_at r <>
      now wednesday_9am + SESSION_LIFETIME config_custom * USEC_PER_HOUR.
Proof.
  assert (SESSION_LIFETIME config_custom <> 24) as H by discriminate.
  split; [exact H|]. split; [reflexivity|]. split; [reflexivity|].
  apply (session_create_ignores_lifetime config_custom wednesday_9am
           "3f9a1c0e5b7d2a4486c1e0f9d3b5a7c2" 1 fresh_db H);
    reflexivity.
Defined.

(** ** The configured period *)

Lemma get_attendance_percentage_window (cfg cfg' : config) (clk : clock)
    (s days days' : Z) (db : database) :
  (if days =? 30 then ATTENDANCE_PERIOD_DAYS cfg else days) =
  (if days' =? 30 then ATTENDANCE_PERIOD_DAYS cfg' else days') ->
  Attendance.get_attendance_percentage cfg clk s days db =
  Attendance.get_attendance_percentage cfg' clk s days' db.
Proof.
  intros H. rewrite !get_attendance_percentage_eq. cbv zeta. rewrite H.
  reflexivity.
Qed.

(** C10: [get_attendance_percentage] called with [days] equal to 30 works on
    a window of ATTENDANCE_PERIOD_DAYS days and behaves exactly as when it is
    called with that configured value; called with any other [days] it works
    on a window of [days] days, whatever the configuration.  The window shows
    in [start_date], [end_date] and in the records that [total_days] counts.
    [get_attendance_history] has no such substitution: called with 30 it
    returns the records of the last 30 days. *)
Theorem period_substituted_for_30
    (cfg : config) (clk : clock) (s days : Z) (db : database) :
  let w := if days =? 30 then ATTENDANCE_PERIOD_DAYS cfg else days in
  MINORDINAL <= today clk < MAXORDINAL ->
  MINORDINAL <= today clk - (w - 1) <= MAXORDINAL ->
  MINORDINAL <= today clk - (days - 1) <= MAXORDINAL ->
  student_exists db s = true ->
  (days = 30 ->
   w = ATTENDANCE_PERIOD_DAYS cfg /\
   Attendance.get_attendance_percentage cfg clk s days db =
   Attendance.get_attendance_percentage cfg clk s (ATTENDANCE_PERIOD_DAYS cfg) db)
  /\
  (days <> 30 ->
   w = days /\
   forall cfg',
     Attendance.get_attendance_percentage cfg clk s days db =
     Attendance.get_attendance_percentage cfg' clk s days db)
  /\
  (exists r db',
     Attendance.get_attendance_percentage cfg clk s days db = (Ok r, db') /\
     start_date r = today clk - (w - 1) /\
     end_date r = today clk /\
     total_days r =
       Z.of_nat (length (records_in db' s (today clk - (w - 1)) (today clk))))
  /\
  (exists l,
     Attendance.get_attendance_history clk s days db = (Ok l, db) /\
     match records_in db s (today clk - (days - 1)) (today clk) with
     | [] => l = [{| he_date := today clk; he_logged_in := 0;
                     he_login_time := None |}]
     | _ :: _ =>
         Permutation l
           (map dict_factory
              (records_in db s (today clk - (days - 1)) (today clk)))
     end).
Proof.
  intros w Hhi Hw Hdays Hs. split; [|split; [|split]].
  - intros ->. split; [reflexivity|].
    apply get_attendance_percentage_window. simpl.
    destruct (ATTENDANCE_PERIOD_DAYS cfg =? 30); reflexivity.
  - intros Hne. assert ((days =? 30) = false) as E by (apply Z.eqb_neq; exact Hne).
    split; [unfold w; rewrite E; reflexivity|].
    intros cfg'. apply get_attendance_percentage_window. rewrite E. reflexivity.
  - pose proof (get_attendance_percentage_run cfg clk s days db) as Hrun.
    cbv zeta in Hrun. specialize (Hrun Hhi Hw Hs).
    eexists. eexists. split; [exact Hrun|].
    unfold stats_of. cbn [start_date end_date total_days]. auto.
  - rewrite get_attendance_history_eq.
    rewrite date_sub_representable by (try assumption; lia).
    pose proof (order_by_date_desc_perm
                  (records_in db s (today clk - (days - 1)) (today clk)))
      as Hperm.
    destruct (records_in db s (today clk - (days - 1)) (today clk))
      as [|r rs].
    + simpl. eexists. split; reflexivity.
    + apply (Permutation_map dict_factory) in Hperm.
      destruct (map dict_factory (order_by_date_desc (r :: rs))) as [|x l].
      * apply Permutation_nil in Hperm. discriminate Hperm.
      * exists (x :: l). split; [reflexivity | exact Hperm].
Qed.

Lemma period_substituted_for_30_witness :
  MINORDINAL <= today wednesday_5pm < MAXORDINAL /\
  MINORDINAL <= today wednesday_5pm - (7 - 1) <= MAXORDINAL /\
  MINORDINAL <= today wednesday_5pm - (30 - 1) <= MAXORDINAL /\
  student_exists backfilled_db 1 = true /\
  (30 = 30 ->
   (if 30 =? 30 then ATTENDANCE_PERIOD_DAYS config_custom else 30) = 7 /\
   Attendance.get_attendance_percentage config_custom wednesday_5pm 1 30
     backfilled_db =
   Attendance.get_attendance_percentage config_custom wednesday_5pm 1
     (ATTENDANCE_PERIOD_DAYS config_custom) backfilled_db)
  /\
  (exists r db',
     Attendance.get_attendance_percentage config_custom wednesday_5pm 1 30
       backfilled_db = (Ok r, db') /\
     start_date r = today wednesday_5pm - (7 - 1) /\
     end_date r = today wednesday_5pm /\
     total_days r =
       Z.of_nat (length (records_in db' 1 (today wednesday_5pm - (7 - 1))
                                    (today wednesday_5pm))))
  /\
  (exists l,
     Attendance.get_attendance_history wednesday_5pm 1 30 backfilled_db
       = (Ok l, backfilled_db) /\
     match records_in backfilled_db 1 (today wednesday_5pm - (30 - 1))
                      (today wednesday_5pm) with
     | [] => l = [{| he_date := today wednesday_5pm; he_logged_in := 0;
                     he_login_time := None |}]
     | _ :: _ =>
         Permutation l
           (map dict_factory
              (records_in backfilled_db 1 (today wednesday_5pm - (30 - 1))
                          (today wednesday_5pm)))
     end).
Proof.
  assert (MINORDINAL <= today wednesday_5pm < MAXORDINAL) as H1
    by (vm_compute; split; [discriminate | reflexivity]).
  assert (MINORDINAL <= today wednesday_5pm - (7 - 1) <= MAXORDINAL) as H2
    by (vm_compute; split; discriminate).
  assert (MINORDINAL <= today wednesday_5pm - (30 - 1) <= MAXORDINAL) as H3
    by (vm_compute; split; discriminate).
  destruct (period_substituted_for_30 config_custom wednesday_5pm 1 30
              backfilled_db H1 H2 H3 eq_refl)
    as (H30 & _ & Hpct & Hhist).
  split; [exact H1|]. split; [exact H2|]. split; [exact H3|].
  split; [reflexivity|].
  split; [exact H30|]. split; [exact Hpct | exact Hhist].
Defined.

(** ** Login and first percentage, in both orders *)

Lemma is_weekday_mod (q m c : Z) :
  is_weekday (7 * q + m + c) = ((m + c + 6) mod 7 <? 5).
Proof.
  unfold is_weekday, weekday. f_equal.
  replace (7 * q + m + c + 6) with (m + c + 6 + q * 7) by lia.
  apply Z_mod_plus_full.
Qed.

(** Seven consecutive days hold five weekdays. *)
Lemma five_weekdays (d : date) :
  length (filter is_weekday (days_between (d - 6) d)) = 5%nat.
Proof.
  unfold days_between. replace (d + 1 - (d - 6)) with 7 by lia.
  pose proof (Z.div_mod d 7 ltac:(lia)) as Hd.
  pose proof (Z.mod_pos_bound d 7 ltac:(lia)) as Hm.
  set (q := d / 7) in *. set (m := d mod 7) in *.
  change (Z.to_nat 7) with 7%nat. cbn [days_from].
  replace (d - 6) with (7 * q + m + -6) by lia.
  replace (7 * q + m + -6 + 1) with (7 * q + m + -5) by lia.
  replace (7 * q + m + -5 + 1) with (7 * q + m + -4) by lia.
  replace (7 * q + m + -4 + 1) with (7 * q + m + -3) by lia.
  replace (7 * q + m + -3 + 1) with (7 * q + m + -2) by lia.
  replace (7 * q + m + -2 + 1) with (7 * q + m + -1) by lia.
  replace (7 * q + m + -1 + 1) with (7 * q + m + 0) by lia.
  cbn [filter]. rewrite !is_weekday_mod.
  assert (m = 0 \/ m = 1 \/ m = 2 \/ m = 3 \/ m = 4 \/ m = 5 \/ m = 6)
    as Hcases by lia.
  destruct Hcases as [E|[E|[E|[E|[E|[E|E]]]]]]; rewrite E; reflexivity.
Qed.

Lemma set_login_in_window (t : datetime) (id : Z) (s : Z) (lo hi : date)
    (r : attendance_row) :
  in_window s lo hi (set_login t id r) = in_window s lo hi r.
Proof. unfold set_login. destruct (at_id r =? id); reflexivity. Qed.

Lemma records_in_map_set_login (t : datetime) (id : Z) (s : Z) (lo hi : date)
    (l : list attendance_row) :
  filter (in_window s lo hi) (map (set_login t id) l) =
  map (set_login t id) (filter (in_window s lo hi) l).
Proof.
  induction l as [|x l IH]; simpl; [reflexivity|].
  rewrite set_login_in_window.
  destruct (in_window s lo hi x); simpl; rewrite IH; reflexivity.
Qed.

Lemma count_id (l : list attendance_row) (r0 : attendance_row) :
  NoDup (map at_id l) -> In r0 l ->
  length (filter (fun r => at_id r =? at_id r0) l) = 1%nat.
Proof.
  induction l as [|x l IH]; simpl; intros Hnd Hin; [tauto|].
  inversion Hnd as [|? ? Hx Hl]; subst.
  destruct Hin as [->|Hin].
  - rewrite Z.eqb_refl. simpl. f_equal.
    rewrite filter_none; [reflexivity|]. intros y Hy.
    apply Z.eqb_neq. intros E. apply Hx. rewrite <- E. apply in_map. exact Hy.
  - destruct (Z.eqb_spec (at_id x) (at_id r0)) as [E|E].
    + exfalso. apply Hx. rewrite E. apply in_map. exact Hin.
    + apply IH; assumption.
Qed.

(** After the UPDATE of a login, the present rows among rows that were all
    absent are the rows with the updated key. *)
Lemma present_after_login (t : datetime) (id : Z) (l : list attendance_row) :
  (forall r, In r l -> at_logged_in r = 0) ->
  filter (fun r => at_logged_in r =? 1) (map (set_login t id) l) =
  map (set_login t id) (filter (fun r => at_id r =? id) l).
Proof.
  induction l as [|x l IH]; simpl; intros Hall; [reflexivity|].
  rewrite IH by (intros r Hr; apply Hall; auto).
  assert ((at_logged_in (set_login t id x) =? 1) = (at_id x =? id)) as ->.
  { unfold set_login. destruct (at_id x =? id); [reflexivity|].
    rewrite (Hall x) by auto. reflexivity. }
  destruct (at_id x =? id); reflexivity.
Qed.

Lemma no_records_in_window (db : database) (s : Z) (lo hi : date) :
  (forall r, In r (attendance db) -> at_student_id r <> s) ->
  records_in db s lo hi = [].
Proof.
  intros H. unfold records_in. apply filter_none. intros r Hr.
  unfold in_window. apply andb_false_iff. left. apply Z.eqb_neq.
  apply H. exact Hr.
Qed.

Lemma no_records_find (db : database) (s : Z) (d : date) :
  (forall r, In r (attendance db) -> at_student_id r <> s) ->
  find (attendance_key s d) (attendance db) = None.
Proof.
  intros H. destruct (find _ _) as [r|] eqn:E; [|reflexivity].
  apply find_key_some in E. destruct E as (Hin & Hs & _).
  exfalso. exact (H r Hin Hs).
Qed.

(** The first percentage of a student without records: the ledger it leaves
    and the records of the student in the window. *)
Lemma first_percentage (cfg : config) (clk : clock) (s : Z) (db : database) :
  representable_window clk 7 ->
  student_exists db s = true ->
  attendance_wf db ->
  (forall r, In r (attendance db) -> at_student_id r <> s) ->
  exists st db' news,
    Attendance.get_attendance_percentage cfg clk s 7 db = (Ok st, db') /\
    attendance db' = attendance db ++ news /\
    records_in db' s (today clk - 6) (today clk) = news /\
    map row_values news =
      map (absent_on s)
          (filter is_weekday (days_between (today clk - 6) (today clk))) /\
    attendance_wf db' /\
    student_exists db' s = true /\
    total_days st = Z.of_nat (length news) /\
    present_days st = 0.
Proof.
  intros [Hhi Hlo] Hs Hwf Hnone.
  pose proof (get_attendance_percentage_run cfg clk s 7 db) as Hrun.
  cbv zeta in Hrun. change (if 7 =? 30 then _ else 7) with 7 in Hrun.
  change (7 - 1) with 6 in *. specialize (Hrun Hhi Hlo Hs).
  rewrite (no_records_in_window db s _ _ Hnone) in Hrun.
  set (ds := filter is_weekday (days_between (today clk - 6) (today clk))) in *.
  destruct (insert_all_attendance (map (absent_on s) ds) db)
    as (news & Ha & Hv & Hst & _).
  assert (forall d, In d ds -> today clk - 6 <= d <= today clk) as Hds.
  { intros d Hd. unfold ds in Hd. apply filter_In in Hd.
    apply in_days_between. tauto. }
  assert (records_in (insert_all db (map (absent_on s) ds)) s
            (today clk - 6) (today clk) = news) as Hrec.
  { unfold records_in. rewrite Ha, filter_app.
    fold (records_in db s (today clk - 6) (today clk)).
    rewrite (no_records_in_window db s _ _ Hnone). simpl.
    apply (backfilled_in_window s _ _ ds Hds). exact Hv. }
  destruct (in_map_row_values s ds news Hv) as [_ Hall].
  eexists. exists (insert_all db (map (absent_on s) ds)), news.
  split; [exact Hrun|]. split; [exact Ha|]. split; [exact Hrec|].
  split; [exact Hv|]. split.
  - destruct (get_attendance_percentage_db cfg clk s 7 db) as [E|(vs & E & _ & H)].
    + rewrite Hrun in E. cbn [snd] in E. rewrite E. exact Hwf.
    + rewrite Hrun in H. cbn [snd] in H. apply H. exact Hwf.
  - split; [unfold student_exists; rewrite Hst; exact Hs|].
    unfold stats_of. cbn [total_days present_days]. rewrite Hrec.
    split; [reflexivity|].
    rewrite filter_andb. fold (records_in (insert_all db (map (absent_on s) ds))
                                 s (today clk - 6) (today clk)).
    rewrite Hrec. rewrite filter_none; [reflexivity|].
    intros r Hr. destruct (Hall r Hr) as (_ & H0 & _). rewrite H0. reflexivity.
Qed.

Lemma NoDup_map_app_r {A B} (f : A -> B) (l l' : list A) :
  NoDup (map f (l ++ l')) -> NoDup (map f l').
Proof.
  rewrite map_app. induction (map f l) as [|x m IH]; simpl; [auto|].
  intros H. inversion H; auto.
Qed.

(** A login of a student whose only records are the absent ones of a
    backfill that covers today. *)
Lemma login_after_backfill (clk : clock) (s : Z) (db : database)
    (old news : list attendance_row) (ds : list date) :
  attendance db = old ++ news ->
  (forall r, In r old -> at_student_id r <> s) ->
  map row_values news = map (absent_on s) ds ->
  In (today clk) ds ->
  attendance_wf db ->
  exists db' r0,
    Attendance.mark_attendance clk s db = (Ok true, db') /\
    In r0 news /\
    students db' = students db /\
    attendance db' = map (set_login (now clk) (at_id r0)) (attendance db).
Proof.
  intros Ha Hold Hv Htoday Hwf. rewrite mark_attendance_eq, Ha, find_app.
  assert (find (attendance_key s (today clk)) old = None) as ->.
  { destruct (find _ old) as [r|] eqn:E; [|reflexivity].
    apply find_key_some in E. destruct E as (Hin & Hs & _).
    exfalso. exact (Hold r Hin Hs). }
  destruct (find (attendance_key s (today clk)) news) as [r0|] eqn:E.
  - eexists. exists r0. split; [reflexivity|].
    apply find_some in E. destruct E as [Hin _]. rewrite <- Ha. auto.
  - exfalso.
    assert (In (absent_on s (today clk)) (map row_values news)) as Hin
      by (rewrite Hv; apply in_map; exact Htoday).
    apply in_map_iff in Hin. destruct Hin as (r & Hr & Hin).
    pose proof (find_none _ _ E r Hin) as Hk.
    apply attendance_key_false in Hk. apply Hk.
    unfold row_values, absent_on in Hr. unfold at_key. congruence.
Qed.

(** C4, as the code has it: on a ledger without records of Alice,
    [mark_attendance] and then [get_attendance_percentage] over 7 days
    return present_days = 1, total_days = 1 and percentage = 100.0: the
    record of the login is the only one in the window and keeps the backfill
    from running.  present_days = 1 and percentage = 20.0 (one of five
    weekday records) are what the second percentage returns when a first one
    ran before the login, on a weekday such as a Wednesday. *)
Theorem login_then_percentage
    (cfg : config) (clk0 clk1 clk2 : clock) (s : Z) (db : database) :
  today clk1 = today clk0 ->
  today clk2 = today clk0 ->
  representable_window clk0 7 ->
  is_weekday (today clk0) = true ->
  student_exists db s = true ->
  attendance_wf db ->
  (forall r, In r (attendance db) -> at_student_id r <> s) ->
  (exists db1 st db2,
     Attendance.mark_attendance clk1 s db = (Ok true, db1) /\
     Attendance.get_attendance_percentage cfg clk2 s 7 db1 = (Ok st, db2) /\
     present_days st = 1 /\
     total_days st = 1 /\
     percentage st = PyFloat 100%float)
  /\
  (exists st0 db0 db1 st db2,
     Attendance.get_attendance_percentage cfg clk0 s 7 db = (Ok st0, db0) /\
     present_days st0 = 0 /\
     total_days st0 = 5 /\
     Attendance.mark_attendance clk1 s db0 = (Ok true, db1) /\
     Attendance.get_attendance_percentage cfg clk2 s 7 db1 = (Ok st, db2) /\
     present_days st = 1 /\
     total_days st = 5 /\
     percentage st = PyFloat 20%float).
Proof.
  intros H1 H2 Hw Hwd Hs Hwf Hnone.
  assert (representable_window clk2 7) as Hw2
    by (unfold representable_window in *; rewrite H2; exact Hw).
  destruct Hw2 as [Hhi Hlo]. change (7 - 1) with 6 in Hlo.
  split.
  - (* the login comes first *)
    rewrite mark_attendance_eq, (no_records_find db s _ Hnone), Hs.
    set (db1 := append_attendance db (s, today clk1, 1, Some (now clk1))).
    assert (records_in db1 s (today clk2 - 6) (today clk2) =
            [attendance_values
               (next_rowid (seq_attendance db) (map at_id (attendance db)))
               (s, today clk1, 1, Some (now clk1))]) as Hrec.
    { unfold records_in, db1. cbn [append_attendance with_attendance attendance].
      rewrite filter_app.
      fold (records_in db s (today clk2 - 6) (today clk2)).
      rewrite (no_records_in_window db s _ _ Hnone).
      cbn [filter attendance_values app]. unfold in_window, between.
      cbn [at_student_id at_date]. rewrite Z.eqb_refl, H1, H2.
      destruct (Z.leb_spec (today clk0 - 6) (today clk0)),
               (Z.leb_spec (today clk0) (today clk0)); simpl;
        try reflexivity; lia. }
    pose proof (get_attendance_percentage_run cfg clk2 s 7 db1) as Hrun.
    cbv zeta in Hrun. change (if 7 =? 30 then _ else 7) with 7 in Hrun.
    change (7 - 1) with 6 in Hrun. specialize (Hrun Hhi Hlo Hs).
    rewrite Hrec in Hrun. cbn [map insert_all fold_left] in Hrun.
    rewrite Hrec in Hrun.
    exists db1. eexists. exists db1. split; [reflexivity|].
    split; [exact Hrun|].
    unfold stats_of. cbn [present_days total_days percentage].
    rewrite filter_andb. fold (records_in db1 s (today clk2 - 6) (today clk2)).
    rewrite Hrec. cbn [filter attendance_values at_logged_in length].
    change (1 =? 1) with true. cbn [length].
    split; [reflexivity|]. split; [reflexivity|]. vm_compute. reflexivity.
  - (* a percentage comes first *)
    destruct (first_percentage cfg clk0 s db Hw Hs Hwf Hnone)
      as (st0 & db0 & news & Hrun0 & Ha & Hrec0 & Hv & Hwf0 & Hs0 & Ht0 & Hp0).
    set (ds := filter is_weekday (days_between (today clk0 - 6) (today clk0)))
      in *.
    assert (length news = 5%nat) as Hlen.
    { rewrite <- (length_map row_values), Hv, length_map. apply five_weekdays. }
    assert (In (today clk1) ds) as Htoday.
    { rewrite H1. unfold ds. apply filter_In. split; [|exact Hwd].
      apply in_days_between. lia. }
    destruct (login_after_backfill clk1 s db0 (attendance db) news ds
                Ha Hnone Hv Htoday Hwf0)
      as (db1 & r0 & Hmark & Hin0 & Hst1 & Ha1).
    destruct (in_map_row_values s ds news Hv) as [_ Hall].
    assert (records_in db1 s (today clk2 - 6) (today clk2) =
            map (set_login (now clk1) (at_id r0)) news) as Hrec1.
    { unfold records_in. rewrite Ha1, records_in_map_set_login.
      fold (records_in db0 s (today clk2 - 6) (today clk2)).
      rewrite H2, Hrec0. reflexivity. }
    assert (student_exists db1 s = true) as Hs1
      by (unfold student_exists; rewrite Hst1; exact Hs0).
    pose proof (get_attendance_percentage_run cfg clk2 s 7 db1) as Hrun.
    cbv zeta in Hrun. change (if 7 =? 30 then _ else 7) with 7 in Hrun.
    change (7 - 1) with 6 in Hrun. specialize (Hrun Hhi Hlo Hs1).
    rewrite Hrec1 in Hrun.
    destruct news as [|n0 news']; [discriminate Hlen|].
    cbn [map insert_all fold_left] in Hrun.
    change (set_login (now clk1) (at_id r0) n0
            :: map (set_login (now clk1) (at_id r0)) news')
      with (map (set_login (now clk1) (at_id r0)) (n0 :: news')) in Hrec1.
    rewrite Hrec1 in Hrun.
    exists st0, db0, db1. eexists. exists db1.
    split; [exact Hrun0|]. split; [exact Hp0|].
    split; [rewrite Ht0, Hlen; reflexivity|].
    split; [exact Hmark|]. split; [exact Hrun|].
    unfold stats_of. cbn [present_days total_days percentage].
    rewrite filter_andb. fold (records_in db1 s (today clk2 - 6) (today clk2)).
    rewrite Hrec1, (present_after_login _ _ _ (fun r Hr => proj1 (proj2 (Hall r Hr)))).
    rewrite !length_map, Hlen.
    rewrite (count_id (n0 :: news') r0);
      [|destruct Hwf0 as [Hid _]; rewrite Ha in Hid;
        exact (NoDup_map_app_r at_id _ _ Hid) | exact Hin0].
    split; [reflexivity|]. split; [reflexivity|]. vm_compute. reflexivity.
Qed.

Lemma login_then_percentage_witness :
  today wednesday_9am = today wednesday_9am /\
  today wednesday_5pm = today wednesday_9am /\
  representable_window wednesday_9am 7 /\
  is_weekday (today wednesday_9am) = true /\
  student_exists fresh_db 1 = true /\
  attendance_wf fresh_db /\
  (forall r, In r (attendance fresh_db) -> at_student_id r <> 1) /\
  (exists db1 st db2,
     Attendance.mark_attendance wednesday_9am 1 fresh_db = (Ok true, db1) /\
     Attendance.get_attendance_percentage config_py wednesday_5pm 1 7 db1
       = (Ok st, db2) /\
     present_days st = 1 /\
     total_days st = 1 /\
     percentage st = PyFloat 100%float)
  /\
  (exists st0 db0 db1 st db2,
     Attendance.get_attendance_percentage config_py wednesday_9am 1 7 fresh_db
       = (Ok st0, db0) /\
     present_days st0 = 0 /\
     total_days st0 = 5 /\
     Attendance.mark_attendance wednesday_9am 1 db0 = (Ok true, db1) /\
     Attendance.get_attendance_percentage config_py wednesday_5pm 1 7 db1
       = (Ok st, db2) /\
     present_days st = 1 /\
     total_days st = 5 /\
     percentage st = PyFloat 20%float).
Proof.
  assert (representable_window wednesday_9am 7) as Hw
    by (window_facts; vm_compute; repeat split; discriminate).
  assert (attendance_wf fresh_db) as Hwf by concrete_wf.
  assert (forall r, In r (attendance fresh_db) -> at_student_id r <> 1) as Hn
    by (intros r []).
  split; [reflexivity|]. split; [reflexivity|]. split; [exact Hw|].
  split; [reflexivity|]. split; [reflexivity|]. split; [exact Hwf|].
  split; [exact Hn|].
  apply (login_then_percentage config_py wednesday_9am wednesday_9am
           wednesday_5pm 1 fresh_db eq_refl eq_refl Hw eq_refl eq_refl Hwf Hn).
Defined.

(** C4 as it is stated fails on the fresh ledger: after the login the
    percentage over 7 days is not 20.0. *)
Lemma login_then_percentage_counterexample :
  ~ (exists db1 st db2,
       Attendance.mark_attendance wednesday_9am 1 fresh_db = (Ok true, db1) /\
       Attendance.get_attendance_percentage config_py wednesday_9am 1 7 db1
         = (Ok st, db2) /\
       present_days st = 1 /\
       percentage st = PyFloat 20%float).
Proof.
  intros (db1 & st & db2 & Hmark & Hrun & _ & Hpct).
  vm_compute in Hmark. injection Hmark as <-.
  vm_compute in Hrun. injection Hrun as <- _.
  cbn [percentage] in Hpct.
  apply (f_equal (fun x => match x with
                           | PyFloat f => Prim2SF f
                           | PyInt _ => S754_nan
                           end)) in Hpct.
  vm_compute in Hpct. discriminate Hpct.
Qed.

(** * Further properties of [models.py] *)

(** ** Logout *)

Lemma count_positive {A} (f : A -> bool) (l : list A) :
  (Z.of_nat (length (filter f l)) >? 0) = existsb f l.
Proof.
  induction l as [|x l IH]; simpl; [reflexivity|].
  destruct (f x); simpl; [|exact IH].
  destruct (length (filter f l)); reflexivity.
Qed.

Lemma filter_idempotent {A} (f : A -> bool) (l : list A) :
  filter f (filter f l) = filter f l.
Proof.
  induction l as [|x l IH]; simpl; [reflexivity|].
  destruct (f x) eqn:E; simpl; rewrite ?E, IH; reflexivity.
Qed.

Lemma session_delete_eq (token : string) (db : database) :
  Session.delete token db =
  (Ok (existsb (has_token token) (sessions db)),
   {| students := students db;
      attendance := attendance db;
      sessions := filter (fun r => negb (has_token token r)) (sessions db);
      seq_students := seq_students db;
      seq_attendance := seq_attendance db;
      seq_sessions := seq_sessions db |}).
Proof.
  unfold Session.delete, get_db_connection, bind, delete_session, execute,
    commit, ret. cbn [pending committed].
  fold (has_token token). rewrite count_positive. reflexivity.
Qed.

Lemma find_live_after_delete (token : string) (t : datetime)
    (l : list session_row) :
  find (session_live token t) (filter (fun r => negb (has_token token r)) l)
  = None.
Proof.
  induction l as [|x l IH]; simpl; [reflexivity|].
  destruct (has_token token x) eqn:E; simpl; [exact IH|].
  unfold session_live. unfold has_token in E. rewrite E. simpl. exact IH.
Qed.

Lemma find_live_other_token (token token' : string) (t : datetime)
    (l : list session_row) :
  token' <> token ->
  find (session_live token' t) (filter (fun r => negb (has_token token r)) l)
  = find (session_live token' t) l.
Proof.
  intros Hne. induction l as [|x l IH]; simpl; [reflexivity|].
  destruct (has_token token x) eqn:E; simpl.
  - unfold has_token in E. apply String.eqb_eq in E.
    assert (session_live token' t x = false) as ->; [|exact IH].
    unfold session_live. apply andb_false_iff. left.
    apply String.eqb_neq. congruence.
  - rewrite IH. reflexivity.
Qed.

(** X1: [Session.delete] never raises and returns whether a row carried the
    token.  Afterwards the token validates at no time, a second delete
    returns [False] and changes nothing, every other token validates as
    before, and the students and attendance records are untouched. *)
Theorem session_delete_revokes (token : string) (db : database) :
  exists db',
    Session.delete token db
      = (Ok (existsb (has_token token) (sessions db)), db') /\
    students db' = students db /\
    attendance db' = attendance db /\
    (forall clk, Session.validate clk token db' = (Ok None, db')) /\
    Session.delete token db' = (Ok false, db') /\
    (forall clk token',
       token' <> token ->
       fst (Session.validate clk token' db')
       = fst (Session.validate clk token' db)).
Proof.
  rewrite session_delete_eq. eexists. split; [reflexivity|].
  split; [reflexivity|]. split; [reflexivity|]. split; [|split].
  - intros clk. rewrite session_validate_eq. cbn [sessions].
    rewrite find_live_after_delete. reflexivity.
  - rewrite session_delete_eq. cbn [sessions students attendance seq_students
      seq_attendance seq_sessions]. rewrite filter_idempotent. f_equal.
    f_equal. rewrite existsb_find.
    destruct (find (has_token token) _) as [r|] eqn:E; [|reflexivity].
    apply find_some in E. destruct E as [Hin Hr].
    apply filter_In in Hin. destruct Hin as [_ Hn]. rewrite Hr in Hn.
    discriminate Hn.
  - intros clk token' Hne. rewrite !session_validate_eq. cbn [fst sessions].
    rewrite find_live_other_token by exact Hne. reflexivity.
Qed.

Lemma session_delete_revokes_witness :
  "00000000000000000000000000000000"%string <> alice_token /\
  exists db',
    Session.delete alice_token session_db = (Ok true, db') /\
    Session.validate wednesday_5pm alice_token db' = (Ok None, db') /\
    Session.delete alice_token db' = (Ok false, db') /\
    fst (Session.validate wednesday_5pm "00000000000000000000000000000000" db')
    = fst (Session.validate wednesday_5pm "00000000000000000000000000000000"
             session_db).
Proof.
  assert ("00000000000000000000000000000000"%string <> alice_token) as Hne
    by discriminate.
  split; [exact Hne|].
  destruct (session_delete_revokes alice_token session_db)
    as (db' & Hdel & _ & _ & Hval & Hagain & Hother).
  exists db'. split; [exact Hdel|]. split; [apply Hval|].
  split; [exact Hagain|]. apply Hother. exact Hne.
Defined.

(** ** Expiry *)

Lemma find_none_other_token (token : string) (t : datetime)
    (l : list session_row) :
  (forall r, In r l -> se_session_token r <> token) ->
  find (session_live token t) l = None.
Proof.
  intros H. destruct (find (session_live token t) l) as [r|] eqn:E;
    [|reflexivity].
  apply find_some in E. destruct E as [Hin Hlive].
  apply session_live_spec in Hlive. exfalso. exact (H r Hin (proj1 Hlive)).
Qed.

(** X2: a session that [Session.create] stored for a new token validates at
    no instant from its expiry on (24 hours after its creation); creating it
    changes the validation of no other token; and [Session.delete] of the
    token returns [True] and leaves the table of sessions as it was before
    the session was created. *)
Theorem session_expires_and_is_revocable
    (clk : clock) (token : string) (s : Z) (db : database) :
  student_exists db s = true ->
  datetime_in_range (now clk + 24 * USEC_PER_HOUR) = true ->
  (forall r, In r (sessions db) -> se_session_token r <> token) ->
  exists db',
    Session.create clk token s db = (Ok token, db') /\
    (forall clk',
       now clk + 24 * USEC_PER_HOUR <= now clk' ->
       Session.validate clk' token db' = (Ok None, db')) /\
    (forall clk' token',
       token' <> token ->
       fst (Session.validate clk' token' db')
       = fst (Session.validate clk' token' db)) /\
    (exists db'',
       Session.delete token db' = (Ok true, db'') /\
       sessions db'' = sessions db /\
       students db'' = students db /\
       attendance db'' = attendance db).
Proof.
  intros Hs Hrange Hfresh. rewrite session_create_eq.
  unfold datetime_add_hours. rewrite Hrange, Hs. cbv zeta.
  eexists. split; [reflexivity|]. split; [|split].
  - intros clk' Hlate. rewrite session_validate_eq. cbn [sessions].
    rewrite find_app, (find_none_other_token token _ _ Hfresh).
    cbn [find]. unfold session_live. cbn [se_session_token se_expires_at].
    rewrite String.eqb_refl.
    assert ((now clk' <? now clk + 24 * USEC_PER_HOUR) = false) as ->
      by (apply Z.ltb_ge; exact Hlate).
    reflexivity.
  - intros clk' token' Hne. rewrite !session_validate_eq. cbn [fst sessions].
    rewrite find_app.
    destruct (find (session_live token' (now clk')) (sessions db));
      [reflexivity|].
    cbn [find]. unfold session_live. cbn [se_session_token].
    assert ((token =? token')%string = false) as ->
      by (apply String.eqb_neq; congruence).
    reflexivity.
  - rewrite session_delete_eq. cbn [sessions students attendance].
    rewrite existsb_app. cbn [existsb]. unfold has_token at 2.
    cbn [se_session_token]. rewrite String.eqb_refl, orb_true_r.
    eexists. split; [reflexivity|]. cbn [sessions students attendance].
    split; [|split; reflexivity].
    rewrite filter_app. cbn [filter]. unfold has_token at 2.
    cbn [se_session_token]. rewrite String.eqb_refl. cbn [negb].
    rewrite app_nil_r.
    induction (sessions db) as [|x l IH]; [reflexivity|].
    cbn [filter]. unfold has_token at 1.
    assert ((se_session_token x =? token)%string = false) as ->
      by (apply String.eqb_neq; apply Hfresh; simpl; auto).
    cbn [negb]. f_equal. apply IH. intros r Hr. apply Hfresh. simpl. auto.
Qed.

Lemma session_expires_and_is_revocable_witness :
  student_exists fresh_db 1 = true /\
  datetime_in_range (now wednesday_9am + 24 * USEC_PER_HOUR) = true /\
  (forall r, In r (sessions fresh_db) -> se_session_token r <> alice_token) /\
  now wednesday_9am + 24 * USEC_PER_HOUR <= now thursday_9am /\
  exists db',
    Session.create wednesday_9am alice_token 1 fresh_db = (Ok alice_token, db') /\
    Session.validate thursday_9am alice_token db' = (Ok None, db') /\
    (exists db'',
       Session.delete alice_token db' = (Ok true, db'') /\
       sessions db'' = sessions fresh_db /\
       students db'' = students fresh_db /\
       attendance db'' = attendance fresh_db).
Proof.
  assert (forall r, In r (sessions fresh_db) ->
                    se_session_token r <> alice_token) as Hfresh
    by (intros r []).
  assert (now wednesday_9am + 24 * USEC_PER_HOUR <= now thursday_9am) as Hlate
    by (vm_compute; discriminate).
  split; [reflexivity|]. split; [reflexivity|]. split; [exact Hfresh|].
  split; [exact Hlate|].
  destruct (session_expires_and_is_revocable wednesday_9am alice_token 1
              fresh_db eq_refl eq_refl Hfresh)
    as (db' & Hcreate & Hexp & _ & Hdel).
  exists db'. split; [exact Hcreate|]. split; [apply Hexp; exact Hlate|].
  exact Hdel.
Defined.

(** ** Registration and password check *)

Lemma student_create_run (sha256 : string -> string) (clk : clock)
    (username password name email : string) (db : database) :
  Student.create sha256 clk username password name email db =
  if existsb (fun s => String.eqb (st_username s) username) (students db)
     || existsb (fun s => String.eqb (st_email s) email) (students db)
  then (Ok false, db)
  else
    (Ok true,
     {| students := students db ++
          [{| st_id := next_rowid (seq_students db) (map st_id (students db));
              st_username := username;
              st_password := sha256 password; st_name := name;
              st_email := email; st_created_at := CURRENT_TIMESTAMP clk |}];
        attendance := attendance db;
        sessions := sessions db;
        seq_students := next_rowid (seq_students db) (map st_id (students db));
        seq_attendance := seq_attendance db;
        seq_sessions := seq_sessions db |}).
Proof.
  unfold Student.create, get_db_connection, try_except, bind, insert_student,
    execute, commit, ret. cbn [pending committed].
  destruct (existsb (fun s => String.eqb (st_username s) username) (students db));
    [reflexivity|].
  destruct (existsb (fun s => String.eqb (st_email s) email) (students db));
    reflexivity.
Qed.

Lemma verify_password_eq (sha256 : string -> string)
    (username password : string) (db : database) :
  Student.verify_password sha256 username password db =
  (Ok (option_map st_id
         (find (fun s => String.eqb (st_username s) username
                         && String.eqb (st_password s) (sha256 password))
               (students db))), db).
Proof.
  unfold Student.verify_password, get_db_connection, bind, select, ret.
  cbn [pending committed]. destruct (find _ _); reflexivity.
Qed.

Lemma find_none_iff {A} (f : A -> bool) (l : list A) :
  existsb f l = false -> find f l = None.
Proof.
  rewrite existsb_find. destruct (find f l); [discriminate | reflexivity].
Qed.

(** X3: a registration under a username and an email that are not yet stored
    returns [True] and appends one student who carries the digest of the
    password.  From then on [get_by_username] and [get_by_id] return that
    student, [verify_password] returns the student's id for the same
    password and [None] for every password with another digest, the
    password check of every other username is what it was, and registering
    the username or the email again returns [False] and changes nothing. *)
Theorem registration_round_trip
    (sha256 : string -> string) (clk : clock)
    (username password name email : string) (db : database) :
  existsb (fun s => String.eqb (st_username s) username) (students db) = false ->
  existsb (fun s => String.eqb (st_email s) email) (students db) = false ->
  exists db' row,
    Student.create sha256 clk username password name email db = (Ok true, db') /\
    students db' = students db ++ [row] /\
    st_username row = username /\
    st_password row = sha256 password /\
    st_name row = name /\
    st_email row = email /\
    Student.get_by_username username db' = (Ok (Some row), db') /\
    Student.get_by_id (st_id row) db' = (Ok (Some row), db') /\
    Student.verify_password sha256 username password db'
      = (Ok (Some (st_id row)), db') /\
    (forall password',
       sha256 password' <> sha256 password ->
       Student.verify_password sha256 username password' db' = (Ok None, db')) /\
    (forall username' password',
       username' <> username ->
       fst (Student.verify_password sha256 username' password' db')
       = fst (Student.verify_password sha256 username' password' db)) /\
    (forall clk' username' password' name' email',
       username' = username \/ email' = email ->
       Student.create sha256 clk' username' password' name' email' db'
       = (Ok false, db')).
Proof.
  intros Hu He. rewrite student_create_run, Hu, He. cbn [orb].
  set (id := next_rowid (seq_students db) (map st_id (students db))).
  eexists. eexists. split; [reflexivity|]. cbn [students].
  split; [reflexivity|]. cbn [st_username st_password st_name st_email st_id].
  repeat (split; [reflexivity|]).
  split; [|split; [|split; [|split; [|split]]]].
  - unfold Student.get_by_username, get_db_connection, select.
    cbn [pending committed students]. rewrite find_app.
    rewrite (find_none_iff _ _ Hu). cbn [find st_username].
    rewrite String.eqb_refl. reflexivity.
  - unfold Student.get_by_id, get_db_connection, select.
    cbn [pending committed students]. rewrite find_app.
    assert (find (fun s => st_id s =? id) (students db) = None) as ->.
    { destruct (find _ _) as [r|] eqn:E; [|reflexivity].
      apply find_some in E. destruct E as [Hin Hid]. apply Z.eqb_eq in Hid.
      exfalso. apply (next_rowid_fresh (seq_students db)
                        (map st_id (students db))).
      fold id. rewrite <- Hid. apply in_map. exact Hin. }
    cbn [find st_id]. rewrite Z.eqb_refl. reflexivity.
  - rewrite verify_password_eq. cbn [students]. rewrite find_app.
    assert (find (fun s => String.eqb (st_username s) username
                           && String.eqb (st_password s) (sha256 password))
                 (students db) = None) as ->.
    { apply find_none_iff. apply existsb_false_iff. intros x Hx.
      rewrite (proj1 (existsb_false_iff _ _) Hu x Hx). reflexivity. }
    cbn [find st_username st_password]. rewrite !String.eqb_refl. reflexivity.
  - intros password' Hne. rewrite verify_password_eq. cbn [students].
    rewrite find_app.
    assert (find (fun s => String.eqb (st_username s) username
                           && String.eqb (st_password s) (sha256 password'))
                 (students db) = None) as ->.
    { apply find_none_iff. apply existsb_false_iff. intros x Hx.
      rewrite (proj1 (existsb_false_iff _ _) Hu x Hx). reflexivity. }
    cbn [find st_username st_password]. rewrite String.eqb_refl.
    assert ((sha256 password =? sha256 password')%string = false) as ->
      by (apply String.eqb_neq; congruence).
    reflexivity.
  - intros username' password' Hne. rewrite !verify_password_eq.
    cbn [fst students]. rewrite find_app.
    destruct (find _ (students db)); [reflexivity|].
    cbn [find st_username].
    assert ((username =? username')%string = false) as ->
      by (apply String.eqb_neq; congruence).
    reflexivity.
  - intros clk' username' password' name' email' Hdup.
    rewrite student_create_run. cbn [students]. rewrite !existsb_app.
    cbn [existsb st_username st_email].
    destruct Hdup as [->| ->]; rewrite String.eqb_refl;
      rewrite ?orb_true_r, ?orb_true_l; reflexivity.
Qed.

Lemma registration_round_trip_witness :
  existsb (fun s => String.eqb (st_username s) "bob") (students fresh_db)
    = false /\
  existsb (fun s => String.eqb (st_email s) "bob@example.com")
    (students fresh_db) = false /\
  example_digest "guess" <> example_digest "pw2" /\
  exists db' row,
    Student.create example_digest wednesday_9am "bob" "pw2" "Bob"
      "bob@example.com" fresh_db = (Ok true, db') /\
    Student.verify_password example_digest "bob" "pw2" db'
      = (Ok (Some (st_id row)), db') /\
    Student.verify_password example_digest "bob" "guess" db' = (Ok None, db') /\
    Student.create example_digest wednesday_5pm "bob" "pw3" "Robert"
      "robert@example.com" db' = (Ok false, db').
Proof.
  assert (example_digest "guess" <> example_digest "pw2") as Hne
    by discriminate.
  split; [reflexivity|]. split; [reflexivity|]. split; [exact Hne|].
  destruct (registration_round_trip example_digest wednesday_9am "bob" "pw2"
              "Bob" "bob@example.com" fresh_db eq_refl eq_refl)
    as (db' & row & Hc & _ & _ & _ & _ & _ & _ & _ & Hv & Hwrong & _ & Hdup).
  exists db', row. split; [exact Hc|]. split; [exact Hv|].
  split; [apply Hwrong; exact Hne|]. apply Hdup. left. reflexivity.
Defined.

(** ** The constraints of the schema are kept *)

Lemma existsb_app_l {A} (f : A -> bool) (l l' : list A) :
  existsb f l = true -> existsb f (l ++ l') = true.
Proof. intros H. rewrite existsb_app, H. reflexivity. Qed.

Lemma student_create_wf (sha256 : string -> string) (clk : clock)
    (u p n e : string) (db : database) :
  database_wf db ->
  database_wf (snd (Student.create sha256 clk u p n e db)).
Proof.
  intros Hwf. rewrite student_create_run.
  destruct (existsb (fun s => String.eqb (st_username s) u) (students db))
    eqn:Hu; [exact Hwf|].
  destruct (existsb (fun s => String.eqb (st_email s) e) (students db))
    eqn:He; [exact Hwf|].
  cbn [orb snd]. destruct Hwf as ((Hid & Hun & Hem) & Hatt & Hse & Hra & Hrs).
  split; [|split; [exact Hatt|split; [exact Hse|]]].
  - unfold students_wf. cbn [students]. rewrite !map_app. cbn [map].
    cbn [st_id st_username st_email].
    split; [|split]; apply NoDup_snoc; try assumption.
    + apply next_rowid_fresh.
    + intros Hin. apply in_map_iff in Hin. destruct Hin as (x & Hx & Hin).
      pose proof (proj1 (existsb_false_iff _ _) Hu x Hin) as Hf.
      cbn beta in Hf. rewrite Hx, String.eqb_refl in Hf. discriminate Hf.
    + intros Hin. apply in_map_iff in Hin. destruct Hin as (x & Hx & Hin).
      pose proof (proj1 (existsb_false_iff _ _) He x Hin) as Hf.
      cbn beta in Hf. rewrite Hx, String.eqb_refl in Hf. discriminate Hf.
  - split; cbn [attendance sessions]; intros r Hr; unfold student_exists;
      cbn [students]; apply existsb_app_l; [apply Hra | apply Hrs]; exact Hr.
Qed.

Lemma mark_attendance_students (clk : clock) (s : Z) (db : database) :
  students (snd (Attendance.mark_attendance clk s db)) = students db /\
  sessions (snd (Attendance.mark_attendance clk s db)) = sessions db.
Proof.
  rewrite mark_attendance_eq.
  destruct (find _ _); [split; reflexivity|].
  destruct (student_exists db s); split; reflexivity.
Qed.

Lemma mark_attendance_references (clk : clock) (s : Z) (db : database) :
  references_wf db ->
  references_wf (snd (Attendance.mark_attendance clk s db)).
Proof.
  intros [Hra Hrs]. rewrite mark_attendance_eq.
  destruct (find (attendance_key s (today clk)) (attendance db)) as [r0|].
  - split; [|exact Hrs]. cbn [snd with_attendance attendance]. intros r Hr.
    apply in_map_iff in Hr. destruct Hr as (x & <- & Hx).
    assert (at_student_id (set_login (now clk) (at_id r0) x)
            = at_student_id x) as ->
      by (unfold set_login; destruct (at_id x =? at_id r0); reflexivity).
    apply Hra. exact Hx.
  - destruct (student_exists db s) eqn:Hs; [|split; assumption].
    split; [|exact Hrs]. cbn [snd append_attendance with_attendance attendance].
    intros r Hr. apply in_app_iff in Hr. destruct Hr as [Hr|[<-|[]]].
    + apply Hra. exact Hr.
    + exact Hs.
Qed.

(** The first INSERT of an [executemany] that went through found its
    student. *)
Lemma for_each_insert_student (v : Z * date * Z * option datetime)
    (vs : list (Z * date * Z * option datetime)) (c c' : connection) (u : unit) :
  for_each insert_attendance (v :: vs) c = (Ok u, c') ->
  student_exists (pending c) (fst (fst (fst v))) = true.
Proof.
  cbn [for_each]. unfold bind. rewrite insert_attendance_eq.
  destruct v as [[[s d] li] lt]. cbn [fst].
  destruct (student_exists (pending c) s); [reflexivity|].
  cbn [andb]. intros H. discriminate H.
Qed.

Lemma get_attendance_percentage_references (cfg : config) (clk : clock)
    (s days : Z) (db : database) :
  references_wf db ->
  let db' := snd (Attendance.get_attendance_percentage cfg clk s days db) in
  students db' = students db /\ sessions db' = sessions db /\
  references_wf db'.
Proof.
  intros Href. cbv zeta. rewrite get_attendance_percentage_eq. cbv zeta.
  destruct (date_sub (today clk) _) as [lo|e]; [|auto].
  destruct (Z.of_nat _ =? 0); [|auto].
  destruct (Attendance.missing_days_loop s (today clk) (today clk) lo [])
    as [[|v vs]|e] eqn:Hloop; auto.
  destruct (for_each insert_attendance (v :: vs) _) as [[u|e] c] eqn:Hrun.
  - pose proof (for_each_insert_student _ _ _ _ _ Hrun) as Hs.
    cbn [pending] in Hs.
    pose proof (missing_days_loop_values s (today clk) (today clk)
                  (Z.to_nat (today clk + 1 - lo)) lo [] (v :: vs)
                  (le_n _) Hloop) as Hvals.
    apply insert_all_wf in Hrun. destruct Hrun as [Hp _]. cbn [snd].
    rewrite Hp.
    destruct (insert_all_attendance (v :: vs) db) as (news & Ha & Hv & Hst & Hse).
    split; [exact Hst|]. split; [exact Hse|].
    destruct Href as [Hra Hrs]. unfold references_wf, student_exists.
    rewrite Ha, Hst, Hse. split; [|exact Hrs].
    intros r Hr. apply in_app_iff in Hr. destruct Hr as [Hr|Hr];
      [apply Hra; exact Hr|].
    assert (In (row_values r) (v :: vs)) as Hin
      by (rewrite <- Hv; apply in_map; exact Hr).
    destruct (Hvals _ Hin) as [[]|(d & Hd)].
    destruct (Hvals v (or_introl eq_refl)) as [[]|(d0 & Hd0)].
    unfold row_values, absent_on in Hd. injection Hd as -> _ _ _.
    rewrite Hd0 in Hs. exact Hs.
  - cbn [snd].
    pose proof (for_each_insert_committed (v :: vs)
                  {| committed := db; pending := db |}) as Hc.
    rewrite Hrun in Hc. cbn [snd committed] in Hc. rewrite Hc. auto.
Qed.

Lemma NoDup_map_filter {A B} (f : A -> B) (g : A -> bool) (l : list A) :
  NoDup (map f l) -> NoDup (map f (filter g l)).
Proof.
  induction l as [|x l IH]; simpl; intros H; [constructor|].
  inversion H as [|? ? Hx Hl]; subst.
  destruct (g x); [|apply IH; exact Hl].
  simpl. constructor; [|apply IH; exact Hl].
  intros Hin. apply Hx. apply in_map_iff in Hin.
  destruct Hin as (y & Hy & Hin). apply filter_In in Hin.
  rewrite <- Hy. apply in_map. tauto.
Qed.

Lemma run_call_wf (sha256 : string -> string) (cfg : config)
    (req : clock * model_call) (db : database) :
  database_wf db -> database_wf (run_call sha256 cfg req db).
Proof.
  intros Hwf.
  destruct req as [clk [s|u|u p|u p n e|s|s n|s n|token s|token|token]];
    cbn [run_call].
  - exact Hwf.
  - exact Hwf.
  - rewrite verify_password_eq. exact Hwf.
  - apply student_create_wf. exact Hwf.
  - destruct Hwf as (Hst & Hatt & Hse & Href).
    destruct (mark_attendance_students clk s db) as [E1 E2].
    split; [unfold students_wf; rewrite E1; exact Hst|].
    split; [apply mark_attendance_wf; exact Hatt|].
    split; [unfold sessions_wf; rewrite E2; exact Hse|].
    apply mark_attendance_references. exact Href.
  - destruct Hwf as (Hst & Hatt & Hse & Href).
    destruct (get_attendance_percentage_references cfg clk s n db Href)
      as (E1 & E2 & Href').
    split; [unfold students_wf; rewrite E1; exact Hst|].
    split; [|split; [unfold sessions_wf; rewrite E2; exact Hse | exact Href']].
    destruct (get_attendance_percentage_db cfg clk s n db)
      as [->|(vs & _ & _ & H)]; auto.
  - rewrite get_attendance_history_db. exact Hwf.
  - rewrite session_create_eq.
    destruct (datetime_add_hours (now clk) 24) as [t|e]; [|exact Hwf].
    destruct (student_exists db s) eqn:Hs; [|exact Hwf].
    cbn [snd]. destruct Hwf as (Hst & Hatt & Hse & Hra & Hrs).
    split; [exact Hst|]. split; [exact Hatt|]. split.
    + unfold sessions_wf. cbn [sessions]. rewrite map_app. cbn [map se_id].
      apply NoDup_snoc; [exact Hse | apply next_rowid_fresh].
    + split; [exact Hra|]. cbn [sessions]. intros r Hr.
      apply in_app_iff in Hr. destruct Hr as [Hr|[<-|[]]];
        [apply Hrs; exact Hr | exact Hs].
  - rewrite session_validate_eq. exact Hwf.
  - rewrite session_delete_eq. cbn [snd].
    destruct Hwf as (Hst & Hatt & Hse & Hra & Hrs).
    split; [exact Hst|]. split; [exact Hatt|]. split.
    + unfold sessions_wf. cbn [sessions]. apply NoDup_map_filter. exact Hse.
    + split; [exact Hra|]. cbn [sessions]. intros r Hr.
      apply filter_In in Hr. apply Hrs. tauto.
Qed.

(** X4: every sequence of calls to [models.py], at any times and whether
    the calls return or raise, keeps what the schema of [db_init.py]
    declares: the ids of the three tables are keys, usernames and emails
    are unique, a student has at most one attendance record for a date, and
    every attendance record and every session refers to a stored student. *)
Theorem schema_constraints_kept
    (sha256 : string -> string) (cfg : config)
    (reqs : list (clock * model_call)) (db : database) :
  database_wf db -> database_wf (run_calls sha256 cfg reqs db).
Proof.
  revert db. induction reqs as [|req reqs IH]; intros db Hwf; simpl;
    [exact Hwf|].
  apply IH. apply run_call_wf. exact Hwf.
Qed.

Ltac concrete_database_wf :=
  unfold database_wf, students_wf, attendance_wf, sessions_wf, references_wf;
  simpl; repeat split; repeat constructor; simpl;
  intuition (subst; try discriminate; try reflexivity; try lia).

Lemma schema_constraints_kept_witness :
  database_wf fresh_db /\
  database_wf
    (run_calls example_digest config_py
       [(wednesday_9am, StudentCreate "bob" "pw2" "Bob" "bob@example.com");
        (wednesday_9am, SessionCreate alice_token 1);
        (wednesday_9am, AttendanceMark 1);
        (wednesday_5pm, AttendancePercentage 2 7);
        (wednesday_5pm, AttendanceMark 3);
        (thursday_9am, SessionDelete alice_token)]
       fresh_db).
Proof.
  assert (database_wf fresh_db) as Hwf by concrete_database_wf.
  split; [exact Hwf|].
  apply (schema_constraints_kept example_digest config_py _ fresh_db Hwf).
Defined.

(** * Further properties of the attendance ledger *)

(** ** A second look at the same window *)

Lemma records_after_backfill (s : Z) (lo hi : date) (ds : list date)
    (db : database) :
  (forall d, In d ds -> lo <= d <= hi) ->
  exists news,
    attendance (insert_all db (map (absent_on s) ds)) = attendance db ++ news /\
    map row_values news = map (absent_on s) ds /\
    records_in (insert_all db (map (absent_on s) ds)) s lo hi
    = records_in db s lo hi ++ news.
Proof.
  intros Hds.
  destruct (insert_all_attendance (map (absent_on s) ds) db)
    as (news & Ha & Hv & _).
  exists news. split; [exact Ha|]. split; [exact Hv|].
  unfold records_in. rewrite Ha, filter_app. f_equal.
  apply (backfilled_in_window s lo hi ds Hds). exact Hv.
Qed.

Lemma insert_all_students (vs : list (Z * date * Z * option datetime))
    (db : database) (s : Z) :
  student_exists (insert_all db vs) s = student_exists db s.
Proof.
  destruct (insert_all_attendance vs db) as (news & _ & _ & Hst & _).
  unfold student_exists. rewrite Hst. reflexivity.
Qed.

(** X5: a second [get_attendance_percentage] for the same student and window
    on the same day returns the dictionary the first one returned and writes
    nothing: the backfill of a window runs at most once. *)
Theorem percentage_is_idempotent
    (cfg : config) (clk clk' : clock) (s days : Z) (db : database) :
  let w := if days =? 30 then ATTENDANCE_PERIOD_DAYS cfg else days in
  today clk' = today clk ->
  representable_window clk w ->
  student_exists db s = true ->
  exists st db',
    Attendance.get_attendance_percentage cfg clk s days db = (Ok st, db') /\
    Attendance.get_attendance_percentage cfg clk' s days db' = (Ok st, db').
Proof.
  intros w Hday [Hhi Hlo] Hs.
  pose proof (get_attendance_percentage_run cfg clk s days db) as H1.
  cbv zeta in H1. fold w in H1. specialize (H1 Hhi Hlo Hs).
  set (hi := today clk) in *. set (lo := hi - (w - 1)) in *.
  set (ds := match records_in db s lo hi with
             | [] => filter is_weekday (days_between lo hi)
             | _ :: _ => []
             end) in *.
  set (db' := insert_all db (map (absent_on s) ds)) in *.
  assert (forall d, In d ds -> lo <= d <= hi) as Hds.
  { intros d Hd. unfold ds in Hd.
    destruct (records_in db s lo hi); [|destruct Hd].
    apply filter_In in Hd. apply in_days_between. tauto. }
  destruct (records_after_backfill s lo hi ds db Hds)
    as (news & _ & Hv & Hrec).
  fold db' in Hrec.
  pose proof (get_attendance_percentage_run cfg clk' s days db') as H2.
  cbv zeta in H2. fold w in H2. rewrite Hday in H2. fold hi lo in H2.
  assert (student_exists db' s = true) as Hs'
    by (unfold db'; rewrite insert_all_students; exact Hs).
  specialize (H2 Hhi Hlo Hs').
  assert (match records_in db' s lo hi with
          | [] => filter is_weekday (days_between lo hi)
          | _ :: _ => []
          end = []) as Hnone.
  { rewrite Hrec. unfold ds in Hv |- *.
    destruct (records_in db s lo hi) as [|r rs]; [|reflexivity].
    cbn [app]. destruct news as [|n news]; [|reflexivity].
    destruct (filter is_weekday (days_between lo hi)); [reflexivity|].
    discriminate Hv. }
  rewrite Hnone in H2. cbn [map insert_all fold_left] in H2.
  exists (stats_of db' s lo hi (Z.of_nat (length (records_in db' s lo hi)))), db'.
  split; [exact H1 | exact H2].
Qed.

Lemma percentage_is_idempotent_witness :
  today wednesday_5pm = today wednesday_9am /\
  representable_window wednesday_9am 7 /\
  student_exists fresh_db 1 = true /\
  exists st db',
    Attendance.get_attendance_percentage config_custom wednesday_9am 1 30
      fresh_db = (Ok st, db') /\
    Attendance.get_attendance_percentage config_custom wednesday_5pm 1 30 db'
      = (Ok st, db').
Proof.
  assert (representable_window wednesday_9am 7) as Hw
    by (window_facts; vm_compute; repeat split; discriminate).
  split; [reflexivity|]. split; [exact Hw|]. split; [reflexivity|].
  apply (percentage_is_idempotent config_custom wednesday_9am wednesday_5pm
           1 30 fresh_db eq_refl Hw eq_refl).
Defined.

(** ** Bounds on the counts *)

Lemma length_days_from (a : date) (n : nat) : length (days_from a n) = n.
Proof.
  revert a. induction n as [|n IH]; intros a; simpl; [reflexivity|].
  rewrite IH. reflexivity.
Qed.

Lemma in_records_in (db : database) (s : Z) (lo hi : date) (r : attendance_row) :
  In r (records_in db s lo hi) ->
  In r (attendance db) /\ at_student_id r = s /\ lo <= at_date r <= hi.
Proof.
  unfold records_in. intros H. apply filter_In in H. destruct H as [Hin Hw].
  unfold in_window, between in Hw.
  rewrite !andb_true_iff, Z.eqb_eq, !Z.leb_le in Hw. tauto.
Qed.

(** Under the UNIQUE constraint a window holds at most one record of a
    student for each of its days. *)
Lemma records_in_bounded (db : database) (s : Z) (lo hi : date) :
  attendance_wf db ->
  Z.of_nat (length (records_in db s lo hi)) <= Z.max 0 (hi + 1 - lo).
Proof.
  intros [_ Hkey].
  pose proof (unique_dates_in_window s lo hi (attendance db) Hkey) as Hnd.
  fold (records_in db s lo hi) in Hnd.
  assert (incl (map at_date (records_in db s lo hi)) (days_between lo hi))
    as Hincl.
  { intros d Hd. apply in_map_iff in Hd. destruct Hd as (r & <- & Hr).
    apply in_records_in in Hr. apply in_days_between. tauto. }
  pose proof (NoDup_incl_length Hnd Hincl) as Hlen.
  rewrite length_map in Hlen. unfold days_between in Hlen.
  rewrite length_days_from in Hlen. lia.
Qed.

(** X6: the counts [get_attendance_percentage] returns satisfy
    0 <= present_days <= total_days, and on a table that satisfies its
    UNIQUE constraint [total_days] is at most the number of days of the
    window. *)
Theorem percentage_counts_bounded
    (cfg : config) (clk : clock) (s days : Z) (db : database) :
  let w := if days =? 30 then ATTENDANCE_PERIOD_DAYS cfg else days in
  representable_window clk w ->
  student_exists db s = true ->
  attendance_wf db ->
  exists st db',
    Attendance.get_attendance_percentage cfg clk s days db = (Ok st, db') /\
    0 <= present_days st <= total_days st /\
    total_days st <= Z.max 0 w.
Proof.
  intros w [Hhi Hlo] Hs Hwf.
  pose proof (get_attendance_percentage_run cfg clk s days db) as Hrun.
  cbv zeta in Hrun. fold w in Hrun. specialize (Hrun Hhi Hlo Hs).
  set (hi := today clk) in *. set (lo := hi - (w - 1)) in *.
  set (db' := insert_all db _) in Hrun.
  assert (attendance_wf db') as Hwf'.
  { pose proof (get_attendance_percentage_db cfg clk s days db) as Hdb.
    cbv zeta in Hdb. rewrite Hrun in Hdb. cbn [snd] in Hdb.
    destruct Hdb as [E|(vs & _ & _ & H)]; [rewrite E; exact Hwf|].
    apply H. exact Hwf. }
  eexists. exists db'. split; [exact Hrun|].
  unfold stats_of. cbn [present_days total_days]. split.
  - rewrite filter_andb. fold (records_in db' s lo hi).
    pose proof (filter_length_le (fun r => at_logged_in r =? 1)
                  (records_in db' s lo hi)). lia.
  - pose proof (records_in_bounded db' s lo hi Hwf') as Hb.
    replace (hi + 1 - lo) with w in Hb by (unfold lo; lia).
    exact Hb.
Qed.

Lemma percentage_counts_bounded_witness :
  representable_window wednesday_5pm 7 /\
  student_exists marked_db 1 = true /\
  attendance_wf marked_db /\
  exists st db',
    Attendance.get_attendance_percentage config_py wednesday_5pm 1 7 marked_db
      = (Ok st, db') /\
    0 <= present_days st <= total_days st /\
    total_days st <= Z.max 0 7.
Proof.
  assert (representable_window wednesday_5pm 7) as Hw
    by (window_facts; vm_compute; repeat split; discriminate).
  assert (attendance_wf marked_db) as Hwf by concrete_wf.
  split; [exact Hw|]. split; [reflexivity|]. split; [exact Hwf|].
  apply (percentage_counts_bounded config_py wednesday_5pm 1 7 marked_db
           Hw eq_refl Hwf).
Defined.

(** ** Unknown students, windows out of range, empty windows *)

Lemma no_records_of_unknown_student (db : database) (s : Z) :
  references_wf db ->
  student_exists db s = false ->
  forall r, In r (attendance db) -> at_student_id r <> s.
Proof.
  intros [Hra _] Hs r Hr E. specialize (Hra r Hr). rewrite E in Hra. congruence.
Qed.

(** X7: for a student id that is not stored, on a database whose references
    hold, [mark_attendance], [Session.create] and a
    [get_attendance_percentage] whose window holds a weekday all raise
    [IntegrityError], and none of them leaves anything in the database, the
    rows an interrupted [executemany] had written included. *)
Theorem unknown_student_is_rejected
    (cfg : config) (clk : clock) (token : string) (s days : Z) (db : database) :
  let w := if days =? 30 then ATTENDANCE_PERIOD_DAYS cfg else days in
  student_exists db s = false ->
  references_wf db ->
  representable_window clk w ->
  (exists d, today clk - (w - 1) <= d <= today clk /\ is_weekday d = true) ->
  datetime_in_range (now clk + 24 * USEC_PER_HOUR) = true ->
  Attendance.mark_attendance clk s db = (Raise IntegrityError, db) /\
  Attendance.get_attendance_percentage cfg clk s days db
    = (Raise IntegrityError, db) /\
  Session.create clk token s db = (Raise IntegrityError, db).
Proof.
  intros w Hs Href [Hhi Hlo] (d & Hd & Hwd) Hrange.
  pose proof (no_records_of_unknown_student db s Href Hs) as Hnone.
  split; [|split].
  - rewrite mark_attendance_eq, (no_records_find db s _ Hnone), Hs.
    reflexivity.
  - rewrite get_attendance_percentage_eq. fold w. cbv zeta.
    rewrite date_sub_representable by lia.
    rewrite (no_records_in_window db s _ _ Hnone). cbn [length Z.of_nat].
    change (0 =? 0) with true. cbv iota.
    rewrite (missing_days_loop_spec s (today clk) (today clk)
               (Z.to_nat (today clk + 1 - (today clk - (w - 1)))))
      by (rewrite ?Z.min_id; unfold MINORDINAL in *; lia).
    cbn [app]. fold (days_between (today clk - (w - 1)) (today clk)).
    assert (In d (filter is_weekday
                    (days_between (today clk - (w - 1)) (today clk)))) as Hin
      by (apply filter_In; split; [apply in_days_between; exact Hd | exact Hwd]).
    destruct (filter is_weekday _) as [|d0 ds]; [destruct Hin|].
    cbn [map for_each]. unfold bind. rewrite insert_attendance_eq.
    unfold absent_on at 1. cbv iota beta. cbn [pending]. rewrite Hs.
    reflexivity.
  - rewrite session_create_eq. unfold datetime_add_hours. rewrite Hrange, Hs.
    reflexivity.
Qed.

Lemma unknown_student_is_rejected_witness :
  student_exists fresh_db 2 = false /\
  references_wf fresh_db /\
  representable_window wednesday_9am 7 /\
  (exists d, today wednesday_9am - (7 - 1) <= d <= today wednesday_9am /\
             is_weekday d = true) /\
  datetime_in_range (now wednesday_9am + 24 * USEC_PER_HOUR) = true /\
  Attendance.mark_attendance wednesday_9am 2 fresh_db
    = (Raise IntegrityError, fresh_db) /\
  Attendance.get_attendance_percentage config_py wednesday_9am 2 7 fresh_db
    = (Raise IntegrityError, fresh_db) /\
  Session.create wednesday_9am alice_token 2 fresh_db
    = (Raise IntegrityError, fresh_db).
Proof.
  assert (references_wf fresh_db) as Href
    by (split; intros r []).
  assert (representable_window wednesday_9am 7) as Hw
    by (window_facts; vm_compute; repeat split; discriminate).
  assert (exists d, today wednesday_9am - (7 - 1) <= d <= today wednesday_9am /\
                    is_weekday d = true) as Hd
    by (exists (today wednesday_9am); vm_compute; repeat split; discriminate).
  split; [reflexivity|]. split; [exact Href|]. split; [exact Hw|].
  split; [exact Hd|]. split; [reflexivity|].
  apply (unknown_student_is_rejected config_py wednesday_9am alice_token 2 7
           fresh_db eq_refl Href Hw Hd eq_refl).
Defined.

Lemma date_sub_overflow (hi n : Z) :
  ~ (MINORDINAL <= hi - n <= MAXORDINAL) ->
  date_sub hi n = Raise OverflowError.
Proof.
  intros H. unfold date_sub, timedelta_days.
  destruct ((- MAX_DELTA_DAYS <=? n) && (n <=? MAX_DELTA_DAYS));
    [|reflexivity].
  unfold date_in_range.
  destruct (Z.leb_spec MINORDINAL (hi - n)), (Z.leb_spec (hi - n) MAXORDINAL);
    simpl; try reflexivity. lia.
Qed.

(** X8: when the first day of the requested window is not a date Python can
    represent (it would fall before 0001-01-01 or after 9999-12-31),
    [get_attendance_percentage] and [get_attendance_history] raise
    [OverflowError] and leave the database as it is. *)
Theorem window_out_of_range
    (cfg : config) (clk : clock) (s days : Z) (db : database) :
  let w := if days =? 30 then ATTENDANCE_PERIOD_DAYS cfg else days in
  (~ (MINORDINAL <= today clk - (w - 1) <= MAXORDINAL) ->
   Attendance.get_attendance_percentage cfg clk s days db
     = (Raise OverflowError, db)) /\
  (~ (MINORDINAL <= today clk - (days - 1) <= MAXORDINAL) ->
   Attendance.get_attendance_history clk s days db
     = (Raise OverflowError, db)).
Proof.
  intros w. split; intros H.
  - rewrite get_attendance_percentage_eq. fold w. cbv zeta.
    rewrite (date_sub_overflow _ _ H). reflexivity.
  - rewrite get_attendance_history_eq, (date_sub_overflow _ _ H). reflexivity.
Qed.

Lemma window_out_of_range_witness :
  ~ (MINORDINAL <= today wednesday_9am - (10000000 - 1) <= MAXORDINAL) /\
  Attendance.get_attendance_percentage config_py wednesday_9am 1 10000000
    marked_db = (Raise OverflowError, marked_db) /\
  Attendance.get_attendance_history wednesday_9am 1 10000000 marked_db
    = (Raise OverflowError, marked_db).
Proof.
  assert (~ (MINORDINAL <= today wednesday_9am - (10000000 - 1) <= MAXORDINAL))
    as H by (vm_compute; intros [H _]; apply H; reflexivity).
  split; [exact H|].
  destruct (window_out_of_range config_py wednesday_9am 1 10000000 marked_db)
    as [Hp Hh].
  split; [apply Hp; exact H | apply Hh; exact H].
Defined.

Lemma empty_window_records (db : database) (s : Z) (lo hi : date) :
  hi < lo -> records_in db s lo hi = [].
Proof.
  intros H. unfold records_in. apply filter_none. intros r _.
  unfold in_window, between.
  destruct (Z.leb_spec lo (at_date r)), (Z.leb_spec (at_date r) hi);
    rewrite ?andb_false_r; try reflexivity. lia.
Qed.

(** X9: for [days] that is zero or negative the window is empty:
    [get_attendance_percentage] returns total_days = 0, present_days = 0 and
    the int 0 as percentage, and writes nothing, whether the student exists
    or not; [get_attendance_history] returns the single placeholder entry of
    today. *)
Theorem empty_window
    (cfg : config) (clk : clock) (s days : Z) (db : database) :
  days <= 0 ->
  representable_window clk days ->
  Attendance.get_attendance_percentage cfg clk s days db
    = (Ok {| percentage := PyInt 0; present_days := 0; total_days := 0;
             start_date := today clk - (days - 1);
             end_date := today clk |}, db) /\
  Attendance.get_attendance_history clk s days db
    = (Ok [{| he_date := today clk; he_logged_in := 0;
              he_login_time := None |}], db).
Proof.
  intros Hdays [Hhi Hlo].
  assert (today clk < today clk - (days - 1)) as Hempty by lia.
  split.
  - rewrite get_attendance_percentage_eq.
    assert ((days =? 30) = false) as -> by (apply Z.eqb_neq; lia). cbv zeta.
    rewrite date_sub_representable by lia.
    rewrite (empty_window_records db s _ _ Hempty). cbn [length Z.of_nat].
    change (0 =? 0) with true. cbv iota.
    rewrite (missing_days_loop_spec s (today clk) (today clk) 0)
      by (rewrite ?Z.min_id; unfold MINORDINAL in *; lia).
    cbn [days_from filter map app]. unfold stats_of.
    assert (filter (fun r => in_window s (today clk - (days - 1)) (today clk) r
                             && (at_logged_in r =? 1)) (attendance db) = [])
      as ->.
    { rewrite filter_andb. fold (records_in db s (today clk - (days - 1))
                                   (today clk)).
      rewrite (empty_window_records db s _ _ Hempty). reflexivity. }
    reflexivity.
  - rewrite get_attendance_history_eq.
    rewrite date_sub_representable by lia.
    rewrite (empty_window_records db s _ _ Hempty). reflexivity.
Qed.

Lemma empty_window_witness :
  0 <= 0 /\
  representable_window wednesday_9am 0 /\
  Attendance.get_attendance_percentage config_py wednesday_9am 1 0 marked_db
    = (Ok {| percentage := PyInt 0; present_days := 0; total_days := 0;
             start_date := today wednesday_9am - (0 - 1);
             end_date := today wednesday_9am |}, marked_db) /\
  Attendance.get_attendance_history wednesday_9am 1 0 marked_db
    = (Ok [{| he_date := today wednesday_9am; he_logged_in := 0;
              he_login_time := None |}], marked_db).
Proof.
  assert (representable_window wednesday_9am 0) as Hw
    by (window_facts; vm_compute; repeat split; discriminate).
  split; [lia|]. split; [exact Hw|].
  apply (empty_window config_py wednesday_9am 1 0 marked_db (Z.le_refl 0) Hw).
Defined.

(** ** Whole weeks *)

Lemma days_from_app (a : date) (n m : nat) :
  days_from a (n + m) = days_from a n ++ days_from (a + Z.of_nat n) m.
Proof.
  revert a. induction n as [|n IH]; intros a.
  - simpl. f_equal. lia.
  - cbn [Nat.add days_from app]. rewrite IH.
    replace (a + Z.of_nat (S n)) with (a + 1 + Z.of_nat n) by lia.
    reflexivity.
Qed.

Lemma weekdays_in_weeks (a : date) (k : nat) :
  length (filter is_weekday (days_from a (7 * k))) = (5 * k)%nat.
Proof.
  revert a. induction k as [|k IH]; intros a; [reflexivity|].
  replace (7 * S k)%nat with (7 + 7 * k)%nat by lia.
  rewrite days_from_app, filter_app, length_app, IH.
  pose proof (five_weekdays (a + 6)) as H5. unfold days_between in H5.
  replace (a + 6 + 1 - (a + 6 - 6)) with 7 in H5 by lia.
  replace (a + 6 - 6) with a in H5 by lia.
  change (Z.to_nat 7) with 7%nat in H5. rewrite H5. lia.
Qed.

(** X10: over a window of [k] whole weeks that holds no record of the
    student, [get_attendance_percentage] backfills 5 * k absent records,
    whatever the day of the week, and returns total_days = 5 * k and
    present_days = 0. *)
Theorem first_percentage_of_weeks
    (cfg : config) (clk : clock) (s k : Z) (db : database) :
  0 <= k ->
  representable_window clk (7 * k) ->
  student_exists db s = true ->
  records_in db s (today clk - (7 * k - 1)) (today clk) = [] ->
  exists st db',
    Attendance.get_attendance_percentage cfg clk s (7 * k) db = (Ok st, db') /\
    total_days st = 5 * k /\
    present_days st = 0 /\
    Z.of_nat (length (attendance db'))
    = Z.of_nat (length (attendance db)) + 5 * k.
Proof.
  intros Hk [Hhi Hlo] Hs Hnone.
  pose proof (get_attendance_percentage_run cfg clk s (7 * k) db) as Hrun.
  cbv zeta in Hrun.
  assert ((7 * k =? 30) = false) as E by (apply Z.eqb_neq; lia).
  rewrite E in Hrun. specialize (Hrun Hhi Hlo Hs). rewrite Hnone in Hrun.
  set (hi := today clk) in *. set (lo := hi - (7 * k - 1)) in *.
  set (ds := filter is_weekday (days_between lo hi)) in *.
  assert (forall d, In d ds -> lo <= d <= hi) as Hds.
  { intros d Hd. unfold ds in Hd. apply filter_In in Hd.
    apply in_days_between. tauto. }
  destruct (records_after_backfill s lo hi ds db Hds)
    as (news & Ha & Hv & Hrec).
  rewrite Hnone in Hrec. cbn [app] in Hrec.
  assert (length news = (5 * Z.to_nat k)%nat) as Hlen.
  { rewrite <- (length_map row_values), Hv, length_map. unfold ds, days_between.
    replace (hi + 1 - lo) with (7 * k) by (unfold lo; lia).
    replace (Z.to_nat (7 * k)) with (7 * Z.to_nat k)%nat by lia.
    apply weekdays_in_weeks. }
  destruct (in_map_row_values s ds news Hv) as [_ Hall].
  eexists. eexists. split; [exact Hrun|].
  unfold stats_of. cbn [total_days present_days].
  rewrite Hrec, Hlen. split; [lia|]. split.
  2:{ rewrite Ha, length_app, Hlen. lia. }
  rewrite filter_andb.
  fold (records_in (insert_all db (map (absent_on s) ds)) s lo hi).
  rewrite Hrec, filter_none; [reflexivity|].
  intros r Hr. destruct (Hall r Hr) as (_ & H0 & _). rewrite H0. reflexivity.
Qed.

Lemma first_percentage_of_weeks_witness :
  0 <= 2 /\
  representable_window wednesday_9am (7 * 2) /\
  student_exists fresh_db 1 = true /\
  records_in fresh_db 1 (today wednesday_9am - (7 * 2 - 1))
    (today wednesday_9am) = [] /\
  exists st db',
    Attendance.get_attendance_percentage config_py wednesday_9am 1 (7 * 2)
      fresh_db = (Ok st, db') /\
    total_days st = 5 * 2 /\
    present_days st = 0 /\
    Z.of_nat (length (attendance db'))
    = Z.of_nat (length (attendance fresh_db)) + 5 * 2.
Proof.
  assert (representable_window wednesday_9am (7 * 2)) as Hw
    by (window_facts; vm_compute; repeat split; discriminate).
  split; [lia|]. split; [exact Hw|]. split; [reflexivity|].
  split; [reflexivity|].
  apply (first_percentage_of_weeks config_py wednesday_9am 1 2 fresh_db);
    [lia | exact Hw | reflexivity | reflexivity].
Defined.

(** ** The two views of the dashboard *)

Lemma Permutation_filter_length {A} (f : A -> bool) (l l' : list A) :
  Permutation l l' -> length (filter f l) = length (filter f l').
Proof.
  induction 1 as [|x l l' _ IH|x y l|l l' l'' _ IH1 _ IH2]; simpl.
  - reflexivity.
  - destruct (f x); simpl; rewrite IH; reflexivity.
  - destruct (f x), (f y); reflexivity.
  - rewrite IH1. exact IH2.
Qed.

Lemma filter_map_dict_factory (l : list attendance_row) :
  length (filter (fun e => he_logged_in e =? 1) (map dict_factory l))
  = length (filter (fun r => at_logged_in r =? 1) l).
Proof.
  induction l as [|r l IH]; simpl; [reflexivity|].
  destruct (at_logged_in r =? 1); simpl; rewrite IH; reflexivity.
Qed.

(** X11: the history read after a percentage of the same student and window
    on the same day agrees with it: when [total_days] is 0 the history is
    the single placeholder, otherwise it has [total_days] entries of which
    [present_days] are marked present.  (With [days] = 30 this holds when
    the configured period is 30, as shipped.) *)
Theorem history_agrees_with_percentage
    (cfg : config) (clk clk' : clock) (s days : Z) (db : database) :
  (days = 30 -> ATTENDANCE_PERIOD_DAYS cfg = 30) ->
  today clk' = today clk ->
  representable_window clk days ->
  student_exists db s = true ->
  exists st db' l,
    Attendance.get_attendance_percentage cfg clk s days db = (Ok st, db') /\
    Attendance.get_attendance_history clk' s days db' = (Ok l, db') /\
    if total_days st =? 0
    then l = [{| he_date := today clk; he_logged_in := 0;
                 he_login_time := None |}]
    else Z.of_nat (length l) = total_days st /\
         Z.of_nat (length (filter (fun e => he_logged_in e =? 1) l))
         = present_days st.
Proof.
  intros Hcfg Hday [Hhi Hlo] Hs.
  pose proof (get_attendance_percentage_run cfg clk s days db) as Hrun.
  cbv zeta in Hrun. rewrite (window_days_used cfg days Hcfg) in Hrun.
  specialize (Hrun Hhi Hlo Hs).
  set (hi := today clk) in *. set (lo := hi - (days - 1)) in *.
  set (db' := insert_all db _) in Hrun.
  pose proof (get_attendance_history_eq clk' s days db') as Hhist.
  rewrite Hday in Hhist. fold hi in Hhist.
  rewrite date_sub_representable in Hhist by (fold lo; lia). fold lo in Hhist.
  pose proof (order_by_date_desc_perm (records_in db' s lo hi)) as Hperm.
  destruct (records_in db' s lo hi) as [|r rs] eqn:Hrec.
  - eexists. exists db'. eexists. split; [exact Hrun|].
    split; [exact Hhist|]. unfold stats_of. cbn [total_days].
    rewrite ?Hrec. reflexivity.
  - apply (Permutation_map dict_factory) in Hperm.
    destruct (map dict_factory (order_by_date_desc (r :: rs))) as [|x l] eqn:Hl.
    + apply Permutation_nil in Hperm. discriminate Hperm.
    + eexists. exists db', (x :: l). split; [exact Hrun|].
      split; [exact Hhist|].
      unfold stats_of. cbn [total_days present_days]. rewrite ?Hrec.
      assert ((Z.of_nat (length (r :: rs)) =? 0) = false) as ->
        by (apply Z.eqb_neq; simpl length; lia).
      split.
      * rewrite (Permutation_length Hperm), length_map. reflexivity.
      * rewrite (Permutation_filter_length _ _ _ Hperm).
        rewrite filter_map_dict_factory, filter_andb.
        fold (records_in db' s lo hi). rewrite Hrec. reflexivity.
Qed.

Lemma history_agrees_with_percentage_witness :
  (7 = 30 -> ATTENDANCE_PERIOD_DAYS config_py = 30) /\
  today wednesday_5pm = today wednesday_9am /\
  representable_window wednesday_9am 7 /\
  student_exists marked_db 1 = true /\
  exists st db' l,
    Attendance.get_attendance_percentage config_py wednesday_9am 1 7 marked_db
      = (Ok st, db') /\
    Attendance.get_attendance_history wednesday_5pm 1 7 db' = (Ok l, db') /\
    if total_days st =? 0
    then l = [{| he_date := today wednesday_9am; he_logged_in := 0;
                 he_login_time := None |}]
    else Z.of_nat (length l) = total_days st /\
         Z.of_nat (length (filter (fun e => he_logged_in e =? 1) l))
         = present_days st.
Proof.
  assert (representable_window wednesday_9am 7) as Hw
    by (window_facts; vm_compute; repeat split; discriminate).
  assert (7 = 30 -> ATTENDANCE_PERIOD_DAYS config_py = 30) as Hcfg
    by reflexivity.
  split; [exact Hcfg|]. split; [reflexivity|]. split; [exact Hw|].
  split; [reflexivity|].
  apply (history_agrees_with_percentage config_py wednesday_9am wednesday_5pm
           1 7 marked_db Hcfg eq_refl Hw eq_refl).
Defined.

(** ** What a login and a percentage leave alone *)

Lemma map_set_login_other (t : datetime) (id : Z) (l : list attendance_row) :
  (forall r, In r l -> at_id r <> id) -> map (set_login t id) l = l.
Proof.
  induction l as [|x l IH]; simpl; intros H; [reflexivity|].
  rewrite IH by (intros r Hr; apply H; auto).
  unfold set_login. assert ((at_id x =? id) = false) as ->
    by (apply Z.eqb_neq; apply H; auto).
  reflexivity.
Qed.

(** X12: on a table that satisfies its constraints, [mark_attendance]
    changes nothing but today's record of its student: the records of every
    other student or day, the students and the sessions are what they were,
    and the table grows by one row exactly when the student exists and had
    no record for today. *)
Theorem mark_attendance_frame (clk : clock) (s : Z) (db : database) :
  attendance_wf db ->
  students (snd (Attendance.mark_attendance clk s db)) = students db /\
  sessions (snd (Attendance.mark_attendance clk s db)) = sessions db /\
  (forall s' d',
     (s', d') <> (s, today clk) ->
     records_of (snd (Attendance.mark_attendance clk s db)) s' d'
     = records_of db s' d') /\
  length (attendance (snd (Attendance.mark_attendance clk s db)))
  = (length (attendance db) +
     if student_exists db s
        && negb (existsb (attendance_key s (today clk)) (attendance db))
     then 1 else 0)%nat.
Proof.
  intros [Hid Hkey]. rewrite existsb_find, mark_attendance_eq.
  destruct (find (attendance_key s (today clk)) (attendance db))
    as [r0|] eqn:E0.
  - cbn [snd with_attendance students sessions attendance negb].
    rewrite andb_false_r, length_map, Nat.add_0_r.
    split; [reflexivity|]. split; [reflexivity|]. split; [|reflexivity].
    intros s' d' Hne. unfold records_of. cbn [attendance with_attendance].
    rewrite filter_map_set_login. apply map_set_login_other.
    intros r Hr Heq. apply filter_In in Hr. destruct Hr as [Hin Hk].
    apply find_key_some in E0. destruct E0 as (Hin0 & Hs0 & Hd0).
    assert (r = r0) by (apply (unique_id (attendance db)); assumption).
    subst r. apply attendance_key_spec in Hk. unfold at_key in Hk.
    apply Hne. congruence.
  - destruct (student_exists db s); cbn [snd andb negb].
    + cbn [append_attendance with_attendance students sessions attendance].
      rewrite length_app. cbn [length].
      split; [reflexivity|]. split; [reflexivity|]. split; [|reflexivity].
      intros s' d' Hne. unfold records_of.
      cbn [attendance with_attendance append_attendance].
      rewrite filter_app. cbn [filter attendance_values].
      assert (attendance_key s' d'
                {| at_id := next_rowid (seq_attendance db)
                              (map at_id (attendance db));
                   at_student_id := s; at_date := today clk;
                   at_logged_in := 1; at_login_time := Some (now clk) |}
              = false) as ->.
      { apply attendance_key_false. unfold at_key. cbn. congruence. }
      apply app_nil_r.
    + rewrite Nat.add_0_r. auto.
Qed.

Lemma mark_attendance_frame_witness :
  attendance_wf backfilled_db /\
  (1, today wednesday_9am - 1) <> (1, today wednesday_9am) /\
  records_of (snd (Attendance.mark_attendance wednesday_9am 1 backfilled_db))
    1 (today wednesday_9am - 1)
  = records_of backfilled_db 1 (today wednesday_9am - 1) /\
  length (attendance
            (snd (Attendance.mark_attendance wednesday_9am 1 backfilled_db)))
  = length (attendance backfilled_db).
Proof.
  assert (attendance_wf backfilled_db) as Hwf by concrete_wf.
  assert ((1, today wednesday_9am - 1) <> (1, today wednesday_9am)) as Hne
    by discriminate.
  split; [exact Hwf|]. split; [exact Hne|].
  destruct (mark_attendance_frame wednesday_9am 1 backfilled_db Hwf)
    as (_ & _ & Hother & Hlen).
  split; [apply Hother; exact Hne|]. rewrite Hlen. reflexivity.
Defined.

Lemma date_sub_inv (hi n x : Z) : date_sub hi n = Ok x -> x = hi - n.
Proof.
  unfold date_sub, timedelta_days.
  destruct ((- MAX_DELTA_DAYS <=? n) && (n <=? MAX_DELTA_DAYS));
    [|discriminate].
  destruct (date_in_range (hi - n)); [|discriminate].
  intros H. inversion H. reflexivity.
Qed.

(** Whatever the loop returns beyond what it was given is the tuple of a
    weekday between its first day and its last. *)
Lemma missing_days_loop_days (s : Z) (e t : date) (n : nat) :
  forall c acc l,
    (Z.to_nat (e + 1 - c) <= n)%nat ->
    Attendance.missing_days_loop s e t c acc = Ok l ->
    forall v, In v l ->
      In v acc \/
      exists d, v = absent_on s d /\ c <= d <= e /\ is_weekday d = true.
Proof.
  induction n as [|n IH]; intros c acc l Hn; rewrite missing_days_loop_unfold.
  - assert (((c <=? e) && (c <=? t)) = false) as ->.
    { apply andb_false_iff. left. apply Z.leb_gt. lia. }
    intros H v Hv. inversion H; subst. auto.
  - destruct ((c <=? e) && (c <=? t)) eqn:Hc.
    + apply andb_true_iff in Hc. destruct Hc as [Hc _]. apply Z.leb_le in Hc.
      destruct (date_add c 1) as [x|x] eqn:Hd; [|intros H; discriminate H].
      apply date_add_inv in Hd. subst x.
      intros H v Hv. apply (IH (c + 1)) with (v := v) in H; [|lia|exact Hv].
      destruct H as [H|(d & Hd & Hr & Hwd)].
      * destruct (weekday c <? 5) eqn:Ew; [|auto].
        apply in_app_iff in H. destruct H as [H|[<-|[]]]; [auto|].
        right. exists c. split; [reflexivity|]. split; [lia | exact Ew].
      * right. exists d. split; [exact Hd|]. split; [lia | exact Hwd].
    + intros H v Hv. inversion H; subst. auto.
Qed.

(** X13: whatever its arguments and whether it returns or raises,
    [get_attendance_percentage] never changes or removes an attendance
    record, a student or a session: all it can do is append records of its
    own student that are absent, without login time, and dated on weekdays
    of its window. *)
Theorem percentage_only_appends_absences
    (cfg : config) (clk : clock) (s days : Z) (db : database) :
  let w := if days =? 30 then ATTENDANCE_PERIOD_DAYS cfg else days in
  let db' := snd (Attendance.get_attendance_percentage cfg clk s days db) in
  students db' = students db /\
  sessions db' = sessions db /\
  exists news,
    attendance db' = attendance db ++ news /\
    forall r, In r news ->
      at_student_id r = s /\ at_logged_in r = 0 /\ at_login_time r = None /\
      today clk - (w - 1) <= at_date r <= today clk /\
      is_weekday (at_date r) = true.
Proof.
  intros w. cbv zeta. rewrite get_attendance_percentage_eq. fold w. cbv zeta.
  assert (students db = students db /\ sessions db = sessions db /\
          exists news, attendance db = attendance db ++ news /\
            forall r, In r news ->
              at_student_id r = s /\ at_logged_in r = 0 /\
              at_login_time r = None /\
              today clk - (w - 1) <= at_date r <= today clk /\
              is_weekday (at_date r) = true) as Hsame.
  { split; [reflexivity|]. split; [reflexivity|]. exists [].
    rewrite app_nil_r. split; [reflexivity | intros r []]. }
  destruct (date_sub (today clk) (w - 1)) as [lo|e] eqn:Hlo; [|exact Hsame].
  apply date_sub_inv in Hlo. subst lo.
  destruct (Z.of_nat _ =? 0); [|exact Hsame].
  destruct (Attendance.missing_days_loop s (today clk) (today clk) _ [])
    as [[|v vs]|e] eqn:Hloop; try exact Hsame.
  destruct (for_each insert_attendance (v :: vs) _) as [[u|e] c] eqn:Hrun.
  - pose proof (missing_days_loop_days s (today clk) (today clk) _ _ [] _
                  (le_n _) Hloop) as Hvals.
    apply insert_all_wf in Hrun. destruct Hrun as [Hp _]. cbn [snd].
    rewrite Hp.
    destruct (insert_all_attendance (v :: vs) db) as (news & Ha & Hv & Hst & Hse).
    split; [exact Hst|]. split; [exact Hse|]. exists news.
    split; [exact Ha|]. intros r Hr.
    assert (In (row_values r) (v :: vs)) as Hin
      by (rewrite <- Hv; apply in_map; exact Hr).
    destruct (Hvals _ Hin) as [[]|(d & Hd & Hrange & Hwd)].
    unfold row_values, absent_on in Hd. injection Hd as -> -> -> ->. auto.
  - cbn [snd].
    pose proof (for_each_insert_committed (v :: vs)
                  {| committed := db; pending := db |}) as Hc.
    rewrite Hrun in Hc. cbn [snd committed] in Hc. rewrite Hc. exact Hsame.
Qed.

(** * Properties of the request handlers of [app.py] *)

Ltac run_handler :=
  unfold bind, try_except, ret, model, flash, session_get, session_set,
    session_pop;
  cbn [app_db session_token flashes].

Lemma verify_password_student (sha256 : string -> string)
    (u p : string) (db : database) (id : Z) :
  fst (Student.verify_password sha256 u p db) = Ok (Some id) ->
  student_exists db id = true.
Proof.
  rewrite verify_password_eq. cbn [fst].
  destruct (find _ (students db)) as [r|] eqn:E; [|discriminate].
  cbn [option_map]. intros H. injection H as <-.
  apply find_some in E. destruct E as [Hin _].
  unfold student_exists. apply existsb_exists. exists r.
  split; [exact Hin | apply Z.eqb_refl].
Qed.

Lemma truthy_id_some (id : Z) : id <> 0 -> truthy_id (Some id) = Some id.
Proof.
  intros H. unfold truthy_id.
  destruct (Z.eqb_spec id 0); [contradiction | reflexivity].
Qed.

(** X14: a POST to [login] with the username and password of a stored
    student redirects to the dashboard and, before it does, stores a session
    for the token it puts into the browser's session and marks the student
    present today: afterwards the token validates for the student until it
    expires, and today's record of the student is the only one, marked
    present with the time of the login.  (The token is new, and the table
    satisfies its constraints.) *)
Theorem login_marks_attendance
    (sha256 : string -> string) (clk : clock) (token : string)
    (form : string -> option string) (st : app_state)
    (u p : string) (id : Z) :
  form "username"%string = Some u ->
  form "password"%string = Some p ->
  fst (Student.verify_password sha256 u p (app_db st)) = Ok (Some id) ->
  id <> 0 ->
  attendance_wf (app_db st) ->
  datetime_in_range (now clk + 24 * USEC_PER_HOUR) = true ->
  (forall r, In r (sessions (app_db st)) -> se_session_token r <> token) ->
  exists st',
    App.login sha256 clk token POST form st
      = (Ok (redirect "dashboard"), st') /\
    session_token st' = Some token /\
    (forall clk',
       now clk' < now clk + 24 * USEC_PER_HOUR ->
       fst (Session.validate clk' token (app_db st')) = Ok (Some id)) /\
    (exists r,
       records_of (app_db st') id (today clk) = [r] /\
       at_logged_in r = 1 /\
       at_login_time r = Some (now clk)) /\
    students (app_db st') = students (app_db st).
Proof.
  intros Hu Hp Hverify Hid Hwf Hrange Hfresh.
  pose proof (verify_password_student _ _ _ _ _ Hverify) as Hs.
  rewrite verify_password_eq in Hverify. cbn [fst] in Hverify.
  injection Hverify as Hfind.
  pose proof (session_create_eq clk token id (app_db st)) as Hcreate.
  unfold datetime_add_hours in Hcreate. rewrite Hrange, Hs in Hcreate.
  cbv zeta in Hcreate.
  match type of Hcreate with _ = (_, ?d) => set (db1 := d) in * end.
  assert (attendance_wf db1) as Hwf1 by exact Hwf.
  assert (student_exists db1 id = true) as Hs1 by exact Hs.
  destruct (mark_attendance_spec clk id db1 Hwf1 Hs1)
    as (db2 & r & Hmark & _ & _ & Hrec & Hlogged & Htime).
  destruct (mark_attendance_students clk id db1) as [Hst2 Hse2].
  rewrite Hmark in Hst2, Hse2. cbn [snd] in Hst2, Hse2.
  unfold App.login. rewrite Hu, Hp. run_handler.
  rewrite verify_password_eq, Hfind, (truthy_id_some id Hid).
  cbn [app_db]. rewrite Hcreate. cbn [app_db]. rewrite Hmark.
  eexists. split; [reflexivity|]. cbn [session_token app_db].
  split; [reflexivity|]. split; [|split].
  - intros clk' Hbefore. rewrite session_validate_eq, Hse2. cbn [fst].
    unfold db1. cbn [sessions]. rewrite find_app.
    rewrite (find_none_other_token token _ _ Hfresh). cbn [find].
    unfold session_live. cbn [se_session_token se_expires_at].
    rewrite String.eqb_refl.
    assert ((now clk' <? now clk + 24 * USEC_PER_HOUR) = true) as ->
      by (apply Z.ltb_lt; exact Hbefore).
    reflexivity.
  - exists r. auto.
  - rewrite Hst2. reflexivity.
Qed.

Lemma login_marks_attendance_witness :
  bob_login_form "username" = Some "bob"%string /\
  bob_login_form "password" = Some "pw2"%string /\
  fst (Student.verify_password example_digest "bob" "pw2"
         (app_db (anonymous registered_db))) = Ok (Some 2) /\
  2 <> 0 /\
  attendance_wf (app_db (anonymous registered_db)) /\
  datetime_in_range (now wednesday_9am + 24 * USEC_PER_HOUR) = true /\
  (forall r, In r (sessions (app_db (anonymous registered_db))) ->
             se_session_token r <> alice_token) /\
  exists st',
    App.login example_digest wednesday_9am alice_token POST bob_login_form
      (anonymous registered_db) = (Ok (redirect "dashboard"), st') /\
    session_token st' = Some alice_token /\
    fst (Session.validate wednesday_5pm alice_token (app_db st')) = Ok (Some 2) /\
    (exists r,
       records_of (app_db st') 2 (today wednesday_9am) = [r] /\
       at_logged_in r = 1 /\
       at_login_time r = Some (now wednesday_9am)).
Proof.
  assert (attendance_wf (app_db (anonymous registered_db))) as Hwf
    by concrete_wf.
  assert (forall r, In r (sessions (app_db (anonymous registered_db))) ->
                    se_session_token r <> alice_token) as Hfresh
    by (intros r []).
  assert (2 <> 0) as H2 by discriminate.
  split; [reflexivity|]. split; [reflexivity|]. split; [reflexivity|].
  split; [exact H2|]. split; [exact Hwf|]. split; [reflexivity|].
  split; [exact Hfresh|].
  destruct (login_marks_attendance example_digest wednesday_9am alice_token
              bob_login_form (anonymous registered_db) "bob" "pw2" 2
              eq_refl eq_refl eq_refl H2 Hwf eq_refl Hfresh)
    as (st' & Hrun & Htok & Hval & Hrec & _).
  exists st'. split; [exact Hrun|]. split; [exact Htok|].
  split; [apply Hval; vm_compute; reflexivity | exact Hrec].
Defined.

(** X15: [login] without matching credentials does nothing but flash a
    message and show the login page again: on a GET, on a POST that lacks
    the password, and on a POST whose username and password verify for no
    student (or for the id 0, which Python takes for false), the database
    and the browser's session are what they were; no session is created and
    no attendance is marked. *)
Theorem login_without_credentials
    (sha256 : string -> string) (clk : clock) (token : string)
    (method : http_method) (form : string -> option string) (st : app_state) :
  (method = POST ->
   forall u p id,
     form "username"%string = Some u ->
     form "password"%string = Some p ->
     fst (Student.verify_password sha256 u p (app_db st)) = Ok (Some id) ->
     id = 0) ->
  exists st',
    App.login sha256 clk token method form st
      = (Ok (render_template "login.html" None), st') /\
    app_db st' = app_db st /\
    session_token st' = session_token st.
Proof.
  intros Hno. unfold App.login, App.login_error.
  destruct method; [run_handler; eexists; split; [reflexivity|]; auto|].
  specialize (Hno eq_refl).
  destruct (form "password"%string) as [p|];
    [|run_handler; eexists; split; [reflexivity|]; auto].
  destruct (form "username"%string) as [u|].
  - specialize (Hno u p). run_handler.
    rewrite verify_password_eq in Hno |- *. cbn [fst app_db] in Hno |- *.
    destruct (option_map st_id _) as [id|]; cbn [truthy_id].
    + rewrite (Hno id eq_refl eq_refl eq_refl). cbn.
      eexists. split; [reflexivity|]. auto.
    + eexists. split; [reflexivity|]. auto.
  - run_handler. cbn [truthy_id]. eexists. split; [reflexivity|]. auto.
Qed.

Lemma login_without_credentials_witness :
  (POST = POST ->
   forall u p id,
     (fun _ : string => Some "mallory"%string) "username"%string = Some u ->
     (fun _ : string => Some "mallory"%string) "password"%string = Some p ->
     fst (Student.verify_password example_digest u p
            (app_db (anonymous registered_db))) = Ok (Some id) ->
     id = 0) /\
  exists st',
    App.login example_digest wednesday_9am alice_token POST
      (fun _ => Some "mallory"%string) (anonymous registered_db)
      = (Ok (render_template "login.html" None), st') /\
    app_db st' = registered_db /\
    session_token st' = None.
Proof.
  assert (POST = POST ->
          forall u p id,
            (fun _ : string => Some "mallory"%string) "username"%string = Some u ->
            (fun _ : string => Some "mallory"%string) "password"%string = Some p ->
            fst (Student.verify_password example_digest u p
                   (app_db (anonymous registered_db))) = Ok (Some id) ->
            id = 0)
    as Hno.
  { intros _ u p id Hu Hp. injection Hu as <-. injection Hp as <-.
    vm_compute. intros H. discriminate H. }
  split; [exact Hno|].
  apply (login_without_credentials example_digest wednesday_9am alice_token
           POST (fun _ => Some "mallory"%string) (anonymous registered_db) Hno).
Defined.

(** ** The guard of the protected views *)

Lemma app_state_eta (st : app_state) :
  {| app_db := app_db st; session_token := session_token st;
     flashes := flashes st |} = st.
Proof. destruct st; reflexivity. Qed.

Lemma validate_none_when_expired (clk : clock) (token : string) (db : database) :
  (forall r, In r (sessions db) -> se_session_token r = token ->
             se_expires_at r <= now clk) ->
  Session.validate clk token db = (Ok None, db).
Proof.
  intros H. rewrite session_validate_eq.
  destruct (find (session_live token (now clk)) (sessions db)) as [r|] eqn:E;
    [|reflexivity].
  apply find_some in E. destruct E as [Hin Hlive].
  apply session_live_spec in Hlive. destruct Hlive as [Htok Hexp].
  specialize (H r Hin Htok). lia.
Qed.

(** Without a live session the view is not run. *)
Lemma login_required_rejects (clk : clock) (f : Z -> M app_state response)
    (st : app_state) :
  (forall token r,
     session_token st = Some token ->
     In r (sessions (app_db st)) -> se_session_token r = token ->
     se_expires_at r <= now clk) ->
  exists st',
    App.login_required clk f st = (Ok (redirect "login"), st') /\
    app_db st' = app_db st /\
    session_token st' = None.
Proof.
  intros H. unfold App.login_required. run_handler.
  destruct (session_token st) as [token|] eqn:Htok.
  - rewrite (validate_none_when_expired clk token (app_db st));
      [|intros r; apply (H token r eq_refl)].
    cbn [truthy_id app_db]. eexists. split; [reflexivity|]. auto.
  - eexists. split; [reflexivity|]. cbn. auto.
Qed.

Lemma login_required_redirects (clk : clock) (st : app_state) :
  (forall token r,
     session_token st = Some token ->
     In r (sessions (app_db st)) -> se_session_token r = token ->
     se_expires_at r <= now clk) ->
  forall f, fst (App.login_required clk f st) = Ok (redirect "login").
Proof.
  intros H f. destruct (login_required_rejects clk f st H) as (st' & E & _).
  rewrite E. reflexivity.
Qed.

(** With a live session it is run, on the student of the session. *)
Lemma login_required_accepts (clk : clock) (f : Z -> M app_state response)
    (st : app_state) (token : string) (id : Z) :
  session_token st = Some token ->
  fst (Session.validate clk token (app_db st)) = Ok (Some id) ->
  id <> 0 ->
  App.login_required clk f st = f id st.
Proof.
  destruct st as [db tok shown]. cbn [session_token app_db].
  intros -> Hval Hid. unfold App.login_required. run_handler.
  rewrite session_validate_eq in Hval |- *. cbn [fst] in Hval.
  injection Hval as ->. rewrite (truthy_id_some id Hid). reflexivity.
Qed.

(** X16: a request that carries no session token, or a token that no
    unexpired session row carries (unknown, logged out or expired), is
    redirected to the login page by [dashboard], [api_attendance] and
    [index].  The protected views are not run, so the database is what it
    was (no backfill).  [dashboard] and [api_attendance] leave the browser's
    session without a token; [index] only redirects and leaves the
    browser's session, a stale token included, as it is. *)
Theorem protected_views_need_a_live_session
    (cfg : config) (clk : clock) (args_days : option Z) (st : app_state) :
  (forall token r,
     session_token st = Some token ->
     In r (sessions (app_db st)) -> se_session_token r = token ->
     se_expires_at r <= now clk) ->
  (exists st',
     App.dashboard cfg clk st = (Ok (redirect "login"), st') /\
     app_db st' = app_db st /\ session_token st' = None) /\
  (exists st',
     App.api_attendance cfg clk args_days st = (Ok (redirect "login"), st') /\
     app_db st' = app_db st /\ session_token st' = None) /\
  App.index clk st = (Ok (redirect "login"), st).
Proof.
  intros H. split; [|split].
  - apply login_required_rejects. exact H.
  - apply login_required_rejects. exact H.
  - unfold App.index. run_handler. destruct st as [db [token|] shown];
      cbn [session_token app_db flashes] in *; [|reflexivity].
    rewrite (validate_none_when_expired clk token db);
      [reflexivity | intros r; apply (H token r eq_refl)].
Qed.

Lemma protected_views_need_a_live_session_witness :
  (forall token r,
     session_token {| app_db := session_db; session_token := Some alice_token;
                      flashes := [] |} = Some token ->
     In r (sessions session_db) -> se_session_token r = token ->
     se_expires_at r <= now thursday_9am) /\
  (exists st',
     App.dashboard config_py thursday_9am
       {| app_db := session_db; session_token := Some alice_token;
          flashes := [] |} = (Ok (redirect "login"), st') /\
     app_db st' = session_db /\ session_token st' = None).
Proof.
  assert (forall token r,
            session_token {| app_db := session_db;
                             session_token := Some alice_token;
                             flashes := [] |} = Some token ->
            In r (sessions session_db) -> se_session_token r = token ->
            se_expires_at r <= now thursday_9am) as H.
  { intros token r _ [<-|[]] _. vm_compute. discriminate. }
  split; [exact H|].
  exact (proj1 (protected_views_need_a_live_session config_py thursday_9am None
                  {| app_db := session_db; session_token := Some alice_token;
                     flashes := [] |} H)).
Defined.

(** X17: [logout] deletes the sessions of the browser's token, drops the
    token from the browser's session and redirects to the login page,
    leaving students and attendance as they were.  The token is dead on the
    server: a later request that presents it again is redirected to the
    login page by [dashboard], [api_attendance] and [index]. *)
Theorem logout_revokes_session (st : app_state) :
  exists st',
    App.logout st = (Ok (redirect "login"), st') /\
    session_token st' = None /\
    students (app_db st') = students (app_db st) /\
    attendance (app_db st') = attendance (app_db st) /\
    forall token cfg clk args_days shown,
      session_token st = Some token ->
      let replay := {| app_db := app_db st'; session_token := Some token;
                       flashes := shown |} in
      fst (App.dashboard cfg clk replay) = Ok (redirect "login") /\
      fst (App.api_attendance cfg clk args_days replay) = Ok (redirect "login") /\
      fst (App.index clk replay) = Ok (redirect "login").
Proof.
  unfold App.logout. run_handler.
  destruct (session_token st) as [token|] eqn:Htok.
  - rewrite session_delete_eq. cbn [app_db].
    eexists. split; [reflexivity|]. cbn [session_token app_db students attendance].
    split; [reflexivity|]. split; [reflexivity|]. split; [reflexivity|].
    intros token' cfg clk args_days shown Heq. injection Heq as <-.
    set (replay := {| app_db := _; session_token := Some token;
                      flashes := shown |}).
    assert (forall tok r,
              session_token replay = Some tok ->
              In r (sessions (app_db replay)) -> se_session_token r = tok ->
              se_expires_at r <= now clk) as Hdead.
    { intros tok r Ht Hin Hr. unfold replay in Ht, Hin.
      cbn [session_token app_db sessions] in Ht, Hin. injection Ht as <-.
      apply filter_In in Hin. destruct Hin as [_ Hn].
      unfold has_token in Hn. rewrite Hr, String.eqb_refl in Hn.
      discriminate Hn. }
    split; [apply login_required_redirects; exact Hdead|].
    split; [apply login_required_redirects; exact Hdead|].
    unfold App.index. run_handler. unfold replay at 1. cbn [session_token].
    rewrite (validate_none_when_expired clk token (app_db replay));
      [reflexivity|].
    intros r. apply (Hdead token r eq_refl).
  - eexists. split; [reflexivity|]. cbn [session_token app_db].
    split; [exact Htok|]. split; [reflexivity|]. split; [reflexivity|].
    intros token cfg clk args_days shown Heq. discriminate Heq.
Qed.

Lemma logout_revokes_session_witness :
  session_token {| app_db := session_db; session_token := Some alice_token;
                   flashes := [] |} = Some alice_token /\
  exists st',
    App.logout {| app_db := session_db; session_token := Some alice_token;
                  flashes := [] |} = (Ok (redirect "login"), st') /\
    session_token st' = None /\
    fst (App.dashboard config_py wednesday_5pm
           {| app_db := app_db st'; session_token := Some alice_token;
              flashes := [] |}) = Ok (redirect "login").
Proof.
  split; [reflexivity|].
  destruct (logout_revokes_session
              {| app_db := session_db; session_token := Some alice_token;
                 flashes := [] |})
    as (st' & Hrun & Htok & _ & _ & Hreplay).
  exists st'. split; [exact Hrun|]. split; [exact Htok|].
  exact (proj1 (Hreplay alice_token config_py wednesday_5pm None [] eq_refl)).
Defined.

(** ** The dashboard after a login *)

Lemma in_filter_length {A} (f : A -> bool) (l : list A) (x : A) :
  In x l -> f x = true -> (1 <= length (filter f l))%nat.
Proof.
  intros Hin Hf. assert (In x (filter f l)) as H by (apply filter_In; auto).
  destruct (filter f l); [destruct H | simpl; lia].
Qed.

(** X18: for a browser with a live session of a stored student whose record
    of today is marked present (as [login] leaves it), [dashboard] renders
    the dashboard of that student and changes nothing: the statistics count
    at least one present day, at most [total_days], and the history holds
    an entry of today that is marked present.  (The configured period is at
    least one day, and both windows are representable.) *)
Theorem dashboard_shows_todays_login
    (cfg : config) (clk : clock) (st : app_state) (token : string) (id : Z) :
  session_token st = Some token ->
  fst (Session.validate clk token (app_db st)) = Ok (Some id) ->
  id <> 0 ->
  student_exists (app_db st) id = true ->
  day_state_of (app_db st) id (today clk) = PRESENT ->
  1 <= ATTENDANCE_PERIOD_DAYS cfg ->
  representable_window clk (ATTENDANCE_PERIOD_DAYS cfg) ->
  MINORDINAL <= today clk - 29 ->
  exists ctx,
    App.dashboard cfg clk st
      = (Ok (render_template "dashboard.html" (Some ctx)), st) /\
    st_id (ctx_student ctx) = id /\
    1 <= present_days (ctx_attendance_stats ctx)
      <= total_days (ctx_attendance_stats ctx) /\
    exists e,
      In e (ctx_attendance_history ctx) /\
      he_date e = today clk /\ he_logged_in e = 1.
Proof.
  intros Htok Hval Hid Hs Hday Hperiod [Hhi Hlo] H29.
  unfold App.dashboard.
  rewrite (login_required_accepts clk _ st token id Htok Hval Hid).
  destruct st as [db tok shown]. cbn [app_db session_token] in *.
  (* the student of the session *)
  assert (exists student,
            find (fun x => st_id x =? id) (students db) = Some student /\
            st_id student = id) as (student & Hfind & Hsid).
  { unfold student_exists in Hs. rewrite existsb_find in Hs.
    destruct (find (fun x => st_id x =? id) (students db)) as [x|] eqn:E;
      [|discriminate].
    exists x. split; [reflexivity|]. apply find_some in E.
    apply Z.eqb_eq. tauto. }
  (* today's record *)
  unfold day_state_of in Hday.
  destruct (find (attendance_key id (today clk)) (attendance db))
    as [r|] eqn:Er; [|discriminate].
  destruct (Z.eqb_spec (at_logged_in r) 1) as [Hlogged|]; [|discriminate].
  pose proof (find_some _ _ Er) as [Hin Hkey].
  apply find_key_some in Er. destruct Er as (_ & Hrs & Hrd).
  (* the percentage over the configured period *)
  set (w := ATTENDANCE_PERIOD_DAYS cfg) in *.
  pose proof (get_attendance_percentage_run cfg clk id 30 db) as Hgap.
  cbv zeta in Hgap. change (30 =? 30) with true in Hgap. cbv iota in Hgap.
  fold w in Hgap. specialize (Hgap Hhi Hlo Hs).
  assert (In r (records_in db id (today clk - (w - 1)) (today clk))) as Hin1.
  { unfold records_in. apply filter_In. split; [exact Hin|].
    apply (key_in_window id _ _ (today clk)); [exact Hkey | lia]. }
  destruct (records_in db id (today clk - (w - 1)) (today clk))
    as [|r0 rs] eqn:Hrec; [destruct Hin1|].
  cbn [map insert_all fold_left] in Hgap. rewrite Hrec in Hgap.
  (* the history over 30 days *)
  pose proof (get_attendance_history_eq clk id 30 db) as Hhist.
  change (30 - 1) with 29 in Hhist.
  rewrite date_sub_representable in Hhist
    by (unfold MINORDINAL, MAXORDINAL in *; lia).
  assert (In r (records_in db id (today clk - 29) (today clk))) as Hin2.
  { unfold records_in. apply filter_In. split; [exact Hin|].
    apply (key_in_window id _ _ (today clk)); [exact Hkey | lia]. }
  pose proof (order_by_date_desc_perm
                (records_in db id (today clk - 29) (today clk))) as Hperm.
  apply (Permutation_map dict_factory) in Hperm.
  assert (In (dict_factory r)
             (map dict_factory
                (order_by_date_desc
                   (records_in db id (today clk - 29) (today clk)))))
    as Hentry.
  { apply (Permutation_in _ (Permutation_sym Hperm)). apply in_map.
    exact Hin2. }
  destruct (map dict_factory (order_by_date_desc _)) as [|x l] eqn:Hl;
    [destruct Hentry|].
  (* the view *)
  run_handler. unfold Student.get_by_id, get_db_connection, select.
  cbn [pending committed]. rewrite Hfind. cbn [app_db].
  rewrite Hgap. cbn [app_db]. rewrite Hhist.
  eexists. split; [reflexivity|].
  cbn [ctx_student ctx_attendance_stats ctx_attendance_history].
  split; [exact Hsid|]. split.
  - unfold stats_of. cbn [present_days total_days].
    rewrite filter_andb.
    fold (records_in db id (today clk - (w - 1)) (today clk)). rewrite Hrec.
    pose proof (filter_length_le (fun x => at_logged_in x =? 1) (r0 :: rs)).
    pose proof (in_filter_length (fun x => at_logged_in x =? 1) (r0 :: rs) r
                  Hin1 (proj2 (Z.eqb_eq _ _) Hlogged)).
    lia.
  - exists (dict_factory r). split; [exact Hentry|].
    cbn [dict_factory he_date he_logged_in]. auto.
Qed.

Lemma dashboard_shows_todays_login_witness :
  session_token bob_logged_in = Some alice_token /\
  fst (Session.validate wednesday_5pm alice_token (app_db bob_logged_in))
    = Ok (Some 2) /\
  2 <> 0 /\
  student_exists (app_db bob_logged_in) 2 = true /\
  day_state_of (app_db bob_logged_in) 2 (today wednesday_5pm) = PRESENT /\
  1 <= ATTENDANCE_PERIOD_DAYS config_py /\
  representable_window wednesday_5pm (ATTENDANCE_PERIOD_DAYS config_py) /\
  MINORDINAL <= today wednesday_5pm - 29 /\
  exists ctx,
    App.dashboard config_py wednesday_5pm bob_logged_in
      = (Ok (render_template "dashboard.html" (Some ctx)), bob_logged_in) /\
    st_id (ctx_student ctx) = 2 /\
    1 <= present_days (ctx_attendance_stats ctx)
      <= total_days (ctx_attendance_stats ctx) /\
    exists e,
      In e (ctx_attendance_history ctx) /\
      he_date e = today wednesday_5pm /\ he_logged_in e = 1.
Proof.
  assert (2 <> 0) as H2 by discriminate.
  assert (1 <= ATTENDANCE_PERIOD_DAYS config_py) as Hp
    by (vm_compute; discriminate).
  assert (representable_window wednesday_5pm (ATTENDANCE_PERIOD_DAYS config_py))
    as Hw by (window_facts; vm_compute; repeat split; discriminate).
  assert (MINORDINAL <= today wednesday_5pm - 29) as H29
    by (vm_compute; discriminate).
  split; [reflexivity|]. split; [reflexivity|]. split; [exact H2|].
  split; [reflexivity|]. split; [reflexivity|]. split; [exact Hp|].
  split; [exact Hw|]. split; [exact H29|].
  apply (dashboard_shows_todays_login config_py wednesday_5pm bob_logged_in
           alice_token 2 eq_refl eq_refl H2 eq_refl eq_refl Hp Hw H29).
Defined.

(** X19: for a browser with a live session, [api_attendance] with a [days]
    argument whose window does not start on a date Python can represent
    answers with status 500 and the [OverflowError], and changes neither the
    database nor the browser's session; a missing or non-integer [days]
    argument counts as 30. *)
Theorem api_attendance_out_of_range
    (cfg : config) (clk : clock) (args_days : option Z) (st : app_state)
    (token : string) (id : Z) :
  let days := match args_days with Some d => d | None => 30 end in
  let w := if days =? 30 then ATTENDANCE_PERIOD_DAYS cfg else days in
  session_token st = Some token ->
  fst (Session.validate clk token (app_db st)) = Ok (Some id) ->
  id <> 0 ->
  ~ (MINORDINAL <= today clk - (w - 1) <= MAXORDINAL) ->
  App.api_attendance cfg clk args_days st
    = (Ok (jsonify (JsonError OverflowError) 500), st) /\
  App.api_attendance cfg clk None st = App.api_attendance cfg clk (Some 30) st.
Proof.
  intros days w Htok Hval Hid Hout. split; [|reflexivity].
  unfold App.api_attendance.
  rewrite (login_required_accepts clk _ st token id Htok Hval Hid).
  destruct st as [db tok shown]. cbn [app_db session_token] in *.
  run_handler. fold days. rewrite get_attendance_percentage_eq. fold w.
  cbv zeta. rewrite (date_sub_overflow _ _ Hout). reflexivity.
Qed.

Lemma api_attendance_out_of_range_witness :
  session_token bob_logged_in = Some alice_token /\
  fst (Session.validate wednesday_5pm alice_token (app_db bob_logged_in))
    = Ok (Some 2) /\
  2 <> 0 /\
  ~ (MINORDINAL <= today wednesday_5pm - (10000000 - 1) <= MAXORDINAL) /\
  App.api_attendance config_py wednesday_5pm (Some 10000000) bob_logged_in
    = (Ok (jsonify (JsonError OverflowError) 500), bob_logged_in).
Proof.
  assert (2 <> 0) as H2 by discriminate.
  assert (~ (MINORDINAL <= today wednesday_5pm - (10000000 - 1) <= MAXORDINAL))
    as Hout by (vm_compute; intros [H _]; apply H; reflexivity).
  split; [reflexivity|]. split; [reflexivity|]. split; [exact H2|].
  split; [exact Hout|].
  exact (proj1 (api_attendance_out_of_range config_py wednesday_5pm
                  (Some 10000000) bob_logged_in alice_token 2
                  eq_refl eq_refl H2 Hout)).
Defined.

(** ** Registration through the form *)

(** X20: a POST to [register] changes the database only when all four
    fields are present and not empty and neither the username nor the email
    is stored yet; then it appends the student and redirects to the login
    page, and the new student's username and password verify for a nonzero
    id.  With a field missing or empty, or with a username or email that is
    stored, it shows the form again and the database is what it was.  In no
    case does it touch the browser's session. *)
Theorem register_outcomes
    (sha256 : string -> string) (clk : clock)
    (form : string -> option string) (st : app_state) :
  let username := form "username"%string in
  let password := form "password"%string in
  let name := form "name"%string in
  let email := form "email"%string in
  let complete := truthy_field username && truthy_field password
                  && truthy_field name && truthy_field email in
  let taken :=
    existsb (fun s => String.eqb (st_username s) (field_value username))
            (students (app_db st))
    || existsb (fun s => String.eqb (st_email s) (field_value email))
               (students (app_db st)) in
  exists st',
    session_token st' = session_token st /\
    if complete && negb taken then
      App.register sha256 clk POST form st = (Ok (redirect "login"), st') /\
      (exists row,
         students (app_db st') = students (app_db st) ++ [row] /\
         st_username row = field_value username /\
         st_email row = field_value email /\
         st_id row <> 0 /\
         fst (Student.verify_password sha256 (field_value username)
                (field_value password) (app_db st'))
         = Ok (Some (st_id row))) /\
      attendance (app_db st') = attendance (app_db st) /\
      sessions (app_db st') = sessions (app_db st)
    else
      App.register sha256 clk POST form st
        = (Ok (render_template "register.html" None), st') /\
      app_db st' = app_db st.
Proof.
  intros username password name email complete taken.
  unfold App.register. fold username password name email. fold complete.
  destruct complete eqn:Hc; cbn [negb andb].
  - run_handler. rewrite student_create_run. fold taken.
    destruct taken eqn:Ht; cbn [negb app_db].
    + eexists. split; [|split; [reflexivity|reflexivity]]. reflexivity.
    + eexists. split; [|split; [reflexivity|]]; [reflexivity|].
      cbn [app_db students attendance sessions].
      split; [|split; reflexivity].
      eexists. split; [reflexivity|].
      cbn [st_username st_email st_id]. split; [reflexivity|].
      split; [reflexivity|]. split.
      * unfold next_rowid, max_rowid.
        assert (0 <= fold_right Z.max 0 (map st_id (students (app_db st))))
          by (induction (map st_id (students (app_db st))); simpl; lia).
        lia.
      * apply orb_false_iff in Ht. destruct Ht as [Hu _].
        rewrite verify_password_eq. cbn [fst students]. rewrite find_app.
        assert (find (fun s => String.eqb (st_username s) (field_value username)
                               && String.eqb (st_password s)
                                             (sha256 (field_value password)))
                     (students (app_db st)) = None) as ->.
        { apply find_none_iff. apply existsb_false_iff. intros x Hx.
          rewrite (proj1 (existsb_false_iff _ _) Hu x Hx). reflexivity. }
        cbn [find st_username st_password]. rewrite !String.eqb_refl.
        reflexivity.
  - run_handler. eexists. split; [|split; reflexivity]. reflexivity.
Qed.
